(** * ProMetheus: the assistant session of [assistente_local.py]

    A shallow embedding of the class [AssistenteAcademicoCristao]: the
    answer cache, the conversation history, the offline keyword search,
    the resource gate, the error classification and the usage
    statistics, followed by the properties of the specification that
    concern them.

    Python values are modelled as follows.
    - [str] is a list of Unicode code points ([N]); slicing and [len]
      count code points, as in Python.
    - a [dict] used as a map from [str] to [str] is a [gmap].
    - a [float] is a binary64 primitive float.
    - the builtins the program takes from the Python runtime
      ([str.lower], the white space class of [str.split], [sum] over a
      list of floats, [datetime.isoformat]) are parameters of the
      development. *)

From Stdlib Require Import NArith ZArith List String Ascii QArith.
From Stdlib Require Import Uint63 PrimFloat SpecFloat FloatOps FloatAxioms.
From stdpp Require Import gmap list pretty.

#[local] Set Warnings "-inexact-float".

Local Open Scope N_scope.
Local Open Scope list_scope.

(** ** Python strings *)

Abbreviation str := (list N).

(** Decoding of the UTF-8 bytes of a literal of this file into code
    points; [pend] continuation bytes are still expected and [acc] holds
    the bits read so far. *)
Fixpoint utf8_decode_aux (s : string) (pend : nat) (acc : N) : str :=
  match s with
  | EmptyString => []
  | String a s' =>
      let b := N_of_ascii a in
      match pend with
      | O =>
          if b <? 128 then b :: utf8_decode_aux s' 0 0
          else if b <? 224 then utf8_decode_aux s' 1 (b - 192)
          else if b <? 240 then utf8_decode_aux s' 2 (b - 224)
          else utf8_decode_aux s' 3 (b - 240)
      | S O => (acc * 64 + (b - 128)) :: utf8_decode_aux s' 0 0
      | S p => utf8_decode_aux s' p (acc * 64 + (b - 128))
      end
  end.

Definition lit (s : string) : str := utf8_decode_aux s 0 0.

(** [p in s] for two strings: [p] occurs in [s] as a contiguous run. *)
Fixpoint startswith (s p : str) {struct p} : bool :=
  match p, s with
  | [], _ => true
  | _ :: _, [] => false
  | a :: p', b :: s' => N.eqb a b && startswith s' p'
  end.

Fixpoint str_in (p s : str) : bool :=
  startswith s p ||
  match s with
  | [] => false
  | _ :: s' => str_in p s'
  end.

(** [s[:n]] *)
Definition slice_to (n : nat) (s : str) : str := firstn n s.

(** Lowering and white space of the ASCII range, the instance used on
    concrete ASCII texts. *)
Definition ascii_lower (s : str) : str :=
  map (fun c => if (65 <=? c) && (c <=? 90) then c + 32 else c) s.

Definition ascii_isspace (c : N) : bool :=
  ((9 <=? c) && (c <=? 13)) || ((28 <=? c) && (c <=? 32)).

Section Split.

Variable isspace : N -> bool.

(** [s.split()]: the maximal runs of characters that are not white
    space, in order; [cur] is the run being read. *)
Fixpoint split_aux (cur : str) (s : str) : list str :=
  match s with
  | [] => match cur with [] => [] | _ :: _ => [cur] end
  | c :: s' =>
      if isspace c
      then match cur with
           | [] => split_aux [] s'
           | _ :: _ => cur :: split_aux [] s'
           end
      else split_aux (cur ++ [c]) s'
  end.

Definition split (s : str) : list str := split_aux [] s.

End Split.

Section Strip.

Variable isspace : N -> bool.

(** [s.lstrip()] *)
Fixpoint lstrip (s : str) : str :=
  match s with
  | [] => []
  | c :: s' => if isspace c then lstrip s' else s
  end.

(** [s.strip()] *)
Definition strip (s : str) : str := rev (lstrip (rev (lstrip s))).

End Strip.

(** [s.split(sep)] for a separator [sep] of one character: the pieces
    between its occurrences, the empty ones included; [cur] is the piece
    being read. *)
Fixpoint split_sep_aux (sep : N) (cur : str) (s : str) : list str :=
  match s with
  | [] => [cur]
  | c :: s' =>
      if N.eqb c sep then cur :: split_sep_aux sep [] s'
      else split_sep_aux sep (cur ++ [c]) s'
  end.

Definition split_sep (sep : N) (s : str) : list str := split_sep_aux sep [] s.

(** [sep.join(l)] *)
Fixpoint join (sep : str) (l : list str) : str :=
  match l with
  | [] => []
  | [x] => x
  | x :: l' => x ++ sep ++ join sep l'
  end.

(** [s.replace(old, new)] for a non-empty [old]: the occurrences of [old]
    are replaced from left to right; [skip] characters of an occurrence
    already replaced are still to be passed over. *)
Fixpoint replace_aux (old new : str) (skip : nat) (s : str) : str :=
  match s with
  | [] => []
  | c :: s' =>
      match skip with
      | S k => replace_aux old new k s'
      | O =>
          if startswith (c :: s') old
          then new ++ replace_aux old new (length old - 1) s'
          else c :: replace_aux old new 0 s'
      end
  end.

Definition replace (old new s : str) : str := replace_aux old new 0 s.

(** ** Text constants of the program *)

Definition NL : str := [10].

Definition MSG_SEM_HISTORICO : str :=
  lit "📵 Modo offline: Sem respostas no histórico. Conecte-se para gerar novas respostas.".

Definition PREFIXO_HISTORICO : str := lit "📚 (Do histórico) ".

Definition MSG_NENHUMA_SIMILAR : str :=
  lit "📵 Modo offline: Nenhuma resposta similar encontrada no histórico.".

Definition MSG_POUCOS_RECURSOS : str :=
  lit "⚠️ Sistema com poucos recursos. Tente uma pergunta mais simples.".

Definition MSG_ERRO_INESPERADO : str :=
  lit "❌ Erro inesperado. Verifique os logs para mais detalhes.".

Definition MSG_SEM_DADOS : str := lit "Sem dados de uso ainda".

(** The dictionary literal of [_resposta_erro], in the order in which
    its items are visited. *)
Definition respostas_erro : list (str * str) :=
  [ (lit "connection", lit "🔌 Erro de conexão. Verifique se o Ollama está rodando.");
    (lit "memory", lit "💾 Memória insuficiente. Feche alguns programas.");
    (lit "model", lit "🤖 Modelo não encontrado. Execute: ollama pull llama3.2:3b") ].

Definition MODELO_PADRAO : str := lit "llama3.2:3b-instruct-q4_K_M".

(** The text returned by [_carregar_contexto_cristao]. *)
Definition CONTEXTO_CRISTAO : str :=
  NL ++
  lit "        Você é um assistente acadêmico guiado por princípios cristãos." ++ NL ++
  lit "        " ++ NL ++
  lit "        Diretrizes fundamentais:" ++ NL ++
  lit "        1. Sempre seja honesto, paciente e compassivo" ++ NL ++
  lit "        2. Promova o conhecimento de forma ética e construtiva" ++ NL ++
  lit "        3. Ajude com excelência, como em Colossenses 3:23" ++ NL ++
  lit "        4. Seja humilde e reconheça limitações quando necessário" ++ NL ++
  lit "        5. Evite conteúdo inadequado ou prejudicial" ++ NL ++
  lit "        " ++ NL ++
  lit "        Especialidades:" ++ NL ++
  lit "        - Programação (Python, JavaScript, C++, etc.)" ++ NL ++
  lit "        - Ciência da Computação" ++ NL ++
  lit "        - Matemática e Algoritmos" ++ NL ++
  lit "        - Desenvolvimento de Software" ++ NL ++
  lit "        - Inteligência Artificial" ++ NL ++
  lit "        " ++ NL ++
  lit "        Responda sempre em português brasileiro, de forma clara e didática." ++ NL ++
  lit "        ".

(** ** Floats *)

(** Conversion of a Python [int] to [float]; the integers converted by
    the program (a list length, a byte count, [1024**3]) are below
    [2^63]. *)
Definition float_of_Z (z : Z) : float := PrimFloat.of_uint63 (Uint63.of_Z z).

(** The builtin [sum] on floats as the left-to-right addition starting
    from [0] (CPython before 3.12; later versions carry a compensation
    term, which is zero when every partial sum is exact). *)
Definition sum_esquerda (l : list float) : float :=
  fold_left PrimFloat.add l 0%float.

(** The rational denoted by a finite float. *)
Definition Q_of_float (x : float) : option Q :=
  match Prim2SF x with
  | S754_zero _ => Some 0%Q
  | S754_finite s m e =>
      let v := (if (0 <=? e)%Z
                then inject_Z (Z.pos m * 2 ^ e)
                else (Z.pos m # 1) / inject_Z (2 ^ (- e)))%Q in
      Some (if s then (- v)%Q else v)
  | S754_infinity _ => None
  | S754_nan => None
  end.

(** ** The outside world *)

(** One message of the list passed to [ollama.chat]. *)
Record Mensagem := { role : str; content : str }.

(** The [options] dictionary passed to [ollama.chat]. *)
Record Opcoes := {
  temperature : float;
  top_p : float;
  num_ctx : Z;
  num_thread : Z
}.

(** Outcome of the statements of [responder] that can raise inside its
    [try]: [ChatOk t] when [ollama.chat] returns a response whose
    [['message']['content']] is [t], [ChatErro e] when an [Exception]
    with text [str(e) = e] is raised. *)
Inductive ResultadoChat :=
| ChatOk (texto : str)
| ChatErro (e : str).

(** The file [cache_respostas.pkl]. *)
Inductive Arquivo :=
| Ausente
| Pickle (c : gmap str str)
| Ilegivel (e : str).

Inductive Nivel := INFO | WARNING | ERROR.

(** The records written through [logging], one constructor per call
    site, with the values formatted into the message. *)
Inductive Registro :=
| RamBaixa (gb : float)
| SistemaOK (gb : float)
| RespostaDoCache
| RespostaGerada (tempo : float)
| ErroGerarResposta (e : str)
| ItensAdicionados (n : nat)
| ErroCarregarConhecimento (e : str)
| ErroSalvarCache (e : str)
| CacheCarregado (n : nat)
| ErroCarregarCache (e : str).

(** The observable actions of the session, in the order they occur. *)
Inductive Evento :=
| Logging (n : Nivel) (r : Registro)
| OllamaChat (model : str) (messages : list Mensagem) (options : Opcoes)
    (r : ResultadoChat)
| PickleDump (c : gmap str str) (falha : option str).

Definition e_chat (e : Evento) : bool :=
  match e with OllamaChat _ _ _ _ => true | _ => false end.

Definition e_chat_ok (e : Evento) : bool :=
  match e with OllamaChat _ _ _ (ChatOk _) => true | _ => false end.

Definition e_dump (e : Evento) : bool :=
  match e with PickleDump _ _ => true | _ => false end.

(** The dictionary returned by [verificar_recursos]. *)
Record Status := {
  ram_disponivel_gb : float;
  ram_usada_pct : float;
  cpu_uso_pct : float;
  pode_executar : bool
}.

(** An element of the list read by [json.load]: a dictionary in which
    each of the two keys may be missing. *)
Record ItemJson := { j_pergunta : option str; j_resposta : option str }.

(** Outcome of [open] and [json.load] on the knowledge file. *)
Inductive ResultadoJson :=
| JsonErro (e : str)
| JsonLista (conhecimento : list ItemJson).

(** ** Notions used by the specification *)

(** [p] occurs in [s] as a contiguous run of characters. *)
Definition substring (p s : str) : Prop := exists a b, s = a ++ p ++ b.

(** The exact sum and the exact arithmetic mean of a list of finite
    floats, as rationals. *)
Fixpoint soma_exata (l : list float) : option Q :=
  match l with
  | [] => Some 0%Q
  | x :: l' =>
      match Q_of_float x, soma_exata l' with
      | Some q, Some r => Some (q + r)%Q
      | _, _ => None
      end
  end.

Definition media_exata (l : list float) : option Q :=
  match soma_exata l with
  | Some t => Some (t / inject_Z (Z.of_nat (length l)))%Q
  | None => None
  end.

(** ** Export and terminal *)

(** One dictionary of the list written by [exportar_historico]. *)
Record RegistroExport := {
  x_timestamp : str;
  x_pergunta : str;
  x_resposta : str;
  x_tempo_segundos : float
}.

(** What a path written by [exportar_historico] holds: the list dumped,
    or what a failed write left there. *)
Inductive ArquivoJson :=
| JsonGravado (registros : list RegistroExport)
| JsonParcial.

(** The records logged by [exportar_historico]. *)
Inductive RegistroExportacao :=
| HistoricoExportado (arquivo : str)
| ErroExportar (e : str).

(** A value of the dictionary of statistics. *)
Inductive Valor :=
| VInt (n : nat)
| VFloat (x : float)
| VStr (s : str).

(** What the program writes to the standard output: the argument of a
    [print], a statistic printed as key and value, the prompt of an
    [input]. *)
Inductive Impressao :=
| Texto (s : str)
| Estatistica (chave : str) (v : Valor)
| Pedido (s : str).

(** What [input] gives: a line, or one of the two exceptions it can
    raise, an interrupt from the keyboard or the end of the input, whose
    text is [e].  Interrupts are those that arrive while the program
    waits for a line. *)
Inductive Entrada :=
| Linha (texto : str)
| KeyboardInterrupt
| EOFError (e : str).

(** A pass through the body of the loop ends in [continue] (or at its
    end) or in [break]. *)
Inductive Passo := Continua | Encerra.

(** ** The session *)

Section Sessao.

(** The Python runtime: [datetime] values and their [isoformat],
    [str.lower], the white space class used by [str.split] and the
    builtin [sum] on a list of floats. *)
Context {datetime : Type}.
Variable isoformat : datetime -> str.
Variable lower : str -> str.
Variable isspace : N -> bool.
Variable sum : list float -> float.

(** What one call reads from its environment. *)
Record Ambiente := {
  mem_available : Z;        (* psutil.virtual_memory().available, bytes *)
  mem_percent : float;      (* psutil.virtual_memory().percent *)
  cpu_percent : float;      (* psutil.cpu_percent(interval=1) *)
  chat : str -> list Mensagem -> Opcoes -> ResultadoChat;
  time_inicio : float;      (* time.time() before ollama.chat *)
  time_fim : float;         (* time.time() after ollama.chat *)
  now : datetime;           (* datetime.now() *)
  (* None: open and pickle.dump succeed; Some (e, f): they raise an
     exception of text e and leave the file as f. *)
  dump_falha : option (str * Arquivo)
}.

(** An element of [self.historico]. *)
Record Interacao := {
  it_timestamp : datetime;
  it_pergunta : str;
  it_resposta : str;
  it_tempo_segundos : float
}.

(** The attributes of an [AssistenteAcademicoCristao]. *)
Record Assistente := {
  modelo : str;
  max_ram_gb : Z;
  historico : list Interacao;
  cache_respostas : gmap str str;
  contexto_cristao : str
}.

(** The object, the cache file and the actions performed so far. *)
Record Mundo := {
  self : Assistente;
  cache_pkl : Arquivo;
  eventos : list Evento
}.

(** *** Programs over the world *)

Definition Prog (A : Type) : Type := Mundo -> A * Mundo.

#[local] Instance prog_ret : MRet Prog := fun A a w => (a, w).

#[local] Instance prog_bind : MBind Prog :=
  fun A B f m w => let '(a, w') := m w in f a w'.

Definition get_self : Prog Assistente := fun w => (self w, w).

Definition put_self (s : Assistente) : Prog unit :=
  fun w => (tt, {| self := s; cache_pkl := cache_pkl w; eventos := eventos w |}).

Definition get_arquivo : Prog Arquivo := fun w => (cache_pkl w, w).

Definition put_arquivo (f : Arquivo) : Prog unit :=
  fun w => (tt, {| self := self w; cache_pkl := f; eventos := eventos w |}).

Definition emit (e : Evento) : Prog unit :=
  fun w => (tt, {| self := self w; cache_pkl := cache_pkl w;
                   eventos := eventos w ++ [e] |}).

Definition logging (n : Nivel) (r : Registro) : Prog unit := emit (Logging n r).

Definition set_historico (h : list Interacao) (s : Assistente) : Assistente :=
  {| modelo := modelo s; max_ram_gb := max_ram_gb s; historico := h;
     cache_respostas := cache_respostas s;
     contexto_cristao := contexto_cristao s |}.

Definition set_cache (c : gmap str str) (s : Assistente) : Assistente :=
  {| modelo := modelo s; max_ram_gb := max_ram_gb s; historico := historico s;
     cache_respostas := c; contexto_cristao := contexto_cristao s |}.

(** *** [verificar_recursos] *)

(** [mem.available / (1024**3)] *)
Definition gb_disponivel (amb : Ambiente) : float :=
  PrimFloat.div (float_of_Z (mem_available amb)) (float_of_Z (1024 ^ 3)).

Definition status_recursos (amb : Ambiente) : Status :=
  {| ram_disponivel_gb := gb_disponivel amb;
     ram_usada_pct := mem_percent amb;
     cpu_uso_pct := cpu_percent amb;
     pode_executar := PrimFloat.leb (float_of_Z 3) (gb_disponivel amb) |}.

Definition verificar_recursos (amb : Ambiente) : Prog Status :=
  let status := status_recursos amb in
  (if negb (pode_executar status)
   then logging WARNING (RamBaixa (ram_disponivel_gb status))
   else logging INFO (SistemaOK (ram_disponivel_gb status))) ;;
  mret status.

(** *** [otimizar_prompt] *)

(** [l[-n:]] *)
Definition ultimos {A} (n : nat) (l : list A) : list A :=
  skipn (length l - n) l.

Definition otimizar_prompt (s : Assistente) (pergunta contexto_aula : str) : str :=
  let prompt_completo := contexto_cristao s ++ NL in
  let prompt_completo :=
    match contexto_aula with
    | [] => prompt_completo
    | _ :: _ =>
        prompt_completo ++ NL ++ lit "Contexto da aula:" ++ NL
          ++ contexto_aula ++ NL
    end in
  let prompt_completo :=
    match historico s with
    | [] => prompt_completo
    | _ :: _ =>
        fold_left
          (fun acc h =>
             (acc ++ lit "P: " ++ slice_to 100 (it_pergunta h) ++ lit "..." ++ NL)
               ++ lit "R: " ++ slice_to 100 (it_resposta h) ++ lit "..." ++ NL ++ NL)
          (ultimos 3 (historico s))
          (prompt_completo ++ NL ++ lit "Histórico recente:" ++ NL)
    end in
  prompt_completo ++ NL ++ lit "Pergunta atual: " ++ pergunta.

(** *** [_buscar_resposta_similar] *)

(** [sum(1 for p in palavras if p in item['pergunta'].lower())] *)
Definition score (palavras : list str) (item : Interacao) : nat :=
  length (filter (fun p => str_in p (lower (it_pergunta item))) palavras).

(** One iteration of the loop over [self.historico], on the pair
    [(melhor_match, melhor_score)]. *)
Definition passo_busca (palavras : list str)
    (st : option Interacao * nat) (item : Interacao) : option Interacao * nat :=
  let '(melhor_match, melhor_score) := st in
  if (melhor_score <? score palavras item)%nat
  then (Some item, score palavras item)
  else (melhor_match, melhor_score).

Definition _buscar_resposta_similar (hist : list Interacao) (pergunta : str) : str :=
  match hist with
  | [] => MSG_SEM_HISTORICO
  | _ :: _ =>
      let palavras := split isspace (lower pergunta) in
      match fold_left (passo_busca palavras) hist (None, 0%nat) with
      | (Some melhor_match, melhor_score) =>
          if (0 <? melhor_score)%nat
          then PREFIXO_HISTORICO ++ it_resposta melhor_match
          else MSG_NENHUMA_SIMILAR
      | (None, _) => MSG_NENHUMA_SIMILAR
      end
  end.

(** *** [_resposta_erro] *)

Fixpoint primeira_resposta (itens : list (str * str)) (erro_lower : str) : option str :=
  match itens with
  | [] => None
  | (key, msg) :: itens' =>
      if str_in key erro_lower then Some msg
      else primeira_resposta itens' erro_lower
  end.

Definition _resposta_erro (erro : str) : str :=
  match primeira_resposta respostas_erro (lower erro) with
  | Some msg => msg
  | None => MSG_ERRO_INESPERADO
  end.

(** *** [_salvar_cache] *)

Definition _salvar_cache (amb : Ambiente) : Prog unit :=
  s ← get_self;
  match dump_falha amb with
  | None =>
      emit (PickleDump (cache_respostas s) None) ;;
      put_arquivo (Pickle (cache_respostas s))
  | Some (e, f) =>
      emit (PickleDump (cache_respostas s) (Some e)) ;;
      put_arquivo f ;;
      logging ERROR (ErroSalvarCache e)
  end.

(** *** [responder] *)

Definition OPCOES : Opcoes :=
  {| temperature := 0.7%float; top_p := 0.9%float;
     num_ctx := 2048; num_thread := 4 |}.

Definition cache_key (pergunta contexto_aula : str) : str :=
  pergunta ++ lit "_" ++ contexto_aula.

Definition responder (amb : Ambiente) (pergunta contexto_aula : str)
    (modo_offline usar_cache : bool) : Prog str :=
  let cache_key := cache_key pergunta contexto_aula in
  s ← get_self;
  match (if usar_cache then cache_respostas s !! cache_key else None) with
  | Some v =>
      logging INFO RespostaDoCache ;;
      mret v
  | None =>
      if modo_offline then mret (_buscar_resposta_similar (historico s) pergunta)
      else
        status ← verificar_recursos amb;
        if negb (pode_executar status) then mret MSG_POUCOS_RECURSOS
        else
          let prompt := otimizar_prompt s pergunta contexto_aula in
          let messages :=
            [ {| role := lit "system"; content := contexto_cristao s |};
              {| role := lit "user"; content := pergunta |} ] in
          let resposta := chat amb (modelo s) messages OPCOES in
          emit (OllamaChat (modelo s) messages OPCOES resposta) ;;
          match resposta with
          | ChatOk texto_resposta =>
              let tempo_resposta := PrimFloat.sub (time_fim amb) (time_inicio amb) in
              let s1 :=
                set_historico
                  (historico s ++
                     [ {| it_timestamp := now amb;
                          it_pergunta := pergunta;
                          it_resposta := texto_resposta;
                          it_tempo_segundos := tempo_resposta |} ]) s in
              put_self s1 ;;
              (if usar_cache
               then put_self (set_cache (<[cache_key := texto_resposta]>
                                           (cache_respostas s1)) s1) ;;
                    _salvar_cache amb
               else mret tt) ;;
              logging INFO (RespostaGerada tempo_resposta) ;;
              mret texto_resposta
          | ChatErro e =>
              logging ERROR (ErroGerarResposta e) ;;
              mret (_resposta_erro e)
          end
  end.

(** *** [adicionar_conhecimento_personalizado] *)

(** The loop [for item in conhecimento]: the entries written before
    the first malformed item stay in the dictionary. *)
Fixpoint carregar_itens (c : gmap str str) (conhecimento : list ItemJson)
    : gmap str str * option str :=
  match conhecimento with
  | [] => (c, None)
  | item :: resto =>
      match j_resposta item, j_pergunta item with
      | None, _ => (c, Some (lit "'resposta'"))
      | Some _, None => (c, Some (lit "'pergunta'"))
      | Some r, Some p => carregar_itens (<[p := r]> c) resto
      end
  end.

Definition adicionar_conhecimento_personalizado (amb : Ambiente)
    (arquivo_json : ResultadoJson) : Prog unit :=
  match arquivo_json with
  | JsonErro e => logging ERROR (ErroCarregarConhecimento e)
  | JsonLista conhecimento =>
      s ← get_self;
      let '(c, falha) := carregar_itens (cache_respostas s) conhecimento in
      put_self (set_cache c s) ;;
      match falha with
      | Some e => logging ERROR (ErroCarregarConhecimento e)
      | None =>
          _salvar_cache amb ;;
          logging INFO (ItensAdicionados (length conhecimento))
      end
  end.

(** *** [carregar_cache] *)

Definition carregar_cache : Prog unit :=
  f ← get_arquivo;
  match f with
  | Ausente => mret tt
  | Pickle c =>
      s ← get_self;
      put_self (set_cache c s) ;;
      logging INFO (CacheCarregado (size c))
  | Ilegivel e => logging ERROR (ErroCarregarCache e)
  end.

(** *** [estatisticas_uso] *)

Inductive Estatisticas :=
| SemDados (mensagem : str)
| Dados (total_perguntas : nat) (tempo_medio_resposta : float)
    (cache_size : nat) (primeira_pergunta ultima_pergunta : str).

Definition estatisticas_uso (s : Assistente) : Estatisticas :=
  match historico s with
  | [] => SemDados MSG_SEM_DADOS
  | primeira :: _ =>
      let tempos := map it_tempo_segundos (historico s) in
      Dados
        (length (historico s))
        (match tempos with
         | [] => 0%float
         | _ :: _ =>
             PrimFloat.div (sum tempos) (float_of_Z (Z.of_nat (length tempos)))
         end)
        (size (cache_respostas s))
        (isoformat (it_timestamp primeira))
        (isoformat (it_timestamp (List.last (historico s) primeira)))
  end.

(** *** [__init__] *)

(** The attributes set by the constructor; the record that its resource
    check logs precedes the actions observed in a world. *)
Definition novo_assistente : Assistente :=
  {| modelo := MODELO_PADRAO; max_ram_gb := 10; historico := [];
     cache_respostas := ∅; contexto_cristao := CONTEXTO_CRISTAO |}.

Definition mundo_inicial (f : Arquivo) : Mundo :=
  {| self := novo_assistente; cache_pkl := f; eventos := [] |}.

(** *** [modo_estudo] *)

(** The f-string of [modo_estudo]; an [int] is formatted in decimal. *)
Definition prompt_estudo (topico : str) (num_questoes : Z) : str :=
  NL ++
  lit "        Crie " ++ lit (pretty num_questoes)
    ++ lit " questões de estudo sobre " ++ topico ++ lit "." ++ NL ++
  lit "        Formate como:" ++ NL ++
  lit "        1. [Pergunta]" ++ NL ++
  lit "        2. [Pergunta]" ++ NL ++
  lit "        ..." ++ NL ++
  lit "        " ++ NL ++
  lit "        Foque em questões práticas e conceituais para programação." ++ NL ++
  lit "        ".

(** The truth value of [q.strip()]. *)
Definition nao_branca (q : str) : bool :=
  match strip isspace q with
  | [] => false
  | _ :: _ => true
  end.

Definition modo_estudo (amb : Ambiente) (topico : str) (num_questoes : Z)
    : Prog (list str) :=
  let prompt := prompt_estudo topico num_questoes in
  resposta ← responder amb prompt [] false true;
  let questoes := split_sep 10 resposta in
  mret (filter nao_branca questoes).

(** *** Notions used by the specification *)

(** The actions performed between the worlds [w] and [w']. *)
Definition novos_eventos (w w' : Mundo) : list Evento :=
  skipn (length (eventos w)) (eventos w').

(** The messages of a question for the chat interface. *)
Definition mensagens (s : Assistente) (pergunta : str) : list Mensagem :=
  [ {| role := lit "system"; content := contexto_cristao s |};
    {| role := lit "user"; content := pergunta |} ].

(** The cache lookup of [responder] misses. *)
Definition sem_cache (w : Mundo) (pergunta contexto_aula : str)
    (usar_cache : bool) : Prop :=
  (if usar_cache
   then cache_respostas (self w) !! cache_key pergunta contexto_aula
   else None) = None.

(** The resource check passes and the model answers [texto]. *)
Definition geracao (amb : Ambiente) (w : Mundo) (pergunta texto : str) : Prop :=
  pode_executar (status_recursos amb) = true /\
  chat amb (modelo (self w)) (mensagens (self w) pergunta) OPCOES = ChatOk texto.

(** The resource check passes and the call to the model raises [e]. *)
Definition falha_geracao (amb : Ambiente) (w : Mundo) (pergunta e : str) : Prop :=
  pode_executar (status_recursos amb) = true /\
  chat amb (modelo (self w)) (mensagens (self w) pergunta) OPCOES = ChatErro e.

(** Specification of the offline search: [item], at index [i], has
    the highest score of the history and is the earliest to reach
    it. *)
Definition melhor (palavras : list str) (hist : list Interacao)
    (i : nat) (item : Interacao) : Prop :=
  hist !! i = Some item /\
  (forall j outro, hist !! j = Some outro ->
     (score palavras outro <= score palavras item)%nat) /\
  (forall j outro, (j < i)%nat -> hist !! j = Some outro ->
     (score palavras outro < score palavras item)%nat).

(** Invariant of the loop of [_buscar_resposta_similar] after the
    items [hist], on the pair [(melhor_match, melhor_score)]. *)
Definition inv_busca (palavras : list str) (hist : list Interacao)
    (st : option Interacao * nat) : Prop :=
  (forall item, In item hist -> (score palavras item <= snd st)%nat) /\
  ((fst st = None /\ snd st = 0%nat) \/
   exists i item, fst st = Some item /\ melhor palavras hist i item /\
                  score palavras item = snd st /\ (0 < snd st)%nat).

(** Specification of the offline search: the tagged answer of the
    best Interaction when its score is positive, the sentinel of no
    similar answer otherwise. *)
Definition busca_conforme (hist : list Interacao) (pergunta : str) : Prop :=
  let palavras := split isspace (lower pergunta) in
  let r := _buscar_resposta_similar hist pergunta in
  (exists i item, melhor palavras hist i item /\
     (0 < score palavras item)%nat /\
     r = PREFIXO_HISTORICO ++ it_resposta item)
  \/
  ((forall item, In item hist -> score palavras item = 0%nat) /\
   r = MSG_NENHUMA_SIMILAR).

(** The operations of a session that touch the cache. *)
Inductive Operacao :=
| OpResponder (amb : Ambiente) (pergunta contexto_aula : str)
    (modo_offline usar_cache : bool)
| OpAdicionar (amb : Ambiente) (arquivo_json : ResultadoJson)
| OpCarregarCache.

Definition executar (op : Operacao) : Prog unit :=
  match op with
  | OpResponder amb p c off uc => responder amb p c off uc ;; mret tt
  | OpAdicionar amb j => adicionar_conhecimento_personalizado amb j
  | OpCarregarCache => carregar_cache
  end.

(** Every entry that [op] adds to the cache or changes in it holds the
    text of the one successful generation performed by [op]. *)
Definition escritas_geradas (op : Operacao) (w : Mundo) : Prop :=
  let w' := snd (executar op w) in
  forall k v,
    cache_respostas (self w') !! k = Some v ->
    cache_respostas (self w) !! k <> Some v ->
    exists model messages options,
      filter e_chat_ok (novos_eventos w w')
      = [OllamaChat model messages options (ChatOk v)].

(** The mean latency reported by the statistics is the exact
    arithmetic mean of the latencies [tempos]. *)
Definition media_conforme (e : Estatisticas) (tempos : list float) : Prop :=
  match e with
  | SemDados _ => False
  | Dados _ m _ _ _ =>
      exists q1 q2, Q_of_float m = Some q1 /\ media_exata tempos = Some q2 /\
                    (q1 == q2)%Q
  end.

(** *** [exportar_historico] *)

(** The session together with the files it exports, the records logged
    by the export and the standard output. *)
Record Sistema := {
  mundo : Mundo;
  arquivos : gmap str ArquivoJson;
  log_exportacao : list (Nivel * RegistroExportacao);
  stdout : list Impressao
}.

Definition registro_export (item : Interacao) : RegistroExport :=
  {| x_timestamp := isoformat (it_timestamp item);
     x_pergunta := it_pergunta item;
     x_resposta := it_resposta item;
     x_tempo_segundos := it_tempo_segundos item |}.

(** [falha] is [None] when [open] and [json.dump] succeed, and
    [Some (e, f)] when they raise an exception of text [e] and leave at
    the path what [f] says (nothing for [None]). *)
Definition exportar_historico (falha : option (str * option ArquivoJson))
    (arquivo : str) (t : Sistema) : Sistema :=
  let historico_export := map registro_export (historico (self (mundo t))) in
  match falha with
  | None =>
      {| mundo := mundo t;
         arquivos := <[arquivo := JsonGravado historico_export]> (arquivos t);
         log_exportacao := log_exportacao t ++ [(INFO, HistoricoExportado arquivo)];
         stdout := stdout t |}
  | Some (e, f) =>
      {| mundo := mundo t;
         arquivos := match f with
                     | Some c => <[arquivo := c]> (arquivos t)
                     | None => delete arquivo (arquivos t)
                     end;
         log_exportacao := log_exportacao t ++ [(ERROR, ErroExportar e)];
         stdout := stdout t |}
  end.

Definition ARQUIVO_HISTORICO : str := lit "historico_conversas.json".

(** *** The command loop of the program *)

Definition imprimir (i : Impressao) (t : Sistema) : Sistema :=
  {| mundo := mundo t; arquivos := arquivos t;
     log_exportacao := log_exportacao t; stdout := stdout t ++ [i] |}.

Definition com_mundo (w : Mundo) (t : Sistema) : Sistema :=
  {| mundo := w; arquivos := arquivos t;
     log_exportacao := log_exportacao t; stdout := stdout t |}.

(** [stats.items()] *)
Definition itens_estatisticas (e : Estatisticas) : list (str * Valor) :=
  match e with
  | SemDados m => [ (lit "mensagem", VStr m) ]
  | Dados n m c p u =>
      [ (lit "total_perguntas", VInt n);
        (lit "tempo_medio_resposta", VFloat m);
        (lit "cache_size", VInt c);
        (lit "primeira_pergunta", VStr p);
        (lit "ultima_pergunta", VStr u) ]
  end.

(** The variables of the loop: the assistant with its surroundings and
    the flag [modo_offline]. *)
Record Terminal := {
  sistema : Sistema;
  offline : bool
}.

(** What one pass of the loop reads from its environment. *)
Record AmbienteCLI := {
  cli_amb : Ambiente;
  cli_falha : option (str * option ArquivoJson)
}.

(** One pass through the body of [while True]. *)
Definition iteracao (a : AmbienteCLI) (entrada : Entrada) (t : Terminal)
    : Passo * Terminal :=
  let s0 := imprimir (Pedido (NL ++ lit "📝 Sua pergunta: ")) (sistema t) in
  match entrada with
  | KeyboardInterrupt =>
      (Encerra,
       {| sistema := imprimir (Texto (NL ++ NL ++ lit "👋 Programa interrompido. Até logo!")) s0;
          offline := offline t |})
  | EOFError e =>
      (Continua,
       {| sistema := imprimir (Texto (NL ++ lit "❌ Erro: " ++ e)) s0;
          offline := offline t |})
  | Linha texto =>
      let pergunta := strip isspace texto in
      match pergunta with
      | [] => (Continua, {| sistema := s0; offline := offline t |})
      | _ :: _ =>
          if decide (lower pergunta = lit "/sair") then
            (Encerra,
             {| sistema := imprimir (Texto (lit "👋 Até logo! Que Deus abençoe seus estudos!")) s0;
                offline := offline t |})
          else if decide (lower pergunta = lit "/offline") then
            let modo_offline := negb (offline t) in
            (Continua,
             {| sistema :=
                  imprimir (Texto (lit "📵 Modo offline: "
                                     ++ if modo_offline then lit "ATIVADO"
                                        else lit "DESATIVADO")) s0;
                offline := modo_offline |})
          else if decide (lower pergunta = lit "/stats") then
            let stats := estatisticas_uso (self (mundo s0)) in
            (Continua,
             {| sistema :=
                  fold_left (fun s kv => imprimir (Estatistica (fst kv) (snd kv)) s)
                    (itens_estatisticas stats)
                    (imprimir (Texto (NL ++ lit "📊 Estatísticas:")) s0);
                offline := offline t |})
          else if decide (lower pergunta = lit "/export") then
            (Continua,
             {| sistema := exportar_historico (cli_falha a) ARQUIVO_HISTORICO s0;
                offline := offline t |})
          else if startswith (lower pergunta) (lit "/estudo") then
            let topico := strip isspace (replace (lit "/estudo") [] pergunta) in
            match topico with
            | _ :: _ =>
                let s1 :=
                  imprimir (Texto (NL ++ lit "📚 Gerando questões sobre "
                                      ++ topico ++ lit "...")) s0 in
                let '(questoes, w') := modo_estudo (cli_amb a) topico 5 (mundo s1) in
                (Continua,
                 {| sistema := fold_left (fun s q => imprimir (Texto q) s) questoes
                                 (com_mundo w' s1);
                    offline := offline t |})
            | [] =>
                (Continua,
                 {| sistema := imprimir (Texto (lit "Use: /estudo [tópico]")) s0;
                    offline := offline t |})
            end
          else
            let s1 := imprimir (Texto (NL ++ lit "🤔 Processando...")) s0 in
            let '(resposta, w') :=
              responder (cli_amb a) pergunta [] (offline t) true (mundo s1) in
            (Continua,
             {| sistema :=
                  imprimir (Texto resposta)
                    (imprimir (Texto (NL ++ lit "🤖 Assistente:")) (com_mundo w' s1));
                offline := offline t |})
      end
  end.

(** The loop over the inputs given so far: it stops at the first
    [break]; with [Continua] it waits for more input. *)
Fixpoint laco (entradas : list (AmbienteCLI * Entrada)) (t : Terminal)
    : Passo * Terminal :=
  match entradas with
  | [] => (Continua, t)
  | (a, entrada) :: resto =>
      match iteracao a entrada t with
      | (Encerra, t') => (Encerra, t')
      | (Continua, t') => laco resto t'
      end
  end.

(** The statements after the loop. *)
Definition encerramento (falha : option (str * option ArquivoJson)) (t : Terminal)
    : Terminal :=
  let s1 := exportar_historico falha ARQUIVO_HISTORICO (sistema t) in
  {| sistema :=
       imprimir (Texto (NL ++ lit "📊 Total de interações: "
                           ++ lit (pretty (length (historico (self (mundo s1))))))) s1;
     offline := offline t |}.

(** The program from its loop on, on the inputs [entradas]: the state
    at its exit, or [None] while the loop still waits for input. *)
Definition programa (entradas : list (AmbienteCLI * Entrada))
    (falha : option (str * option ArquivoJson)) (t : Terminal) : option Terminal :=
  match laco entradas t with
  | (Encerra, t') => Some (encerramento falha t')
  | (Continua, _) => None
  end.

(** *** Notions of the properties of sequences of operations and of the loop *)

(** A sequence of operations, one after the other. *)
Fixpoint executar_todas (ops : list Operacao) : Prog unit :=
  match ops with
  | [] => mret tt
  | op :: resto => executar op ;; executar_todas resto
  end.

(** The cache file holds what the session holds in memory: reading it
    back, as a new session does, gives the same cache. *)
Definition em_sincronia (w : Mundo) : Prop :=
  match cache_pkl w with
  | Pickle c => c = cache_respostas (self w)
  | Ausente => cache_respostas (self w) = ∅
  | Ilegivel _ => False
  end.

(** An item of the knowledge file with both keys. *)
Definition bem_formado (item : ItemJson) : Prop :=
  is_Some (j_pergunta item) /\ is_Some (j_resposta item).

(** The knowledge file is unreadable as a whole or every item of it is
    well formed. *)
Definition carga_completa (j : ResultadoJson) : Prop :=
  match j with
  | JsonErro _ => True
  | JsonLista conhecimento => Forall bem_formado conhecimento
  end.

(** No write of the cache file fails and no knowledge file stops in the
    middle. *)
Definition op_regular (op : Operacao) : Prop :=
  match op with
  | OpResponder amb _ _ _ _ => dump_falha amb = None
  | OpAdicionar amb j => dump_falha amb = None /\ carga_completa j
  | OpCarregarCache => True
  end.

(** The answer that the last item of [conhecimento] with question [k]
    gives to it. *)
Fixpoint ultima_resposta (conhecimento : list ItemJson) (k : str) : option str :=
  match conhecimento with
  | [] => None
  | item :: resto =>
      match ultima_resposta resto k with
      | Some r => Some r
      | None => if decide (j_pergunta item = Some k) then j_resposta item else None
      end
  end.

(** A new session started on the files left by [w]. *)
Definition reiniciar (w : Mundo) : Mundo :=
  {| self := novo_assistente; cache_pkl := cache_pkl w; eventos := [] |}.


(** The line is a question for the assistant: not blank, not a command
    and not a request for study questions. *)
Definition linha_de_pergunta (texto : str) : Prop :=
  strip isspace texto <> [] /\
  ~ In (lower (strip isspace texto))
      [lit "/sair"; lit "/offline"; lit "/stats"; lit "/export"] /\
  startswith (lower (strip isspace texto)) (lit "/estudo") = false.

(** The line is the command that switches the offline mode. *)
Definition linha_offline (texto : str) : Prop :=
  strip isspace texto <> [] /\ lower (strip isspace texto) = lit "/offline".

End Sessao.

(** * The system monitor ([monitor_recursos.py]) *)

(** What [psutil] reports to [verificar_compatibilidade]: the memory and
    the free disk space in bytes, the use of memory and of the
    processor in percent, and the number of cores, which [psutil] may
    not know. *)
Record Metricas := {
  m_total : Z;                 (* psutil.virtual_memory().total *)
  m_available : Z;             (* psutil.virtual_memory().available *)
  m_percent : float;           (* psutil.virtual_memory().percent *)
  m_cpu_count : option Z;      (* psutil.cpu_count() *)
  m_cpu_percent : float;       (* psutil.cpu_percent(interval=1) *)
  m_disk_free : Z              (* psutil.disk_usage('/').free *)
}.

(** A line printed by the monitor: a fixed text, or one of the lines
    that format a number. *)
Inductive LinhaMonitor :=
| Fixa (s : str)
| RamTotal (gb : float)          (* f"   Total: {ram_total:.1f} GB" *)
| RamDisponivel (gb : float)     (* f"   Disponível: {ram_disponivel:.1f} GB" *)
| RamEmUso (pct : float)         (* f"   Em uso: {mem.percent}%" *)
| Cores (n : option Z)           (* f"   Cores: {cpu_cores}" *)
| UsoAtual (pct : float)         (* f"   Uso atual: {...}%" *)
| DiscoLivre (gb : float).       (* f"   Livre: {...:.1f} GB" *)

(** ["=" * 50] *)
Definition REGUA : str := repeat 61%N 50.

Definition REC_8 : list str :=
  [ lit "   ✅ Mistral 7B Q4 - Melhor qualidade";
    lit "   ✅ Llama 3.2 3B - Mais rápido";
    lit "   ✅ Qwen 2.5 7B Q4 - Bom em código" ].

Definition REC_5 : list str :=
  [ lit "   ✅ Llama 3.2 3B Q4 - Recomendado";
    lit "   ⚠️  Mistral 7B Q3 - Pode ser lento";
    lit "   ✅ Phi-3-mini - Alternativa leve" ].

Definition REC_3 : list str :=
  [ lit "   ✅ Llama 3.2 1B - Mais leve";
    lit "   ✅ Phi-3-mini Q4 - Eficiente";
    lit "   ⚠️  Modelos maiores não recomendados" ].

Definition MSG_RAM_INSUFICIENTE : str := lit "   ❌ RAM insuficiente!".

Definition REC_INSUFICIENTE : list str :=
  [ MSG_RAM_INSUFICIENTE;
    lit "   💡 Feche outros programas" ].

Definition MSG_PRONTO : str := lit "✅ SISTEMA PRONTO PARA IA LOCAL!".

Definition MSG_LIMITADO : str := lit "⚠️  SISTEMA LIMITADO - Use modelos menores".

(** The models recommended for [ram_disponivel] GB. *)
Definition recomendacoes (ram_disponivel : float) : list str :=
  if PrimFloat.leb (float_of_Z 8) ram_disponivel then REC_8
  else if PrimFloat.leb (float_of_Z 5) ram_disponivel then REC_5
  else if PrimFloat.leb (float_of_Z 3) ram_disponivel then REC_3
  else REC_INSUFICIENTE.

(** The final status. *)
Definition veredito (ram_disponivel : float) : str :=
  if PrimFloat.leb (float_of_Z 5) ram_disponivel then MSG_PRONTO else MSG_LIMITADO.

(** The lines printed and the value returned. *)
Definition verificar_compatibilidade (m : Metricas) : list LinhaMonitor * float :=
  let ram_total := PrimFloat.div (float_of_Z (m_total m)) (float_of_Z (1024 ^ 3)) in
  let ram_disponivel :=
    PrimFloat.div (float_of_Z (m_available m)) (float_of_Z (1024 ^ 3)) in
  ([ Fixa REGUA;
     Fixa (lit "🖥️  ANÁLISE DO SISTEMA");
     Fixa REGUA;
     Fixa (NL ++ lit "💾 MEMÓRIA RAM:");
     RamTotal ram_total;
     RamDisponivel ram_disponivel;
     RamEmUso (m_percent m);
     Fixa (NL ++ lit "🤖 MODELOS RECOMENDADOS:") ]
   ++ map Fixa (recomendacoes ram_disponivel)
   ++ [ Fixa (NL ++ lit "⚙️  PROCESSADOR:");
        Cores (m_cpu_count m);
        UsoAtual (m_cpu_percent m);
        Fixa (NL ++ lit "💿 ARMAZENAMENTO:");
        DiscoLivre (PrimFloat.div (float_of_Z (m_disk_free m)) (float_of_Z (1024 ^ 3)));
        Fixa (lit "   Necessário: ~10-20 GB para modelos");
        Fixa (NL ++ REGUA);
        Fixa (veredito ram_disponivel);
        Fixa REGUA ],
   ram_disponivel).

(** *** Notions of the properties of the monitor *)

(** The fixed text [s] is one of the lines [ls]. *)
Definition tem_linha (s : str) (ls : list LinhaMonitor) : bool :=
  existsb (fun l => match l with
                    | Fixa t => bool_decide (t = s)
                    | _ => false
                    end) ls.

(** Which of the statuses and of the recommendations are among the
    lines [ls]. *)
Definition tabela (ls : list LinhaMonitor) (pronto limitado insuficiente r8 r5 r3 r0 : bool)
    : Prop :=
  tem_linha MSG_PRONTO ls = pronto /\
  tem_linha MSG_LIMITADO ls = limitado /\
  tem_linha MSG_RAM_INSUFICIENTE ls = insuficiente /\
  forallb (fun s => tem_linha s ls) REC_8 = r8 /\
  forallb (fun s => tem_linha s ls) REC_5 = r5 /\
  forallb (fun s => tem_linha s ls) REC_3 = r3 /\
  forallb (fun s => tem_linha s ls) REC_INSUFICIENTE = r0.

(** ** A concrete runtime and concrete worlds

    Time stamps are seconds since some origin, printed in decimal; the
    texts are ASCII, on which [ascii_lower] and [ascii_isspace] agree
    with Python. *)

Module Exemplo.

Definition isoformat (t : N) : str := lit (pretty t).

Definition GiB : Z := 1024 ^ 3.

(** An environment with [mem] bytes available whose model answers
    [r] to every question and whose disk accepts every write. *)
Definition ambiente (mem : Z) (r : ResultadoChat) : @Ambiente N :=
  {| mem_available := mem; mem_percent := 50%float; cpu_percent := 10%float;
     chat := fun _ _ _ => r;
     time_inicio := 100%float; time_fim := 102%float; now := 7%N;
     dump_falha := None |}.

Definition item (t : N) (p r : string) (tempo : float) : @Interacao N :=
  {| it_timestamp := t; it_pergunta := lit p; it_resposta := lit r;
     it_tempo_segundos := tempo |}.

Definition com_historico (h : list (@Interacao N)) : @Mundo N :=
  {| self := set_historico h novo_assistente; cache_pkl := Ausente; eventos := [] |}.

Definition buscar := @_buscar_resposta_similar N ascii_lower ascii_isspace.

Definition responder := @responder N ascii_lower ascii_isspace.

Definition estatisticas := @estatisticas_uso N isoformat sum_esquerda.

(** Worlds and environments of the examples. *)
Definition hist_numpy : list (@Interacao N) :=
  [ item 1 "install numpy" "use pip install numpy" 1%float ].

Definition hist_tempos : list (@Interacao N) :=
  [ item 1 "a" "x" 1%float; item 2 "b" "y" 0%float; item 3 "c" "z" 0%float ].

Definition amb_ok : @Ambiente N := ambiente (8 * GiB) (ChatOk (lit "4")).

Definition amb_baixa : @Ambiente N := ambiente (1 * GiB) (ChatOk (lit "4")).

Definition amb_erro : @Ambiente N :=
  ambiente (8 * GiB) (ChatErro (lit "Connection refused")).

Definition mundo0 : @Mundo N := mundo_inicial Ausente.

Definition sessao_tempos : @Assistente N := set_historico hist_tempos novo_assistente.

Definition conhecimento_q : ResultadoJson :=
  JsonLista [ {| j_pergunta := Some (lit "q"); j_resposta := Some (lit "a") |} ].

(** Inputs of the examples on further operations. *)
Definition modo_estudo := @modo_estudo N ascii_lower ascii_isspace.

Definition amb_linhas : @Ambiente N :=
  ambiente (8 * GiB) (ChatOk (lit "1. A" ++ NL ++ lit "  " ++ NL ++ lit "2. B")).

Definition conhecimento_repetido : list ItemJson :=
  [ {| j_pergunta := Some (lit "q"); j_resposta := Some (lit "a") |};
    {| j_pergunta := Some (lit "q"); j_resposta := Some (lit "b") |} ].

Definition item_sem_resposta : ItemJson :=
  {| j_pergunta := Some (lit "r"); j_resposta := None |}.

Definition operacoes : list (@Operacao N) :=
  [ OpResponder amb_ok (lit "2+2?") [] false true;
    OpAdicionar amb_ok conhecimento_q;
    OpCarregarCache ].

Definition hist_tempos' : list (@Interacao N) :=
  [ item 11 "a" "x" 5%float; item 12 "b" "y" 6%float; item 13 "c" "z" 7%float ].

(** The command loop on a new session, with a disk that accepts the
    export. *)
Definition cli (amb : @Ambiente N) : @AmbienteCLI N :=
  {| cli_amb := amb; cli_falha := None |}.

Definition sistema0 : @Sistema N :=
  {| mundo := mundo0; arquivos := ∅; log_exportacao := []; stdout := [] |}.

Definition terminal0 : @Terminal N := {| sistema := sistema0; offline := false |}.

Definition iteracao := @iteracao N isoformat ascii_lower ascii_isspace sum_esquerda.

Definition laco := @laco N isoformat ascii_lower ascii_isspace sum_esquerda.

Definition programa := @programa N isoformat ascii_lower ascii_isspace sum_esquerda.

(** A machine with [mem] bytes of memory available. *)
Definition metricas (mem : Z) : Metricas :=
  {| m_total := 16 * GiB; m_available := mem; m_percent := 50%float;
     m_cpu_count := Some 4%Z; m_cpu_percent := 10%float; m_disk_free := 100 * GiB |}.

Definition entradas_sessao : list (@AmbienteCLI N * Entrada) :=
  [ (cli amb_ok, Linha (lit "2+2?"));
    (cli amb_ok, Linha (lit "  "));
    (cli amb_baixa, Linha (lit "2+2?"));
    (cli amb_ok, Linha (lit "/stats"));
    (cli amb_ok, Linha (lit "/SAIR")) ].

End Exemplo.

Example split_ex :
  split ascii_isspace (lit "  how do I  install numpy ")
  = [lit "how"; lit "do"; lit "I"; lit "install"; lit "numpy"].
Proof. reflexivity. Qed.

Example lit_ex : lit "é📵" = [233; 128245].
Proof. reflexivity. Qed.

Example busca_numpy :
  Exemplo.buscar [Exemplo.item 1 "install numpy" "use pip install numpy" 1%float]
    (lit "how do I install numpy")
  = lit "📚 (Do histórico) use pip install numpy".
Proof. vm_compute. reflexivity. Qed.

Example busca_empate :
  Exemplo.buscar
    [Exemplo.item 1 "Sort a list" "first" 1%float;
     Exemplo.item 2 "sort a dict" "second" 1%float;
     Exemplo.item 3 "sort a list of lists" "third" 1%float]
    (lit "SORT list")
  = lit "📚 (Do histórico) first".
Proof. vm_compute. reflexivity. Qed.

Example busca_sem_similar :
  Exemplo.buscar [Exemplo.item 1 "install numpy" "use pip" 1%float] (lit "hello world")
  = MSG_NENHUMA_SIMILAR.
Proof. vm_compute. reflexivity. Qed.

Example responder_duas_vezes :
  let amb := Exemplo.ambiente (8 * Exemplo.GiB) (ChatOk (lit "4")) in
  let '(r1, w1) := Exemplo.responder amb (lit "2+2?") [] false true (mundo_inicial Ausente) in
  let '(r2, w2) := Exemplo.responder amb (lit "2+2?") [] false true w1 in
  r1 = lit "4" /\ r2 = lit "4" /\
  cache_respostas (self w1) = {[ lit "2+2?_" := lit "4" ]} /\
  length (filter e_chat (eventos w2)) = 1%nat.
Proof. vm_compute. repeat split; reflexivity. Qed.

(** * Properties *)

Section Propriedades.

Context {datetime : Type}.
Variable isoformat : datetime -> str.
Variable lower : str -> str.
Variable isspace : N -> bool.
Variable sum : list float -> float.

Implicit Types (hist : list (@Interacao datetime)) (item : @Interacao datetime).
Implicit Types (w : @Mundo datetime) (amb : @Ambiente datetime).
Implicit Types (p s pergunta contexto_aula texto : str).

(** ** Strings *)

Lemma startswith_spec s p : startswith s p = true <-> exists b, s = p ++ b.
Proof.
  revert s. induction p as [|a p IH]; intros s; simpl.
  - split; [intros _; exists s; reflexivity | reflexivity].
  - destruct s as [|b s]; simpl.
    + split; [discriminate | intros [b' Hb]; discriminate].
    + rewrite andb_true_iff, N.eqb_eq, IH. split.
      * intros [-> [b' ->]]. exists b'. reflexivity.
      * intros [b' Hb]. injection Hb as -> ->. split; [reflexivity | eauto].
Qed.

Lemma str_in_spec p s : str_in p s = true <-> substring p s.
Proof.
  unfold substring. induction s as [|c s IH]; simpl.
  - rewrite orb_false_r, startswith_spec. split.
    + intros [b Hb]. exists [], b. exact Hb.
    + intros [a [b Hb]]. destruct a; [eauto | discriminate].
  - rewrite orb_true_iff, startswith_spec, IH. split.
    + intros [[b Hb] | [a [b Hb]]].
      * exists [], b. exact Hb.
      * exists (c :: a), b. simpl. congruence.
    + intros [[|c' a] [b Hb]].
      * left. exists b. exact Hb.
      * right. injection Hb as -> ->. eauto.
Qed.

(** The words of [split] are not empty and hold no white space. *)
Lemma split_aux_words cur s x :
  Forall (fun c => isspace c = false) cur ->
  In x (split_aux isspace cur s) ->
  x <> [] /\ Forall (fun c => isspace c = false) x.
Proof.
  revert cur. induction s as [|c s IH]; intros cur Hcur; simpl.
  - destruct cur; simpl; [tauto|]. intros [<- | []]. split; [discriminate | assumption].
  - destruct (isspace c) eqn:Hc.
    + destruct cur as [|c0 cur]; simpl.
      * apply IH. constructor.
      * intros [<- | Hin]; [split; [discriminate | assumption]|].
        apply (IH []); [constructor | assumption].
    + apply IH. apply Forall_app. split; [assumption | repeat constructor; assumption].
Qed.

Lemma split_words s x :
  In x (split isspace s) -> x <> [] /\ Forall (fun c => isspace c = false) x.
Proof. apply split_aux_words. constructor. Qed.

(** ** The offline search *)

Lemma score_spec palavras item :
  score lower palavras item
  = length (filter (fun p => str_in p (lower (it_pergunta item))) palavras).
Proof. reflexivity. Qed.

Lemma fold_passo_snoc palavras hist item st :
  fold_left (passo_busca lower palavras) (hist ++ [item]) st
  = passo_busca lower palavras (fold_left (passo_busca lower palavras) hist st) item.
Proof. rewrite fold_left_app. reflexivity. Qed.

Lemma melhor_snoc_keep palavras hist i item novo :
  melhor lower palavras hist i item ->
  (score lower palavras novo <= score lower palavras item)%nat ->
  melhor lower palavras (hist ++ [novo]) i item.
Proof.
  intros (Hi & Hmax & Hfirst) Hle.
  assert (Hlt : (i < length hist)%nat) by (eapply lookup_lt_Some; eassumption).
  repeat split.
  - rewrite lookup_app_l; assumption.
  - intros j outro Hj.
    destruct (decide (j < length hist)%nat) as [Hjl | Hjl].
    + rewrite lookup_app_l in Hj by assumption. eauto.
    + rewrite lookup_app_r in Hj by lia.
      destruct (j - length hist)%nat; simpl in Hj; [|discriminate].
      injection Hj as <-. assumption.
  - intros j outro Hji Hj.
    rewrite lookup_app_l in Hj by lia. eauto.
Qed.

Lemma melhor_snoc_new palavras hist novo :
  (forall item, In item hist ->
     (score lower palavras item < score lower palavras novo)%nat) ->
  melhor lower palavras (hist ++ [novo]) (length hist) novo.
Proof.
  intros Hall.
  assert (Hin : forall j outro, (j < length hist)%nat ->
                  (hist ++ [novo]) !! j = Some outro -> In outro hist).
  { intros j outro Hj Hl. rewrite lookup_app_l in Hl by assumption.
    apply list_elem_of_In. eapply list_elem_of_lookup_2. eassumption. }
  repeat split.
  - rewrite lookup_app_r by lia. rewrite Nat.sub_diag. reflexivity.
  - intros j outro Hj.
    destruct (decide (j < length hist)%nat) as [Hjl | Hjl].
    + apply Nat.lt_le_incl. eauto.
    + rewrite lookup_app_r in Hj by lia.
      destruct (j - length hist)%nat; simpl in Hj; [|discriminate].
      injection Hj as <-. lia.
  - intros j outro Hjl Hj. eauto.
Qed.

Lemma inv_busca_fold palavras hist :
  inv_busca lower palavras hist (fold_left (passo_busca lower palavras) hist (None, 0%nat)).
Proof.
  induction hist as [|novo hist IH] using rev_ind.
  - split; [intros item [] | left; split; reflexivity].
  - rewrite fold_passo_snoc.
    destruct (fold_left (passo_busca lower palavras) hist (None, 0%nat))
      as [m sc] eqn:Hfold.
    destruct IH as [Hle Hst]. simpl in Hle, Hst. unfold passo_busca.
    destruct (Nat.ltb_spec sc (score lower palavras novo)) as [Hlt | Hge].
    + split; simpl.
      * intros item Hin. apply in_app_or in Hin as [Hin | [<- | []]].
        -- specialize (Hle item Hin). lia.
        -- lia.
      * right. exists (length hist), novo.
        split; [reflexivity|]. split; [|split; lia].
        apply melhor_snoc_new. intros item Hin. specialize (Hle item Hin). lia.
    + split; simpl.
      * intros item Hin. apply in_app_or in Hin as [Hin | [<- | []]]; eauto.
      * destruct Hst as [Hnone | (i & item & Hm & Hbest & Hsc & Hpos)];
          [left; assumption|].
        right. exists i, item.
        split; [assumption|]. split; [|split; assumption].
        apply melhor_snoc_keep; [assumption | lia].
Qed.


(** ** Running [responder] *)

Ltac roda :=
  unfold responder, verificar_recursos, _salvar_cache, logging, emit,
    get_self, put_self, put_arquivo, mbind, prog_bind, mret, prog_ret;
  simpl.

Lemma responder_cache_hit amb pergunta contexto_aula modo_offline w v :
  cache_respostas (self w) !! cache_key pergunta contexto_aula = Some v ->
  responder lower isspace amb pergunta contexto_aula modo_offline true w
  = (v, {| self := self w; cache_pkl := cache_pkl w;
           eventos := eventos w ++ [Logging INFO RespostaDoCache] |}).
Proof. intros Hhit. roda. rewrite Hhit. reflexivity. Qed.

Lemma responder_offline amb pergunta contexto_aula usar_cache w :
  sem_cache w pergunta contexto_aula usar_cache ->
  responder lower isspace amb pergunta contexto_aula true usar_cache w
  = (_buscar_resposta_similar lower isspace (historico (self w)) pergunta, w).
Proof. unfold sem_cache. intros Hmiss. roda. rewrite Hmiss. reflexivity. Qed.

(** C8: on an empty history the offline search returns the sentinel
    of an empty history, whatever the query; it is a total function,
    and so is [responder], which returns that sentinel in offline mode
    and leaves the world as it was. *)
Theorem C8_busca_historico_vazio pergunta :
  _buscar_resposta_similar (datetime := datetime) lower isspace [] pergunta
  = MSG_SEM_HISTORICO /\
  (forall amb contexto_aula usar_cache w,
     historico (self w) = [] ->
     sem_cache w pergunta contexto_aula usar_cache ->
     responder lower isspace amb pergunta contexto_aula true usar_cache w
     = (MSG_SEM_HISTORICO, w)).
Proof.
  split; [reflexivity|].
  intros amb contexto_aula usar_cache w Hvazio Hmiss.
  rewrite responder_offline by assumption. rewrite Hvazio. reflexivity.
Qed.

Lemma novos_eventos_app w w' l :
  eventos w' = eventos w ++ l -> novos_eventos w w' = l.
Proof. unfold novos_eventos. intros ->. apply drop_app_length. Qed.

Lemma responder_gate amb pergunta contexto_aula usar_cache w :
  sem_cache w pergunta contexto_aula usar_cache ->
  pode_executar (status_recursos amb) = false ->
  responder lower isspace amb pergunta contexto_aula false usar_cache w
  = (MSG_POUCOS_RECURSOS,
     {| self := self w; cache_pkl := cache_pkl w;
        eventos := eventos w ++ [Logging WARNING (RamBaixa (gb_disponivel amb))] |}).
Proof.
  unfold sem_cache. intros Hmiss Hgate. roda. rewrite Hmiss.
  simpl in Hgate. repeat (rewrite Hgate; simpl). reflexivity.
Qed.

(** The actions of a successful generation, in order. *)
Lemma responder_sucesso amb pergunta contexto_aula usar_cache texto w :
  sem_cache w pergunta contexto_aula usar_cache ->
  geracao amb w pergunta texto ->
  let s1 :=
    set_historico
      (historico (self w) ++
         [ {| it_timestamp := now amb; it_pergunta := pergunta;
              it_resposta := texto;
              it_tempo_segundos := PrimFloat.sub (time_fim amb) (time_inicio amb) |} ])
      (self w) in
  let c1 := <[cache_key pergunta contexto_aula := texto]> (cache_respostas (self w)) in
  responder lower isspace amb pergunta contexto_aula false usar_cache w
  = (texto,
     {| self := if usar_cache then set_cache c1 s1 else s1;
        cache_pkl :=
          if usar_cache
          then match dump_falha amb with
               | None => Pickle c1
               | Some (_, f) => f
               end
          else cache_pkl w;
        eventos :=
          eventos w ++
            [ Logging INFO (SistemaOK (gb_disponivel amb));
              OllamaChat (modelo (self w)) (mensagens (self w) pergunta) OPCOES
                (ChatOk texto) ] ++
            (if usar_cache
             then PickleDump c1 (fst <$> dump_falha amb) ::
                  match dump_falha amb with
                  | None => []
                  | Some (e, _) => [Logging ERROR (ErroSalvarCache e)]
                  end
             else []) ++
            [ Logging INFO (RespostaGerada
                              (PrimFloat.sub (time_fim amb) (time_inicio amb))) ] |}).
Proof.
  unfold sem_cache, geracao, mensagens. intros Hmiss [Hgate Hchat]. roda.
  rewrite Hmiss. simpl in Hgate. repeat (rewrite Hgate; simpl). rewrite Hchat.
  destruct usar_cache; simpl.
  - destruct (dump_falha amb) as [[e f]|]; simpl;
      rewrite <- !app_assoc; reflexivity.
  - rewrite <- !app_assoc. reflexivity.
Qed.

Lemma responder_falha amb pergunta contexto_aula usar_cache e w :
  sem_cache w pergunta contexto_aula usar_cache ->
  falha_geracao amb w pergunta e ->
  responder lower isspace amb pergunta contexto_aula false usar_cache w
  = (_resposta_erro lower e,
     {| self := self w; cache_pkl := cache_pkl w;
        eventos :=
          eventos w ++
            [ Logging INFO (SistemaOK (gb_disponivel amb));
              OllamaChat (modelo (self w)) (mensagens (self w) pergunta) OPCOES
                (ChatErro e);
              Logging ERROR (ErroGerarResposta e) ] |}).
Proof.
  unfold sem_cache, falha_geracao, mensagens. intros Hmiss [Hgate Hchat]. roda.
  rewrite Hmiss. simpl in Hgate. repeat (rewrite Hgate; simpl). rewrite Hchat. simpl.
  rewrite <- !app_assoc. reflexivity.
Qed.

(** C3: when the cache lookup misses, offline mode is not requested and
    the resource check reports that the available memory is below 3 GiB,
    [responder] returns the sentinel of low resources, calls the chat
    interface not at all and leaves the session and the cache file as
    they were. *)
Theorem C3_recursos_insuficientes amb pergunta contexto_aula usar_cache w :
  sem_cache w pergunta contexto_aula usar_cache ->
  pode_executar (status_recursos amb) = false ->
  fst (responder lower isspace amb pergunta contexto_aula false usar_cache w)
  = MSG_POUCOS_RECURSOS /\
  filter e_chat
    (novos_eventos w
       (snd (responder lower isspace amb pergunta contexto_aula false usar_cache w)))
  = [] /\
  self (snd (responder lower isspace amb pergunta contexto_aula false usar_cache w))
  = self w /\
  cache_pkl (snd (responder lower isspace amb pergunta contexto_aula false usar_cache w))
  = cache_pkl w.
Proof.
  intros Hmiss Hgate. rewrite responder_gate by assumption. simpl.
  repeat split.
  erewrite novos_eventos_app by reflexivity. reflexivity.
Qed.

(** The resource check compares the available memory, in GiB, with 3. *)
Lemma pode_executar_spec amb :
  pode_executar (status_recursos amb)
  = PrimFloat.leb (float_of_Z 3)
      (PrimFloat.div (float_of_Z (mem_available amb)) (float_of_Z (1024 ^ 3))).
Proof. reflexivity. Qed.

(** C2: after a successful generation with caching enabled has written
    the answer [texto] under the key of (question, context), the next
    call of [responder] with the same pair and caching enabled returns
    [texto], whatever its environment and mode, without any call to the
    chat interface and without changing the session. *)
Theorem C2_cache_apos_escrita amb amb' pergunta contexto_aula modo_offline texto w :
  sem_cache w pergunta contexto_aula true ->
  geracao amb w pergunta texto ->
  let w1 := snd (responder lower isspace amb pergunta contexto_aula false true w) in
  let r2 := responder lower isspace amb' pergunta contexto_aula modo_offline true w1 in
  cache_respostas (self w1) !! cache_key pergunta contexto_aula = Some texto /\
  fst r2 = texto /\
  filter e_chat (novos_eventos w1 (snd r2)) = [] /\
  self (snd r2) = self w1 /\
  cache_pkl (snd r2) = cache_pkl w1.
Proof.
  intros Hmiss Hger w1 r2.
  assert (Hhit : cache_respostas (self w1) !! cache_key pergunta contexto_aula
                 = Some texto).
  { subst w1. rewrite (responder_sucesso _ _ _ _ _ _ Hmiss Hger). simpl.
    apply lookup_insert_eq. }
  split; [exact Hhit|]. subst r2.
  rewrite (responder_cache_hit _ _ _ _ _ _ Hhit). simpl.
  repeat split.
  erewrite novos_eventos_app by reflexivity. reflexivity.
Qed.


(** ** Error classification *)

Lemma _resposta_erro_cases e :
  (substring (lit "connection") (lower e) ->
   _resposta_erro lower e
   = lit "🔌 Erro de conexão. Verifique se o Ollama está rodando.") /\
  (~ substring (lit "connection") (lower e) ->
   substring (lit "memory") (lower e) ->
   _resposta_erro lower e = lit "💾 Memória insuficiente. Feche alguns programas.") /\
  (~ substring (lit "connection") (lower e) ->
   ~ substring (lit "memory") (lower e) ->
   substring (lit "model") (lower e) ->
   _resposta_erro lower e
   = lit "🤖 Modelo não encontrado. Execute: ollama pull llama3.2:3b") /\
  (~ substring (lit "connection") (lower e) ->
   ~ substring (lit "memory") (lower e) ->
   ~ substring (lit "model") (lower e) ->
   _resposta_erro lower e = MSG_ERRO_INESPERADO).
Proof.
  unfold _resposta_erro, respostas_erro. cbn [primeira_resposta].
  rewrite <- !str_in_spec.
  destruct (str_in (lit "connection") (lower e));
    destruct (str_in (lit "memory") (lower e));
    destruct (str_in (lit "model") (lower e));
    (split; [|split; [|split]]); intros;
    first [ discriminate
          | match goal with H : ?x <> ?x |- _ => destruct (H eq_refl) end
          | reflexivity ].
Qed.

(** C7: when the call to the model raises an exception of text [e],
    [responder] logs the error and returns the message of the first of
    the categories connection, memory and model whose key occurs in the
    lowered text of the error, and the generic message when none does;
    the session is left as it was. *)
Theorem C7_erros_classificados amb pergunta contexto_aula usar_cache e w :
  sem_cache w pergunta contexto_aula usar_cache ->
  falha_geracao amb w pergunta e ->
  let r := responder lower isspace amb pergunta contexto_aula false usar_cache w in
  In (Logging ERROR (ErroGerarResposta e)) (novos_eventos w (snd r)) /\
  self (snd r) = self w /\
  (substring (lit "connection") (lower e) ->
   fst r = lit "🔌 Erro de conexão. Verifique se o Ollama está rodando.") /\
  (~ substring (lit "connection") (lower e) ->
   substring (lit "memory") (lower e) ->
   fst r = lit "💾 Memória insuficiente. Feche alguns programas.") /\
  (~ substring (lit "connection") (lower e) ->
   ~ substring (lit "memory") (lower e) ->
   substring (lit "model") (lower e) ->
   fst r = lit "🤖 Modelo não encontrado. Execute: ollama pull llama3.2:3b") /\
  (~ substring (lit "connection") (lower e) ->
   ~ substring (lit "memory") (lower e) ->
   ~ substring (lit "model") (lower e) ->
   fst r = MSG_ERRO_INESPERADO).
Proof.
  intros Hmiss Hfalha r. subst r.
  rewrite (responder_falha _ _ _ _ _ _ Hmiss Hfalha).
  cbn [fst snd self].
  erewrite novos_eventos_app by reflexivity.
  split; [simpl; tauto|]. split; [reflexivity|].
  apply _resposta_erro_cases.
Qed.

(** ** Cache writes *)

(** The five ways through [responder]. *)
Lemma responder_casos amb pergunta contexto_aula modo_offline usar_cache w :
  (exists v,
     usar_cache = true /\
     cache_respostas (self w) !! cache_key pergunta contexto_aula = Some v) \/
  (sem_cache w pergunta contexto_aula usar_cache /\
   (modo_offline = true \/
    (modo_offline = false /\
     (pode_executar (status_recursos amb) = false \/
      (exists texto, geracao amb w pergunta texto) \/
      (exists e, falha_geracao amb w pergunta e))))).
Proof.
  unfold sem_cache, geracao, falha_geracao.
  destruct usar_cache;
    [destruct (cache_respostas (self w) !! cache_key pergunta contexto_aula)
       as [v|] eqn:Hc; [left; eauto|]|];
    right; (split; [reflexivity|]);
    (destruct modo_offline; [left; reflexivity | right; split; [reflexivity|]]);
    (destruct (pode_executar (status_recursos amb)); [right | left; reflexivity]);
    (destruct (chat amb (modelo (self w)) (mensagens (self w) pergunta) OPCOES)
       as [texto|e] eqn:Hchat; [left | right]; eauto).
Qed.

(** C5 (amended): every entry that [responder] adds to the cache or
    changes in it holds the answer of the one successful generation of
    that call; on a cache hit, in offline mode, when the resource check
    fails and when the generation fails, [responder] writes nothing. *)
Theorem C5_escritas_de_responder amb pergunta contexto_aula modo_offline usar_cache w :
  escritas_geradas lower isspace
    (OpResponder amb pergunta contexto_aula modo_offline usar_cache) w /\
  (forall r w',
     responder lower isspace amb pergunta contexto_aula modo_offline usar_cache w
     = (r, w') ->
     filter e_chat_ok (novos_eventos w w') = [] ->
     cache_respostas (self w') = cache_respostas (self w)).
Proof.
  assert (Hsnd : snd (executar lower isspace
                        (OpResponder amb pergunta contexto_aula modo_offline usar_cache) w)
                 = snd (responder lower isspace amb pergunta contexto_aula
                          modo_offline usar_cache w)).
  { unfold executar, mbind, prog_bind, mret, prog_ret.
    destruct (responder lower isspace amb pergunta contexto_aula
                modo_offline usar_cache w). reflexivity. }
  unfold escritas_geradas. rewrite Hsnd. clear Hsnd.
  destruct (responder_casos amb pergunta contexto_aula modo_offline usar_cache w)
    as [(v0 & -> & Hhit)
       | (Hmiss & [-> | (-> & [Hgate | [(texto & Hger) | (e & Hfalha)]])])].
  - rewrite (responder_cache_hit _ _ _ _ _ _ Hhit).
    split; [intros k v Hk Hne; contradiction|].
    intros r w' [= <- <-] _. reflexivity.
  - rewrite (responder_offline _ _ _ _ _ Hmiss).
    split; [intros k v Hk Hne; contradiction|].
    intros r w' [= <- <-] _. reflexivity.
  - rewrite (responder_gate _ _ _ _ _ Hmiss Hgate).
    split; [intros k v Hk Hne; contradiction|].
    intros r w' [= <- <-] _. reflexivity.
  - rewrite (responder_sucesso _ _ _ _ _ _ Hmiss Hger). cbn [snd]. split.
    + erewrite novos_eventos_app by reflexivity.
      intros k v Hk Hne. destruct usar_cache; simpl in Hk; [|contradiction].
      destruct (decide (cache_key pergunta contexto_aula = k)) as [<- | Hk'].
      * rewrite lookup_insert_eq in Hk. injection Hk as <-.
        eexists _, _, _.
        destruct (dump_falha amb) as [[e f]|]; reflexivity.
      * rewrite lookup_insert_ne in Hk by assumption. contradiction.
    + intros r w' [= <- <-]. erewrite novos_eventos_app by reflexivity.
      simpl. discriminate.
  - rewrite (responder_falha _ _ _ _ _ _ Hmiss Hfalha).
    split; [intros k v Hk Hne; contradiction|].
    intros r w' [= <- <-] _. reflexivity.
Qed.

(** ** The keys of bulk-loaded knowledge *)




(** ** The prompt *)

Lemma fold_left_length_le {A} (f : str -> A -> str) (l : list A) (acc : str) :
  (forall a x, (length a <= length (f a x))%nat) ->
  (length acc <= length (fold_left f l acc))%nat.
Proof.
  intros Hf. revert acc. induction l as [|x l IH]; intros acc; simpl; [lia|].
  specialize (IH (f acc x)). specialize (Hf acc x). lia.
Qed.

(** The prompt holds the preamble, the question and more. *)
Lemma otimizar_prompt_length (s : @Assistente datetime) pergunta contexto_aula :
  (length (contexto_cristao s) + length pergunta
   < length (otimizar_prompt s pergunta contexto_aula))%nat.
Proof.
  unfold otimizar_prompt.
  set (p0 := contexto_cristao s ++ NL).
  set (p1 := match contexto_aula with
             | [] => p0
             | _ :: _ => p0 ++ NL ++ lit "Contexto da aula:" ++ NL ++ contexto_aula ++ NL
             end).
  assert (H0 : (length (contexto_cristao s) < length p0)%nat).
  { subst p0. rewrite length_app. simpl. lia. }
  assert (H1 : (length p0 <= length p1)%nat).
  { subst p1. destruct contexto_aula; [lia|]. rewrite length_app. lia. }
  match goal with
  | |- (_ < length (?p2 ++ _))%nat =>
      assert (H2 : (length p1 <= length p2)%nat)
  end.
  { destruct (historico s); [lia|].
    etransitivity; [|apply fold_left_length_le].
    - rewrite length_app. lia.
    - intros a x. rewrite !length_app. lia. }
  rewrite !length_app. lia.
Qed.

(** The prompt is the preamble, the lesson context when there is one,
    the last three Interactions cut to 100 characters each, and the
    question, in that order. *)
Lemma otimizar_prompt_ordem (s : @Assistente datetime) pergunta contexto_aula :
  otimizar_prompt s pergunta contexto_aula
  = (contexto_cristao s ++ NL)
      ++ match contexto_aula with
         | [] => []
         | _ :: _ => NL ++ lit "Contexto da aula:" ++ NL ++ contexto_aula ++ NL
         end
      ++ match historico s with
         | [] => []
         | _ :: _ =>
             (NL ++ lit "Histórico recente:" ++ NL)
               ++ concat
                    (map (fun h =>
                            (lit "P: " ++ slice_to 100 (it_pergunta h) ++ lit "..." ++ NL)
                              ++ lit "R: " ++ slice_to 100 (it_resposta h)
                              ++ lit "..." ++ NL ++ NL)
                       (ultimos 3 (historico s)))
         end
      ++ NL ++ lit "Pergunta atual: " ++ pergunta.
Proof.
  assert (Hfold : forall (l : list (@Interacao datetime)) (acc : str),
            fold_left
              (fun acc h =>
                 (acc ++ lit "P: " ++ slice_to 100 (it_pergunta h) ++ lit "..." ++ NL)
                   ++ lit "R: " ++ slice_to 100 (it_resposta h) ++ lit "..." ++ NL ++ NL)
              l acc
            = acc ++ concat
                       (map (fun h =>
                               (lit "P: " ++ slice_to 100 (it_pergunta h) ++ lit "..." ++ NL)
                                 ++ lit "R: " ++ slice_to 100 (it_resposta h)
                                 ++ lit "..." ++ NL ++ NL) l)).
  { induction l as [|h l IH]; intros acc; cbn [fold_left map concat].
    - rewrite app_nil_r. reflexivity.
    - rewrite IH. rewrite <- !app_assoc. reflexivity. }
  unfold otimizar_prompt.
  destruct contexto_aula as [|c ctx]; destruct (historico s) as [|h0 hs] eqn:Hh;
    rewrite ?Hfold, <- ?app_assoc; reflexivity.
Qed.

Lemma ultimos_spec {A} (n : nat) (l : list A) :
  (length (ultimos n l) <= n)%nat /\ exists antes, l = antes ++ ultimos n l.
Proof.
  unfold ultimos. split.
  - rewrite length_skipn. lia.
  - exists (firstn (length l - n) l). symmetry. apply firstn_skipn.
Qed.

(** C4 (what the code does): every call of the chat interface made by
    [responder] carries the preamble as system message and the bare
    question as user message; the text built by [otimizar_prompt], with
    the lesson context and the recent history, is the content of
    neither. *)
Theorem C4_prompt_nao_enviado amb pergunta contexto_aula modo_offline usar_cache w :
  forall model messages options r,
    In (OllamaChat model messages options r)
       (novos_eventos w
          (snd (responder lower isspace amb pergunta contexto_aula
                  modo_offline usar_cache w))) ->
    messages = mensagens (self w) pergunta /\
    forall m, In m messages ->
      content m <> otimizar_prompt (self w) pergunta contexto_aula.
Proof.
  intros model messages options r Hin.
  assert (Hmsgs : forall m, In m (mensagens (self w) pergunta) ->
            content m <> otimizar_prompt (self w) pergunta contexto_aula).
  { intros m [<- | [<- | []]]; cbn [content]; intros Heq;
      pose proof (otimizar_prompt_length (self w) pergunta contexto_aula) as Hlen;
      rewrite <- Heq in Hlen; lia. }
  destruct (responder_casos amb pergunta contexto_aula modo_offline usar_cache w)
    as [(v0 & -> & Hhit)
       | (Hmiss & [-> | (-> & [Hgate | [(texto & Hger) | (e & Hfalha)]])])].
  - rewrite (responder_cache_hit _ _ _ _ _ _ Hhit) in Hin. cbn [snd] in Hin.
    erewrite novos_eventos_app in Hin by reflexivity.
    destruct Hin as [Hin | []]. discriminate.
  - rewrite (responder_offline _ _ _ _ _ Hmiss) in Hin. cbn [snd] in Hin.
    erewrite (novos_eventos_app w w []) in Hin by (rewrite app_nil_r; reflexivity).
    destruct Hin.
  - rewrite (responder_gate _ _ _ _ _ Hmiss Hgate) in Hin. cbn [snd] in Hin.
    erewrite novos_eventos_app in Hin by reflexivity.
    destruct Hin as [Hin | []]. discriminate.
  - rewrite (responder_sucesso _ _ _ _ _ _ Hmiss Hger) in Hin. cbn [snd] in Hin.
    erewrite novos_eventos_app in Hin by reflexivity.
    assert (Hm : messages = mensagens (self w) pergunta).
    { destruct Hin as [Hin | [Hin | Hin]]; [discriminate | congruence |].
      destruct usar_cache; [destruct (dump_falha amb) as [[e f]|]|];
        cbn in Hin; intuition discriminate. }
    subst messages. split; [reflexivity | exact Hmsgs].
  - rewrite (responder_falha _ _ _ _ _ _ Hmiss Hfalha) in Hin. cbn [snd] in Hin.
    erewrite novos_eventos_app in Hin by reflexivity.
    assert (Hm : messages = mensagens (self w) pergunta).
    { destruct Hin as [Hin | [Hin | [Hin | []]]]; [discriminate | congruence | discriminate]. }
    subst messages. split; [reflexivity | exact Hmsgs].
Qed.

(** ** Usage statistics *)

(** C9 (amended): on an empty history the statistics are the result of
    no data and nothing is divided; on a history of N Interactions they
    report N, the floating-point quotient of the sum of the latencies
    by N, the size of the cache and the time stamps of the first and of
    the last Interaction. *)
Theorem C9_estatisticas (s : @Assistente datetime) :
  (historico s = [] -> estatisticas_uso isoformat sum s = SemDados MSG_SEM_DADOS) /\
  (forall primeira resto,
     historico s = primeira :: resto ->
     exists anteriores ultima,
       historico s = anteriores ++ [ultima] /\
       (0 < length (historico s))%nat /\
       estatisticas_uso isoformat sum s
       = Dados (length (historico s))
           (PrimFloat.div (sum (map it_tempo_segundos (historico s)))
              (float_of_Z (Z.of_nat (length (historico s)))))
           (size (cache_respostas s))
           (isoformat (it_timestamp primeira))
           (isoformat (it_timestamp ultima))).
Proof.
  unfold estatisticas_uso. split.
  - intros ->. reflexivity.
  - intros primeira resto Hh. rewrite Hh.
    destruct (exists_last (l := primeira :: resto)) as (anteriores & ultima & Hlast);
      [discriminate|].
    exists anteriores, ultima. split; [exact Hlast|].
    split; [cbn [length]; lia|].
    cbn [map]. rewrite <- (length_map it_tempo_segundos (primeira :: resto)).
    cbn [map]. f_equal. rewrite Hlast. rewrite last_last. reflexivity.
Qed.

End Propriedades.

(** * The properties on concrete sessions *)



Lemma C2_cache_apos_escrita_witness :
  sem_cache Exemplo.mundo0 (lit "2+2?") [] true /\
  geracao Exemplo.amb_ok Exemplo.mundo0 (lit "2+2?") (lit "4") /\
  fst (Exemplo.responder Exemplo.amb_baixa (lit "2+2?") [] true true
         (snd (Exemplo.responder Exemplo.amb_ok (lit "2+2?") [] false true
                 Exemplo.mundo0)))
  = lit "4".
Proof.
  assert (H1 : sem_cache Exemplo.mundo0 (lit "2+2?") [] true)
    by reflexivity.
  assert (H2 : geracao Exemplo.amb_ok Exemplo.mundo0 (lit "2+2?") (lit "4"))
    by (split; vm_compute; reflexivity).
  split; [exact H1|]. split; [exact H2|].
  exact (proj1 (proj2 (C2_cache_apos_escrita ascii_lower ascii_isspace
                         Exemplo.amb_ok Exemplo.amb_baixa (lit "2+2?") [] true
                         (lit "4") Exemplo.mundo0 H1 H2))).
Defined.

Lemma C3_recursos_insuficientes_witness :
  sem_cache Exemplo.mundo0 (lit "2+2?") [] true /\
  pode_executar (status_recursos Exemplo.amb_baixa) = false /\
  fst (Exemplo.responder Exemplo.amb_baixa (lit "2+2?") [] false true
         Exemplo.mundo0)
  = MSG_POUCOS_RECURSOS.
Proof.
  assert (H1 : sem_cache Exemplo.mundo0 (lit "2+2?") [] true)
    by reflexivity.
  assert (H2 : pode_executar (status_recursos Exemplo.amb_baixa) = false)
    by (vm_compute; reflexivity).
  split; [exact H1|]. split; [exact H2|].
  exact (proj1 (C3_recursos_insuficientes ascii_lower ascii_isspace
                  Exemplo.amb_baixa (lit "2+2?") [] true Exemplo.mundo0
                  H1 H2)).
Defined.

(** The lesson context given to [responder] reaches the prompt and not
    the model. *)
Example contexto_nao_enviado :
  let w' := snd (Exemplo.responder Exemplo.amb_ok (lit "oi") (lit "listas")
                   false true Exemplo.mundo0) in
  filter e_chat (eventos w')
  = [ OllamaChat MODELO_PADRAO
        [ {| role := lit "system"; content := CONTEXTO_CRISTAO |};
          {| role := lit "user"; content := lit "oi" |} ]
        OPCOES (ChatOk (lit "4")) ] /\
  str_in (lit "listas")
    (otimizar_prompt (self Exemplo.mundo0) (lit "oi") (lit "listas")) = true /\
  str_in (lit "listas") (CONTEXTO_CRISTAO ++ lit "oi") = false.
Proof. vm_compute. repeat split; reflexivity. Qed.

Lemma C4_prompt_nao_enviado_witness :
  In (OllamaChat MODELO_PADRAO (mensagens (self Exemplo.mundo0) (lit "oi"))
        OPCOES (ChatOk (lit "4")))
     (novos_eventos Exemplo.mundo0
        (snd (Exemplo.responder Exemplo.amb_ok (lit "oi") (lit "listas")
                false true Exemplo.mundo0))) /\
  forall m, In m (mensagens (self Exemplo.mundo0) (lit "oi")) ->
    content m <> otimizar_prompt (self Exemplo.mundo0) (lit "oi") (lit "listas").
Proof.
  assert (Hin :
    In (OllamaChat MODELO_PADRAO (mensagens (self Exemplo.mundo0) (lit "oi"))
          OPCOES (ChatOk (lit "4")))
       (novos_eventos Exemplo.mundo0
          (snd (Exemplo.responder Exemplo.amb_ok (lit "oi") (lit "listas")
                  false true Exemplo.mundo0)))).
  { vm_compute. right. left. reflexivity. }
  split; [exact Hin|].
  exact (proj2 (C4_prompt_nao_enviado ascii_lower ascii_isspace Exemplo.amb_ok
                  (lit "oi") (lit "listas") false true Exemplo.mundo0
                  _ _ _ _ Hin)).
Defined.

(** C5 as first stated fails on bulk loading: it writes an entry while
    the session has generated no answer. *)
Lemma C5_carga_sem_geracao :
  ~ escritas_geradas ascii_lower ascii_isspace
      (OpAdicionar Exemplo.amb_ok Exemplo.conhecimento_q) Exemplo.mundo0.
Proof.
  unfold escritas_geradas. intros H.
  destruct (H (lit "q") (lit "a")) as (model & messages & options & Heq).
  - vm_compute. reflexivity.
  - vm_compute. discriminate.
  - vm_compute in Heq. discriminate Heq.
Qed.

Lemma C5_escritas_de_responder_witness :
  filter e_chat_ok
    (novos_eventos Exemplo.mundo0
       (snd (Exemplo.responder Exemplo.amb_erro (lit "2+2?") [] false true
               Exemplo.mundo0))) = [] /\
  cache_respostas
    (self (snd (Exemplo.responder Exemplo.amb_erro (lit "2+2?") [] false true
                  Exemplo.mundo0)))
  = cache_respostas (self Exemplo.mundo0).
Proof.
  assert (Hf : filter e_chat_ok
    (novos_eventos Exemplo.mundo0
       (snd (Exemplo.responder Exemplo.amb_erro (lit "2+2?") [] false true
               Exemplo.mundo0))) = []) by (vm_compute; reflexivity).
  split; [exact Hf|].
  exact (proj2 (C5_escritas_de_responder ascii_lower ascii_isspace Exemplo.amb_erro
                  (lit "2+2?") [] false true Exemplo.mundo0)
           _ _ (surjective_pairing _) Hf).
Defined.


Lemma C7_erros_classificados_witness :
  sem_cache Exemplo.mundo0 (lit "2+2?") [] true /\
  falha_geracao Exemplo.amb_erro Exemplo.mundo0 (lit "2+2?")
    (lit "Connection refused") /\
  substring (lit "connection") (ascii_lower (lit "Connection refused")) /\
  fst (Exemplo.responder Exemplo.amb_erro (lit "2+2?") [] false true Exemplo.mundo0)
  = lit "🔌 Erro de conexão. Verifique se o Ollama está rodando.".
Proof.
  assert (H1 : sem_cache Exemplo.mundo0 (lit "2+2?") [] true) by reflexivity.
  assert (H2 : falha_geracao Exemplo.amb_erro Exemplo.mundo0 (lit "2+2?")
                 (lit "Connection refused"))
    by (split; vm_compute; reflexivity).
  assert (H3 : substring (lit "connection") (ascii_lower (lit "Connection refused")))
    by (apply str_in_spec; vm_compute; reflexivity).
  split; [exact H1|]. split; [exact H2|]. split; [exact H3|].
  exact (proj1 (proj2 (proj2 (C7_erros_classificados ascii_lower ascii_isspace
                                Exemplo.amb_erro (lit "2+2?") [] true
                                (lit "Connection refused") Exemplo.mundo0 H1 H2)))
           H3).
Defined.

Lemma C8_busca_historico_vazio_witness :
  historico (self Exemplo.mundo0) = [] /\
  sem_cache Exemplo.mundo0 (lit "numpy") [] true /\
  Exemplo.responder Exemplo.amb_ok (lit "numpy") [] true true Exemplo.mundo0
  = (MSG_SEM_HISTORICO, Exemplo.mundo0).
Proof.
  assert (H1 : historico (self Exemplo.mundo0) = []) by reflexivity.
  assert (H2 : sem_cache Exemplo.mundo0 (lit "numpy") [] true) by reflexivity.
  split; [exact H1|]. split; [exact H2|].
  exact (proj2 (C8_busca_historico_vazio ascii_lower ascii_isspace (lit "numpy"))
           Exemplo.amb_ok [] true Exemplo.mundo0 H1 H2).
Defined.

(** The statistics of three Interactions of latencies 1, 0 and 0. *)
Example estatisticas_tempos :
  Exemplo.estatisticas Exemplo.sessao_tempos
  = Dados 3 0x1.5555555555555p-2%float 0 (lit "1") (lit "3").
Proof. vm_compute. reflexivity. Qed.

(** C9 as first stated fails on the latencies 1, 0 and 0: their
    arithmetic mean is 1/3, the mean reported is the float nearest to
    it. *)
Lemma C9_media_arredondada :
  ~ media_conforme (Exemplo.estatisticas Exemplo.sessao_tempos)
      (map it_tempo_segundos (historico Exemplo.sessao_tempos)).
Proof.
  rewrite estatisticas_tempos. unfold media_conforme.
  intros (q1 & q2 & H1 & H2 & Heq).
  vm_compute in H1. vm_compute in H2.
  injection H1 as <-. injection H2 as <-.
  vm_compute in Heq. discriminate Heq.
Qed.

Lemma C9_estatisticas_witness :
  historico Exemplo.sessao_tempos
  = Exemplo.item 1 "a" "x" 1%float ::
      [ Exemplo.item 2 "b" "y" 0%float; Exemplo.item 3 "c" "z" 0%float ] /\
  exists anteriores ultima,
    historico Exemplo.sessao_tempos = anteriores ++ [ultima] /\
    (0 < length (historico Exemplo.sessao_tempos))%nat /\
    Exemplo.estatisticas Exemplo.sessao_tempos
    = Dados (length (historico Exemplo.sessao_tempos))
        (PrimFloat.div
           (sum_esquerda (map it_tempo_segundos (historico Exemplo.sessao_tempos)))
           (float_of_Z (Z.of_nat (length (historico Exemplo.sessao_tempos)))))
        (size (cache_respostas Exemplo.sessao_tempos))
        (Exemplo.isoformat (it_timestamp (Exemplo.item 1 "a" "x" 1%float)))
        (Exemplo.isoformat (it_timestamp ultima)).
Proof.
  split; [reflexivity|].
  exact (proj2 (C9_estatisticas Exemplo.isoformat sum_esquerda Exemplo.sessao_tempos)
           _ _ eq_refl).
Defined.

(** The threshold of the resource check is 3 GiB of available memory. *)
Example limite_recursos :
  pode_executar (status_recursos (Exemplo.ambiente (3 * Exemplo.GiB) (ChatOk []))) = true /\
  pode_executar (status_recursos (Exemplo.ambiente (3 * Exemplo.GiB - 1) (ChatOk [])))
  = false.
Proof. vm_compute. split; reflexivity. Qed.

(** * Further properties of the session *)

Ltac passos :=
  unfold responder, verificar_recursos, _salvar_cache, logging, emit,
    get_self, put_self, put_arquivo, get_arquivo, mbind, prog_bind, mret, prog_ret;
  simpl.

Section Extras.

Context {datetime : Type}.
Variable isoformat : datetime -> str.
Variable lower : str -> str.
Variable isspace : N -> bool.
Variable sum : list float -> float.

Implicit Types (hist : list (@Interacao datetime)) (item : @Interacao datetime).
Implicit Types (w : @Mundo datetime) (amb : @Ambiente datetime).
Implicit Types (p s pergunta contexto_aula texto : str).

(** ** The offline search *)

Lemma score_zero palavras item :
  score lower palavras item = 0%nat <->
  forall p, In p palavras -> ~ substring p (lower (it_pergunta item)).
Proof.
  unfold score. induction palavras as [|q palavras IH].
  - split; [intros _ p [] | reflexivity].
  - rewrite filter_cons.
    destruct (decide (str_in q (lower (it_pergunta item)))) as [Hq | Hq].
    + split; [discriminate|]. intros Hall. exfalso.
      apply (Hall q); [left; reflexivity|].
      apply str_in_spec. apply Is_true_true. exact Hq.
    + rewrite IH. split.
      * intros Hall p [<- | Hin]; [|auto].
        intros Hsub. apply Hq. apply Is_true_true. apply str_in_spec. exact Hsub.
      * intros Hall p Hin. apply Hall. right. exact Hin.
Qed.

Lemma score_pos palavras item :
  (0 < score lower palavras item)%nat ->
  exists p, In p palavras /\ substring p (lower (it_pergunta item)).
Proof.
  unfold score. induction palavras as [|q palavras IH]; [simpl; lia|].
  rewrite filter_cons.
  destruct (decide (str_in q (lower (it_pergunta item)))) as [Hq | Hq].
  - intros _. exists q. split; [left; reflexivity|].
    apply str_in_spec. apply Is_true_true. exact Hq.
  - intros Hpos. destruct (IH Hpos) as (p & Hin & Hsub).
    exists p. split; [right|]; assumption.
Qed.

(** The result of the search on a history that is not empty. *)
Lemma busca_resultado hist pergunta :
  hist <> [] -> busca_conforme lower isspace hist pergunta.
Proof.
  intros Hne. unfold busca_conforme, _buscar_resposta_similar.
  destruct hist as [|primeiro resto]; [contradiction|].
  set (palavras := split isspace (lower pergunta)).
  pose proof (inv_busca_fold lower palavras (primeiro :: resto)) as [Hle Hst].
  destruct (fold_left (passo_busca lower palavras) (primeiro :: resto) (None, 0%nat))
    as [[achado|] sc]; simpl in Hle, Hst.
  - destruct Hst as [[Hnone _] | (i & item & Hm & Hbest & Hsc & Hpos)];
      [discriminate|].
    injection Hm as ->.
    destruct (Nat.ltb_spec 0 sc) as [_ | Hzero]; [|lia].
    left. exists i, item. split; [assumption|]. split; [lia | reflexivity].
  - destruct Hst as [[_ Hsc] | (i & item & Hm & _)]; [|discriminate].
    right. split; [|reflexivity].
    intros item Hin. specialize (Hle item Hin). lia.
Qed.

Lemma prefixo_ne_sentinela r : PREFIXO_HISTORICO ++ r <> MSG_NENHUMA_SIMILAR.
Proof.
  intros Heq. apply (f_equal (hd 0)) in Heq. vm_compute in Heq. discriminate Heq.
Qed.

(** X1: on a history that is not empty, the search answers with the
    sentinel of no similar answer exactly when no word of the query
    occurs in any stored question; otherwise its answer is the tagged
    answer of an Interaction of the history whose question holds a word
    of the query. *)
Theorem busca_sentinela_sse_nada_ocorre hist pergunta :
  hist <> [] ->
  (_buscar_resposta_similar lower isspace hist pergunta = MSG_NENHUMA_SIMILAR <->
   forall item p, In item hist -> In p (split isspace (lower pergunta)) ->
     ~ substring p (lower (it_pergunta item))) /\
  (_buscar_resposta_similar lower isspace hist pergunta <> MSG_NENHUMA_SIMILAR ->
   exists item p,
     In item hist /\ In p (split isspace (lower pergunta)) /\
     substring p (lower (it_pergunta item)) /\
     _buscar_resposta_similar lower isspace hist pergunta
     = PREFIXO_HISTORICO ++ it_resposta item).
Proof.
  intros Hne.
  destruct (busca_resultado hist pergunta Hne)
    as [(i & item & (Hi & _) & Hpos & Hr) | [Hzero Hr]].
  - assert (Hin : In item hist).
    { apply list_elem_of_In. eapply list_elem_of_lookup_2. exact Hi. }
    destruct (score_pos _ _ Hpos) as (p & Hp & Hsub).
    split.
    + split.
      * intros Heq. rewrite Hr in Heq. destruct (prefixo_ne_sentinela _ Heq).
      * intros Hall. destruct (Hall item p Hin Hp Hsub).
    + intros _. exists item, p. auto.
  - split.
    + split; [|intros _; exact Hr].
      intros _ item p Hin Hp. apply (proj1 (score_zero _ item) (Hzero item Hin)). exact Hp.
    + intros Hneq. destruct (Hneq Hr).
Qed.

Lemma split_aux_brancos s :
  Forall (fun c => isspace c = true) s -> split_aux isspace [] s = [].
Proof.
  induction 1 as [|c s Hc _ IH]; simpl; [reflexivity|]. rewrite Hc. exact IH.
Qed.

(** X2: a query that, once lowered, holds nothing but white space (the
    empty query included) has no word, and on a history that is not
    empty the search answers it with the sentinel of no similar
    answer. *)
Theorem busca_consulta_em_branco hist pergunta :
  hist <> [] ->
  Forall (fun c => isspace c = true) (lower pergunta) ->
  split isspace (lower pergunta) = [] /\
  _buscar_resposta_similar lower isspace hist pergunta = MSG_NENHUMA_SIMILAR.
Proof.
  intros Hne Hbr.
  assert (Hsplit : split isspace (lower pergunta) = [])
    by (apply split_aux_brancos; exact Hbr).
  split; [exact Hsplit|].
  destruct (busca_resultado hist pergunta Hne)
    as [(i & item & _ & Hpos & _) | [_ Hr]]; [|exact Hr].
  rewrite Hsplit in Hpos.
  assert (Hz : score lower [] item = 0%nat) by (apply score_zero; intros p []).
  lia.
Qed.

(** ** What a call of [responder] can change *)

(** Either a call only adds actions that are neither a successful
    generation nor a write of the cache file, or it is a successful
    generation. *)
Lemma responder_formas amb pergunta contexto_aula modo_offline usar_cache w :
  (exists tr,
     snd (responder lower isspace amb pergunta contexto_aula modo_offline usar_cache w)
     = {| self := self w; cache_pkl := cache_pkl w; eventos := eventos w ++ tr |} /\
     filter e_chat_ok tr = [] /\ filter e_dump tr = [] /\
     (modo_offline = true -> filter e_chat tr = [])) \/
  (exists texto,
     modo_offline = false /\
     sem_cache w pergunta contexto_aula usar_cache /\
     geracao amb w pergunta texto).
Proof.
  destruct (responder_casos amb pergunta contexto_aula modo_offline usar_cache w)
    as [(v0 & -> & Hhit)
       | (Hmiss & [-> | (-> & [Hgate | [(texto & Hger) | (e & Hfalha)]])])].
  - left. rewrite (responder_cache_hit lower isspace _ _ _ _ _ _ Hhit).
    eexists. split; [reflexivity|]. repeat split.
  - left. rewrite (responder_offline lower isspace _ _ _ _ _ Hmiss).
    exists []. rewrite app_nil_r. split; [destruct w; reflexivity|]. repeat split.
  - left. rewrite (responder_gate lower isspace _ _ _ _ _ Hmiss Hgate).
    eexists. split; [reflexivity|]. repeat split.
  - right. exists texto. auto.
  - left. rewrite (responder_falha lower isspace _ _ _ _ _ _ Hmiss Hfalha).
    eexists. split; [reflexivity|]. split; [reflexivity|]. split; [reflexivity|].
    discriminate.
Qed.

(** X3: in offline mode [responder] never calls the chat interface and
    changes neither the session nor the cache file, whatever the
    resources, the cache and the history; its answer is the cached
    answer, when caching is on and the key is known, or the result of
    the offline search. *)
Theorem offline_nunca_gera amb pergunta contexto_aula usar_cache w :
  let r := responder lower isspace amb pergunta contexto_aula true usar_cache w in
  filter e_chat (novos_eventos w (snd r)) = [] /\
  self (snd r) = self w /\
  cache_pkl (snd r) = cache_pkl w /\
  (fst r = _buscar_resposta_similar lower isspace (historico (self w)) pergunta \/
   (usar_cache = true /\
    cache_respostas (self w) !! cache_key pergunta contexto_aula = Some (fst r))).
Proof.
  intros r. subst r.
  destruct (responder_casos amb pergunta contexto_aula true usar_cache w)
    as [(v0 & -> & Hhit)
       | (Hmiss & [_ | (Hoff & _)])]; [| |discriminate Hoff].
  - rewrite (responder_cache_hit lower isspace _ _ _ _ _ _ Hhit). cbn [fst snd self cache_pkl].
    erewrite novos_eventos_app by reflexivity.
    repeat split. right. split; [reflexivity | exact Hhit].
  - rewrite (responder_offline lower isspace _ _ _ _ _ Hmiss). cbn [fst snd].
    erewrite (novos_eventos_app w w []) by (rewrite app_nil_r; reflexivity).
    repeat split. left. reflexivity.
Qed.

(** X5: a call of [responder] leaves every cache entry other than the
    one under its own composite key as it was, and removes none: a key
    known before the call is known after it. *)
Theorem responder_preserva_outras_chaves amb pergunta contexto_aula
    modo_offline usar_cache w k :
  let w' := snd (responder lower isspace amb pergunta contexto_aula
                   modo_offline usar_cache w) in
  (k <> cache_key pergunta contexto_aula ->
   cache_respostas (self w') !! k = cache_respostas (self w) !! k) /\
  (is_Some (cache_respostas (self w) !! k) ->
   is_Some (cache_respostas (self w') !! k)).
Proof.
  intros w'. subst w'.
  destruct (responder_formas amb pergunta contexto_aula modo_offline usar_cache w)
    as [(tr & -> & _) | (texto & -> & Hmiss & Hger)].
  - cbn [self]. split; auto.
  - rewrite (responder_sucesso lower isspace _ _ _ _ _ _ Hmiss Hger). cbn [snd self].
    destruct usar_cache; cbn [cache_respostas set_cache set_historico]; [|split; auto].
    split.
    + intros Hk. apply lookup_insert_ne. congruence.
    + intros Hsome. rewrite lookup_insert. case_decide; [eauto | exact Hsome].
Qed.

Lemma responder_fst_sem_cache amb pergunta contexto_aula modo_offline w1 w2 :
  historico (self w1) = historico (self w2) ->
  modelo (self w1) = modelo (self w2) ->
  contexto_cristao (self w1) = contexto_cristao (self w2) ->
  fst (responder lower isspace amb pergunta contexto_aula modo_offline false w1)
  = fst (responder lower isspace amb pergunta contexto_aula modo_offline false w2).
Proof.
  intros Hh Hm Hx.
  assert (Hmiss1 : sem_cache w1 pergunta contexto_aula false) by reflexivity.
  assert (Hmsg : mensagens (self w1) pergunta = mensagens (self w2) pergunta).
  { unfold mensagens. rewrite Hx. reflexivity. }
  destruct (responder_casos amb pergunta contexto_aula modo_offline false w2)
    as [(v0 & Hf & _)
       | (Hmiss2 & [-> | (-> & [Hgate | [(texto & Hger) | (e & Hfalha)]])])];
    [discriminate Hf| | | |].
  - rewrite (responder_offline lower isspace _ _ _ _ w2 Hmiss2).
    rewrite (responder_offline lower isspace _ _ _ _ w1 Hmiss1).
    cbn [fst]. rewrite Hh. reflexivity.
  - rewrite (responder_gate lower isspace _ _ _ _ w2 Hmiss2 Hgate).
    rewrite (responder_gate lower isspace _ _ _ _ w1 Hmiss1 Hgate).
    cbn [fst]. reflexivity.
  - assert (Hger1 : geracao amb w1 pergunta texto).
    { destruct Hger as [Hg Hchat]. split; [exact Hg|]. rewrite Hm, Hmsg. exact Hchat. }
    rewrite (responder_sucesso lower isspace _ _ _ _ _ w2 Hmiss2 Hger).
    rewrite (responder_sucesso lower isspace _ _ _ _ _ w1 Hmiss1 Hger1).
    cbn [fst]. reflexivity.
  - assert (Hfalha1 : falha_geracao amb w1 pergunta e).
    { destruct Hfalha as [Hg Hchat]. split; [exact Hg|]. rewrite Hm, Hmsg. exact Hchat. }
    rewrite (responder_falha lower isspace _ _ _ _ _ w2 Hmiss2 Hfalha).
    rewrite (responder_falha lower isspace _ _ _ _ _ w1 Hmiss1 Hfalha1).
    cbn [fst]. reflexivity.
Qed.

(** X7: with caching disabled a call of [responder] reads no cache
    entry and writes none: its answer is the same whatever the cache
    holds, the cache and the cache file are as before and
    [pickle.dump] is not called, whatever the outcome of the call. *)
Theorem sem_cache_nada_escreve amb pergunta contexto_aula modo_offline w :
  let w' := snd (responder lower isspace amb pergunta contexto_aula
                   modo_offline false w) in
  cache_respostas (self w') = cache_respostas (self w) /\
  cache_pkl w' = cache_pkl w /\
  filter e_dump (novos_eventos w w') = [] /\
  forall c : gmap str str,
    fst (responder lower isspace amb pergunta contexto_aula modo_offline false
           {| self := set_cache c (self w); cache_pkl := cache_pkl w;
              eventos := eventos w |})
    = fst (responder lower isspace amb pergunta contexto_aula modo_offline false w).
Proof.
  intros w'. subst w'.
  assert (Hext : forall c : gmap str str,
    fst (responder lower isspace amb pergunta contexto_aula modo_offline false
           {| self := set_cache c (self w); cache_pkl := cache_pkl w;
              eventos := eventos w |})
    = fst (responder lower isspace amb pergunta contexto_aula modo_offline false w))
    by (intros c; apply responder_fst_sem_cache; reflexivity).
  enough (H123 :
    cache_respostas
      (self (snd (responder lower isspace amb pergunta contexto_aula
                    modo_offline false w)))
    = cache_respostas (self w) /\
    cache_pkl (snd (responder lower isspace amb pergunta contexto_aula
                      modo_offline false w)) = cache_pkl w /\
    filter e_dump
      (novos_eventos w
         (snd (responder lower isspace amb pergunta contexto_aula
                 modo_offline false w))) = []).
  { destruct H123 as (H1 & H2 & H3). auto. }
  clear Hext.
  destruct (responder_formas amb pergunta contexto_aula modo_offline false w)
    as [(tr & Hw & _ & Hd & _) | (texto & -> & Hmiss & Hger)].
  - rewrite Hw. cbn [self cache_pkl].
    erewrite novos_eventos_app by reflexivity.
    split; [reflexivity|]. split; [reflexivity | exact Hd].
  - rewrite (responder_sucesso lower isspace _ _ _ _ _ _ Hmiss Hger).
    cbn [snd self cache_pkl].
    erewrite novos_eventos_app by reflexivity.
    split; [reflexivity|]. split; reflexivity.
Qed.

(** ** Bulk loading of knowledge *)

Lemma carregar_itens_completa (c : gmap str str) (conhecimento : list ItemJson) :
  Forall bem_formado conhecimento ->
  snd (carregar_itens c conhecimento) = None /\
  forall k,
    fst (carregar_itens c conhecimento) !! k
    = match ultima_resposta conhecimento k with
      | Some r => Some r
      | None => c !! k
      end.
Proof.
  intros Hall. revert c.
  induction Hall as [|item resto [[p Hp] [r Hr]] _ IH]; intros c.
  - split; reflexivity.
  - cbn [carregar_itens ultima_resposta]. rewrite Hp, Hr.
    destruct (IH (<[p := r]> c)) as [Hnone Hlook]. split; [exact Hnone|].
    intros k. rewrite Hlook.
    destruct (ultima_resposta resto k) as [r'|]; [reflexivity|].
    rewrite lookup_insert.
    destruct (decide (p = k)) as [-> | Hne].
    + rewrite decide_True by reflexivity. reflexivity.
    + rewrite decide_False by congruence. reflexivity.
Qed.

Lemma carregar_itens_app (c : gmap str str) (antes depois : list ItemJson) :
  Forall bem_formado antes ->
  carregar_itens c (antes ++ depois)
  = carregar_itens (fst (carregar_itens c antes)) depois.
Proof.
  intros Hall. revert c.
  induction Hall as [|item resto [[p Hp] [r Hr]] _ IH]; intros c; [reflexivity|].
  cbn [app carregar_itens]. rewrite Hp, Hr. apply IH.
Qed.

Lemma carregar_itens_ruim (c : gmap str str) (ruim : ItemJson) (depois : list ItemJson) :
  ~ bem_formado ruim ->
  exists e, carregar_itens c (ruim :: depois) = (c, Some e).
Proof.
  intros Hruim. cbn [carregar_itens].
  destruct (j_resposta ruim) as [r|] eqn:Hr; [|eauto].
  destruct (j_pergunta ruim) as [p|] eqn:Hp; [|eauto].
  exfalso. apply Hruim. split; [rewrite Hp | rewrite Hr]; eauto.
Qed.

(** The world after a knowledge file that was read as a list. *)
Lemma adicionar_lista amb (conhecimento : list ItemJson) w :
  snd (adicionar_conhecimento_personalizado amb (JsonLista conhecimento) w)
  = let c := fst (carregar_itens (cache_respostas (self w)) conhecimento) in
    match snd (carregar_itens (cache_respostas (self w)) conhecimento) with
    | Some e =>
        {| self := set_cache c (self w); cache_pkl := cache_pkl w;
           eventos := eventos w ++ [Logging ERROR (ErroCarregarConhecimento e)] |}
    | None =>
        {| self := set_cache c (self w);
           cache_pkl := match dump_falha amb with
                        | None => Pickle c
                        | Some (_, f) => f
                        end;
           eventos :=
             eventos w ++
               PickleDump c (fst <$> dump_falha amb) ::
               match dump_falha amb with
               | None => []
               | Some (e, _) => [Logging ERROR (ErroSalvarCache e)]
               end ++
               [Logging INFO (ItensAdicionados (length conhecimento))] |}
    end.
Proof.
  unfold adicionar_conhecimento_personalizado. passos.
  destruct (carregar_itens (cache_respostas (self w)) conhecimento) as [c [e|]];
    simpl; [reflexivity|].
  destruct (dump_falha amb) as [[e f]|]; simpl; rewrite <- !app_assoc; reflexivity.
Qed.

(** X9: when every item of the knowledge file is well formed, the
    cache afterwards gives to each question the answer of its last item
    in the file, leaves the other keys as they were, and is written to
    the cache file; the history is not touched. *)
Theorem carga_ultima_vence amb (conhecimento : list ItemJson) w :
  Forall bem_formado conhecimento ->
  let w' := snd (adicionar_conhecimento_personalizado amb (JsonLista conhecimento) w) in
  (forall k,
     cache_respostas (self w') !! k
     = match ultima_resposta conhecimento k with
       | Some r => Some r
       | None => cache_respostas (self w) !! k
       end) /\
  (dump_falha amb = None -> cache_pkl w' = Pickle (cache_respostas (self w'))) /\
  historico (self w') = historico (self w).
Proof.
  intros Hall w'. subst w'. rewrite adicionar_lista.
  destruct (carregar_itens_completa (cache_respostas (self w)) conhecimento Hall)
    as [Hnone Hlook].
  cbv zeta. rewrite Hnone. cbn [self cache_pkl cache_respostas set_cache historico].
  split; [exact Hlook|]. split; [intros ->; reflexivity | reflexivity].
Qed.

(** X10: a knowledge file that cannot be read changes nothing; one
    whose first malformed item comes after the items [antes] leaves in
    the cache the entries of [antes] and none of the later items, logs
    the error, and writes nothing to the cache file, which then lags
    behind the cache in memory. *)
Theorem carga_interrompida amb w :
  (forall e,
     exists r,
       snd (adicionar_conhecimento_personalizado amb (JsonErro e) w)
       = {| self := self w; cache_pkl := cache_pkl w; eventos := eventos w ++ [r] |}) /\
  (forall antes ruim depois,
     Forall bem_formado antes ->
     ~ bem_formado ruim ->
     let w' := snd (adicionar_conhecimento_personalizado amb
                      (JsonLista (antes ++ ruim :: depois)) w) in
     (forall k,
        cache_respostas (self w') !! k
        = match ultima_resposta antes k with
          | Some r => Some r
          | None => cache_respostas (self w) !! k
          end) /\
     cache_pkl w' = cache_pkl w /\
     filter e_dump (novos_eventos w w') = [] /\
     exists e, novos_eventos w w' = [Logging ERROR (ErroCarregarConhecimento e)]).
Proof.
  split.
  - intros e. eexists. reflexivity.
  - intros antes ruim depois Hall Hruim w'. subst w'. rewrite adicionar_lista.
    rewrite (carregar_itens_app _ _ _ Hall).
    destruct (carregar_itens_completa (cache_respostas (self w)) antes Hall)
      as [_ Hlook].
    destruct (carregar_itens_ruim
                (fst (carregar_itens (cache_respostas (self w)) antes)) ruim depois Hruim)
      as [e He].
    rewrite He. cbv zeta. cbn [fst snd self cache_pkl cache_respostas set_cache].
    erewrite novos_eventos_app by reflexivity.
    split; [exact Hlook|]. split; [reflexivity|]. split; [reflexivity|].
    exists e. reflexivity.
Qed.

(** X11: bulk loading never touches the history, so the offline search
    does not see the loaded knowledge: unless the composite key of the
    question is itself in the cache, [responder] in offline mode answers
    after the load what the search gave on the history before it. *)
Theorem carga_invisivel_offline amb (j : ResultadoJson) w amb' pergunta
    contexto_aula usar_cache :
  let w1 := snd (adicionar_conhecimento_personalizado amb j w) in
  historico (self w1) = historico (self w) /\
  (sem_cache w1 pergunta contexto_aula usar_cache ->
   responder lower isspace amb' pergunta contexto_aula true usar_cache w1
   = (_buscar_resposta_similar lower isspace (historico (self w)) pergunta, w1)).
Proof.
  intros w1.
  assert (Hh : historico (self w1) = historico (self w)).
  { subst w1. destruct j as [e | conhecimento]; [reflexivity|].
    rewrite adicionar_lista. cbv zeta.
    destruct (snd (carregar_itens (cache_respostas (self w)) conhecimento));
      reflexivity. }
  split; [exact Hh|]. intros Hmiss.
  rewrite (responder_offline lower isspace _ _ _ _ _ Hmiss). rewrite Hh. reflexivity.
Qed.

(** ** Sequences of operations *)

Lemma executar_todas_cons (op : @Operacao datetime) ops w :
  snd (executar_todas lower isspace (op :: ops) w)
  = snd (executar_todas lower isspace ops (snd (executar lower isspace op w))).
Proof.
  cbn [executar_todas]. unfold mbind, prog_bind.
  destruct (executar lower isspace op w). reflexivity.
Qed.

Lemma executar_responder amb pergunta contexto_aula modo_offline usar_cache w :
  snd (executar lower isspace
         (OpResponder amb pergunta contexto_aula modo_offline usar_cache) w)
  = snd (responder lower isspace amb pergunta contexto_aula modo_offline usar_cache w).
Proof.
  unfold executar, mbind, prog_bind, mret, prog_ret.
  destruct (responder lower isspace amb pergunta contexto_aula
              modo_offline usar_cache w). reflexivity.
Qed.

Lemma carregar_cache_mundo w :
  snd (carregar_cache w)
  = match cache_pkl w with
    | Ausente => w
    | Pickle c =>
        {| self := set_cache c (self w); cache_pkl := cache_pkl w;
           eventos := eventos w ++ [Logging INFO (CacheCarregado (size c))] |}
    | Ilegivel e =>
        {| self := self w; cache_pkl := cache_pkl w;
           eventos := eventos w ++ [Logging ERROR (ErroCarregarCache e)] |}
    end.
Proof.
  unfold carregar_cache. passos.
  destruct (cache_pkl w) eqn:Hf; cbn; rewrite ?Hf; reflexivity.
Qed.

(** What one operation does to the history, the actions and the fixed
    attributes of the session. *)
Lemma executar_efeito (op : @Operacao datetime) w :
  exists tr novas,
    eventos (snd (executar lower isspace op w)) = eventos w ++ tr /\
    historico (self (snd (executar lower isspace op w)))
    = historico (self w) ++ novas /\
    length novas = length (filter e_chat_ok tr) /\
    modelo (self (snd (executar lower isspace op w))) = modelo (self w) /\
    max_ram_gb (self (snd (executar lower isspace op w))) = max_ram_gb (self w) /\
    contexto_cristao (self (snd (executar lower isspace op w)))
    = contexto_cristao (self w).
Proof.
  destruct op as [amb pergunta contexto_aula modo_offline usar_cache | amb j |].
  - rewrite executar_responder.
    destruct (responder_formas amb pergunta contexto_aula modo_offline usar_cache w)
      as [(tr & -> & Hok & _) | (texto & -> & Hmiss & Hger)].
    + exists tr, []. cbn [self eventos]. rewrite Hok, app_nil_r. repeat split.
    + rewrite (responder_sucesso lower isspace _ _ _ _ _ _ Hmiss Hger).
      cbn [snd self eventos]. eexists _, [_].
      split; [reflexivity|].
      split; [destruct usar_cache; reflexivity|].
      split; [destruct usar_cache; [destruct (dump_falha amb) as [[e f]|]|];
              reflexivity|].
      destruct usar_cache; repeat split.
  - cbn [executar]. destruct j as [e | conhecimento].
    + eexists [_], []. cbn. rewrite app_nil_r. repeat split.
    + rewrite adicionar_lista. cbv zeta.
      destruct (snd (carregar_itens (cache_respostas (self w)) conhecimento)).
      * eexists [_], []. cbn. rewrite app_nil_r. repeat split.
      * eexists _, []. cbn [self eventos]. split; [reflexivity|].
        rewrite app_nil_r.
        destruct (dump_falha amb) as [[e f]|]; repeat split.
  - cbn [executar]. rewrite carregar_cache_mundo.
    destruct (cache_pkl w).
    + exists [], []. rewrite !app_nil_r. repeat split.
    + eexists [_], []. cbn. rewrite app_nil_r. repeat split.
    + eexists [_], []. cbn. rewrite app_nil_r. repeat split.
Qed.

(** X4: through any sequence of operations the history only grows at
    its end, and by exactly one Interaction for each successful call of
    the model: cache hits, offline answers, refused and failed
    generations, bulk loads and cache loads add nothing to it. *)
Theorem historico_conta_geracoes (ops : list (@Operacao datetime)) w :
  exists novas,
    historico (self (snd (executar_todas lower isspace ops w)))
    = historico (self w) ++ novas /\
    length novas
    = length (filter e_chat_ok
                (novos_eventos w (snd (executar_todas lower isspace ops w)))).
Proof.
  enough (H : exists tr novas,
            eventos (snd (executar_todas lower isspace ops w)) = eventos w ++ tr /\
            historico (self (snd (executar_todas lower isspace ops w)))
            = historico (self w) ++ novas /\
            length novas = length (filter e_chat_ok tr)).
  { destruct H as (tr & novas & Hev & Hh & Hlen). exists novas.
    split; [exact Hh|]. erewrite novos_eventos_app by exact Hev. exact Hlen. }
  revert w. induction ops as [|op ops IH]; intros w.
  - exists [], []. cbn. rewrite !app_nil_r. repeat split.
  - rewrite executar_todas_cons.
    destruct (executar_efeito op w) as (tr1 & n1 & Hev1 & Hh1 & Hl1 & _).
    destruct (IH (snd (executar lower isspace op w)))
      as (tr2 & n2 & Hev2 & Hh2 & Hl2).
    exists (tr1 ++ tr2), (n1 ++ n2).
    rewrite Hev2, Hev1, Hh2, Hh1, <- !app_assoc.
    split; [reflexivity|]. split; [reflexivity|].
    rewrite filter_app, !length_app. lia.
Qed.

(** X6: no sequence of operations changes the name of the model, the
    RAM budget or the instruction preamble of the session. *)
Theorem atributos_fixos (ops : list (@Operacao datetime)) w :
  modelo (self (snd (executar_todas lower isspace ops w))) = modelo (self w) /\
  max_ram_gb (self (snd (executar_todas lower isspace ops w))) = max_ram_gb (self w) /\
  contexto_cristao (self (snd (executar_todas lower isspace ops w)))
  = contexto_cristao (self w).
Proof.
  revert w. induction ops as [|op ops IH]; intros w.
  - repeat split.
  - rewrite executar_todas_cons.
    destruct (executar_efeito op w) as (tr1 & n1 & _ & _ & _ & Hm & Hr & Hc).
    destruct (IH (snd (executar lower isspace op w))) as (Hm2 & Hr2 & Hc2).
    rewrite Hm2, Hr2, Hc2. auto.
Qed.

(** ** The cache file *)

Lemma executar_sincronia (op : @Operacao datetime) w :
  em_sincronia w -> op_regular op -> em_sincronia (snd (executar lower isspace op w)).
Proof.
  unfold em_sincronia.
  destruct op as [amb pergunta contexto_aula modo_offline usar_cache | amb j |];
    intros Hs Hreg.
  - rewrite executar_responder. cbn in Hreg.
    destruct (responder_formas amb pergunta contexto_aula modo_offline usar_cache w)
      as [(tr & -> & _) | (texto & -> & Hmiss & Hger)]; [exact Hs|].
    rewrite (responder_sucesso lower isspace _ _ _ _ _ _ Hmiss Hger).
    cbn [snd self cache_pkl]. rewrite Hreg.
    destruct usar_cache; [reflexivity | exact Hs].
  - cbn [executar]. destruct Hreg as [Hdump Hcarga].
    destruct j as [e | conhecimento]; [exact Hs|].
    rewrite adicionar_lista. cbv zeta. cbn in Hcarga.
    rewrite (proj1 (carregar_itens_completa _ _ Hcarga)).
    cbn [self cache_pkl]. rewrite Hdump. reflexivity.
  - cbn [executar]. rewrite carregar_cache_mundo.
    destruct (cache_pkl w) as [| c | e] eqn:Hf.
    + rewrite ?Hf. exact Hs.
    + cbn [self cache_pkl]. rewrite ?Hf. reflexivity.
    + destruct Hs.
Qed.

(** X8: when the cache file agrees with the cache in memory, it still
    does after any sequence of operations in which no write of the file
    fails and no knowledge file stops at a malformed item. *)
Theorem sincronia_preservada (ops : list (@Operacao datetime)) w :
  em_sincronia w ->
  Forall op_regular ops ->
  em_sincronia (snd (executar_todas lower isspace ops w)).
Proof.
  intros Hs Hall. revert w Hs.
  induction Hall as [|op ops Hop _ IH]; intros w Hs; [exact Hs|].
  rewrite executar_todas_cons. apply IH. apply executar_sincronia; assumption.
Qed.

(** X12: a new session started on the cache file of a session in
    agreement with it holds, after [carregar_cache], the same cache, and
    serves from it every answer the old session had cached, without a
    call of the model. *)
Theorem reinicio_restaura_cache w :
  em_sincronia w ->
  let w2 := snd (carregar_cache (reiniciar w)) in
  cache_respostas (self w2) = cache_respostas (self w) /\
  em_sincronia w2 /\
  forall amb pergunta contexto_aula modo_offline v,
    cache_respostas (self w) !! cache_key pergunta contexto_aula = Some v ->
    fst (responder lower isspace amb pergunta contexto_aula modo_offline true w2) = v /\
    filter e_chat
      (novos_eventos w2
         (snd (responder lower isspace amb pergunta contexto_aula modo_offline true w2)))
    = [].
Proof.
  intros Hs w2.
  assert (Hc : cache_respostas (self w2) = cache_respostas (self w) /\ em_sincronia w2).
  { subst w2. rewrite carregar_cache_mundo. unfold em_sincronia in *.
    unfold reiniciar at 1. cbn [cache_pkl].
    destruct (cache_pkl w) as [| c | e] eqn:Hf.
    - unfold reiniciar. cbn [self cache_pkl]. rewrite Hf.
      split; [symmetry; exact Hs | reflexivity].
    - unfold reiniciar. cbn [self cache_pkl]. rewrite Hf.
      split; [exact Hs | reflexivity].
    - destruct Hs. }
  destruct Hc as [Hc Hs2]. split; [exact Hc|]. split; [exact Hs2|].
  intros amb pergunta contexto_aula modo_offline v Hv. rewrite <- Hc in Hv.
  rewrite (responder_cache_hit lower isspace _ _ _ _ _ _ Hv). cbn [fst snd].
  erewrite novos_eventos_app by reflexivity. split; reflexivity.
Qed.

(** ** The prompt *)

Lemma length_concat_le {A} (f : A -> str) (l : list A) (n : nat) :
  (forall x, (length (f x) <= n)%nat) ->
  (length (concat (map f l)) <= length l * n)%nat.
Proof.
  intros Hf. induction l as [|x l IH]; cbn [map concat length]; [lia|].
  rewrite length_app. specialize (Hf x). lia.
Qed.

(** X13: the prompt starts with the preamble and ends with the
    question, and what lies between them, the lesson context and the
    recent history, is at most 703 characters longer than the lesson
    context, however long the history and its texts are. *)
Theorem prompt_limitado (s : @Assistente datetime) pergunta contexto_aula :
  exists meio,
    otimizar_prompt s pergunta contexto_aula
    = contexto_cristao s ++ meio ++ pergunta /\
    (length meio <= length contexto_aula + 703)%nat.
Proof.
  rewrite otimizar_prompt_ordem.
  set (bc := match contexto_aula with
             | [] => []
             | _ :: _ => NL ++ lit "Contexto da aula:" ++ NL ++ contexto_aula ++ NL
             end).
  set (bh := match historico s with
             | [] => []
             | _ :: _ =>
                 (NL ++ lit "Histórico recente:" ++ NL)
                   ++ concat
                        (map (fun h =>
                                (lit "P: " ++ slice_to 100 (it_pergunta h)
                                   ++ lit "..." ++ NL)
                                  ++ lit "R: " ++ slice_to 100 (it_resposta h)
                                  ++ lit "..." ++ NL ++ NL)
                           (ultimos 3 (historico s)))
             end).
  assert (Hc : (length bc <= length contexto_aula + 20)%nat).
  { subst bc. destruct contexto_aula as [|c ctx]; [cbn [length]; lia|].
    rewrite !length_app.
    change (length NL) with 1%nat.
    change (length (lit "Contexto da aula:")) with 17%nat. lia. }
  assert (Hh : (length bh <= 665)%nat).
  { subst bh. destruct (historico s) as [|h0 hs]; [cbn [length]; lia|].
    rewrite !length_app.
    change (length NL) with 1%nat.
    change (length (lit "Histórico recente:")) with 18%nat.
    pose proof (proj1 (ultimos_spec 3 (h0 :: hs))) as Hu.
    assert (Hl : (length (concat
                    (map (fun h =>
                            (lit "P: " ++ slice_to 100 (it_pergunta h)
                               ++ lit "..." ++ NL)
                              ++ lit "R: " ++ slice_to 100 (it_resposta h)
                              ++ lit "..." ++ NL ++ NL)
                       (ultimos 3 (h0 :: hs))))
                  <= length (ultimos 3 (h0 :: hs)) * 215)%nat).
    { apply length_concat_le. intros h. unfold slice_to. rewrite !length_app.
      change (length NL) with 1%nat.
      change (length (lit "P: ")) with 3%nat.
      change (length (lit "R: ")) with 3%nat.
      change (length (lit "...")) with 3%nat.
      pose proof (firstn_le_length 100 (it_pergunta h)).
      pose proof (firstn_le_length 100 (it_resposta h)).
      rewrite !length_firstn. lia. }
    nia. }
  exists (NL ++ bc ++ bh ++ NL ++ lit "Pergunta atual: ").
  split.
  - rewrite <- !app_assoc. reflexivity.
  - rewrite !length_app.
    change (length NL) with 1%nat.
    change (length (lit "Pergunta atual: ")) with 16%nat. lia.
Qed.
(** X14: the prompt depends on the history only through its last three
    Interactions, and on those only through the first 100 characters of
    each question and answer: older Interactions, time stamps, latencies
    and the rest of long texts never reach it. *)
Theorem prompt_so_tres_ultimas (s : @Assistente datetime) pergunta contexto_aula
    (antigos antigos' recentes recentes' : list (@Interacao datetime)) :
  length recentes = 3%nat ->
  Forall2 (fun a b =>
             slice_to 100 (it_pergunta a) = slice_to 100 (it_pergunta b) /\
             slice_to 100 (it_resposta a) = slice_to 100 (it_resposta b))
    recentes recentes' ->
  otimizar_prompt (set_historico (antigos ++ recentes) s) pergunta contexto_aula
  = otimizar_prompt (set_historico (antigos' ++ recentes') s) pergunta contexto_aula.
Proof.
  intros Hlen Hrel.
  assert (Hlen' : length recentes' = 3%nat)
    by (rewrite <- Hlen; symmetry; eapply Forall2_length; exact Hrel).
  assert (Hult : forall (antes rec : list (@Interacao datetime)),
            length rec = 3%nat -> ultimos 3 (antes ++ rec) = rec).
  { intros antes rec Hl. unfold ultimos. rewrite length_app, Hl.
    replace (length antes + 3 - 3)%nat with (length antes) by lia.
    apply drop_app_length. }
  rewrite !otimizar_prompt_ordem. cbn [historico set_historico contexto_cristao].
  rewrite !Hult by assumption.
  assert (Hmap :
    map (fun h =>
           (lit "P: " ++ slice_to 100 (it_pergunta h) ++ lit "..." ++ NL)
             ++ lit "R: " ++ slice_to 100 (it_resposta h) ++ lit "..." ++ NL ++ NL)
        recentes
    = map (fun h =>
             (lit "P: " ++ slice_to 100 (it_pergunta h) ++ lit "..." ++ NL)
               ++ lit "R: " ++ slice_to 100 (it_resposta h) ++ lit "..." ++ NL ++ NL)
          recentes').
  { clear Hlen Hlen'. induction Hrel as [|a b la lb [Hp Hr] _ IH]; [reflexivity|].
    cbn [map]. rewrite Hp, Hr, IH. reflexivity. }
  destruct recentes as [|r0 rs]; [discriminate Hlen|].
  destruct recentes' as [|r0' rs']; [discriminate Hlen'|].
  destruct antigos, antigos'; cbn [app]; rewrite Hmap; reflexivity.
Qed.

(** ** Study questions *)

Lemma split_sep_aux_ne sep cur s : split_sep_aux sep cur s <> [].
Proof.
  revert cur. induction s as [|c s IH]; intros cur; simpl; [discriminate|].
  destruct (N.eqb c sep); [discriminate | apply IH].
Qed.

(** Joining the pieces of a split gives the text back. *)
Lemma split_sep_aux_join sep cur s :
  join [sep] (split_sep_aux sep cur s) = cur ++ s.
Proof.
  revert cur. induction s as [|c s IH]; intros cur; simpl.
  - rewrite app_nil_r. reflexivity.
  - destruct (N.eqb_spec c sep) as [-> | Hne].
    + pose proof (split_sep_aux_ne sep [] s) as Hn. specialize (IH []).
      destruct (split_sep_aux sep [] s) as [|x l]; [contradiction|].
      change (join [sep] (cur :: x :: l)) with (cur ++ [sep] ++ join [sep] (x :: l)).
      rewrite IH. reflexivity.
    + rewrite IH, <- app_assoc. reflexivity.
Qed.

Lemma split_sep_aux_pieces sep cur s x :
  ~ In sep cur ->
  In x (split_sep_aux sep cur s) ->
  ~ In sep x /\ substring x (cur ++ s).
Proof.
  revert cur. induction s as [|c s IH]; intros cur Hcur; simpl.
  - intros [<- | []]. split; [exact Hcur|]. exists [], []. rewrite app_nil_r. reflexivity.
  - destruct (N.eqb_spec c sep) as [-> | Hne].
    + intros [<- | Hin].
      * split; [exact Hcur|]. exists [], (sep :: s). reflexivity.
      * destruct (IH [] (fun H => H) Hin) as [Hx (a & b & Hs)].
        split; [exact Hx|]. exists (cur ++ sep :: a), b.
        simpl in Hs. rewrite Hs, <- app_assoc. reflexivity.
    + intros Hin.
      assert (Hcur' : ~ In sep (cur ++ [c])).
      { intros H. apply in_app_or in H as [H | [H | []]]; [auto | congruence]. }
      destruct (IH (cur ++ [c]) Hcur' Hin) as [Hx Hs].
      split; [exact Hx|]. rewrite <- app_assoc in Hs. exact Hs.
Qed.

Lemma lstrip_brancos s :
  lstrip isspace s = [] <-> Forall (fun c => isspace c = true) s.
Proof.
  induction s as [|c s IH]; simpl.
  - split; [constructor | reflexivity].
  - destruct (isspace c) eqn:Hc.
    + rewrite IH. split; [intros H; constructor; assumption | intros H; inversion H; assumption].
    + split; [discriminate|]. intros H. inversion H. congruence.
Qed.

Lemma lstrip_sufixo s : exists a, s = a ++ lstrip isspace s /\
  Forall (fun c => isspace c = true) a.
Proof.
  induction s as [|c s (a & Ha & Hsp)]; simpl.
  - exists []. split; [reflexivity | constructor].
  - destruct (isspace c) eqn:Hc.
    + exists (c :: a). split; [simpl; congruence | constructor; assumption].
    + exists []. split; [reflexivity | constructor].
Qed.

Lemma strip_brancos s :
  strip isspace s = [] <-> Forall (fun c => isspace c = true) s.
Proof.
  unfold strip. split.
  - intros H. apply (f_equal (@rev N)) in H. rewrite rev_involutive in H.
    simpl in H. apply lstrip_brancos in H. apply Forall_rev in H.
    rewrite rev_involutive in H.
    destruct (lstrip_sufixo s) as (a & Ha & Hsp).
    rewrite Ha. apply Forall_app. split; assumption.
  - intros H. apply lstrip_brancos in H. rewrite H. reflexivity.
Qed.

Lemma nao_branca_spec q :
  nao_branca isspace q = true <-> exists c, In c q /\ isspace c = false.
Proof.
  unfold nao_branca. split.
  - destruct (strip isspace q) as [|c r] eqn:Hs; [discriminate|]. intros _.
    assert (Hn : ~ Forall (fun c => isspace c = true) q).
    { intros H. apply strip_brancos in H. congruence. }
    clear Hs. induction q as [|d q IH]; [destruct Hn; constructor|].
    destruct (isspace d) eqn:Hd.
    + destruct IH as (c' & Hin & Hc').
      * intros H. apply Hn. constructor; assumption.
      * exists c'. split; [right|]; assumption.
    + exists d. split; [left; reflexivity | assumption].
  - intros (c & Hin & Hc).
    destruct (strip isspace q) as [|d r] eqn:Hs; [|reflexivity].
    apply strip_brancos in Hs. rewrite List.Forall_forall in Hs.
    specialize (Hs c Hin). congruence.
Qed.

Lemma modo_estudo_eq amb topico (num_questoes : Z) w :
  modo_estudo lower isspace amb topico num_questoes w
  = (filter (nao_branca isspace)
       (split_sep 10
          (fst (responder lower isspace amb (prompt_estudo topico num_questoes)
                  [] false true w))),
     snd (responder lower isspace amb (prompt_estudo topico num_questoes)
            [] false true w)).
Proof.
  unfold modo_estudo, mbind, prog_bind, mret, prog_ret.
  destruct (responder lower isspace amb (prompt_estudo topico num_questoes)
              [] false true w). reflexivity.
Qed.

(** X15: [modo_estudo] asks the model through [responder], with the
    empty context and caching on, and changes the world as that call
    does; each question it returns is a line of the answer, free of
    line breaks, that holds at least one character that is not white
    space. *)
Theorem estudo_linhas amb topico (num_questoes : Z) w :
  let r := modo_estudo lower isspace amb topico num_questoes w in
  let resposta :=
    fst (responder lower isspace amb (prompt_estudo topico num_questoes)
           [] false true w) in
  snd r = snd (responder lower isspace amb (prompt_estudo topico num_questoes)
                 [] false true w) /\
  forall q, In q (fst r) ->
    (exists c, In c q /\ isspace c = false) /\
    ~ In 10 q /\
    substring q resposta.
Proof.
  intros r resposta. subst r. rewrite modo_estudo_eq. cbn [fst snd].
  split; [reflexivity|]. intros q Hin.
  apply list_elem_of_In, list_elem_of_filter in Hin as [Hnb Hq].
  apply list_elem_of_In in Hq.
  split; [apply nao_branca_spec, Is_true_true; exact Hnb|].
  apply (split_sep_aux_pieces 10 [] resposta q); [intros [] | exact Hq].
Qed.

(** X16: after [modo_estudo] has obtained an answer from the model,
    asking again for the same topic and the same number of questions
    returns the same questions from the cache, in any environment,
    without a call of the model and without a change of the session. *)
Theorem estudo_repetido_do_cache amb amb' topico (num_questoes : Z) texto w :
  sem_cache w (prompt_estudo topico num_questoes) [] true ->
  geracao amb w (prompt_estudo topico num_questoes) texto ->
  let r1 := modo_estudo lower isspace amb topico num_questoes w in
  let r2 := modo_estudo lower isspace amb' topico num_questoes (snd r1) in
  fst r2 = fst r1 /\
  filter e_chat (novos_eventos (snd r1) (snd r2)) = [] /\
  self (snd r2) = self (snd r1).
Proof.
  intros Hmiss Hger r1 r2. subst r1 r2. rewrite !modo_estudo_eq. cbn [fst snd].
  assert (Hhit :
    cache_respostas
      (self (snd (responder lower isspace amb (prompt_estudo topico num_questoes)
                    [] false true w)))
      !! cache_key (prompt_estudo topico num_questoes) []
    = Some texto).
  { rewrite (responder_sucesso lower isspace _ _ _ _ _ _ Hmiss Hger).
    cbn [snd self cache_respostas set_cache]. apply lookup_insert_eq. }
  rewrite (responder_cache_hit lower isspace amb' _ _ false _ _ Hhit). cbn [fst snd self].
  erewrite novos_eventos_app by reflexivity.
  rewrite (responder_sucesso lower isspace _ _ _ _ _ _ Hmiss Hger). cbn [fst].
  repeat split.
Qed.

Lemma _resposta_erro_sem_quebra e :
  split_sep 10 (_resposta_erro lower e) = [_resposta_erro lower e].
Proof.
  unfold _resposta_erro, respostas_erro. cbn [primeira_resposta].
  destruct (str_in (lit "connection") (lower e));
    [vm_compute; reflexivity|].
  destruct (str_in (lit "memory") (lower e)); [vm_compute; reflexivity|].
  destruct (str_in (lit "model") (lower e)); vm_compute; reflexivity.
Qed.

(** X17: [modo_estudo] does not tell a failure from an answer: when the
    resource check refuses the call it returns the message of low
    resources as its one question, and when the call of the model
    raises it returns the error message as its one question (or no
    question, were the message blank). *)
Theorem estudo_devolve_avisos amb topico (num_questoes : Z) w :
  sem_cache w (prompt_estudo topico num_questoes) [] true ->
  (pode_executar (status_recursos amb) = false ->
   fst (modo_estudo lower isspace amb topico num_questoes w)
   = filter (nao_branca isspace) [MSG_POUCOS_RECURSOS]) /\
  (forall e,
     falha_geracao amb w (prompt_estudo topico num_questoes) e ->
     fst (modo_estudo lower isspace amb topico num_questoes w)
     = filter (nao_branca isspace) [_resposta_erro lower e]).
Proof.
  intros Hmiss. split.
  - intros Hgate. rewrite modo_estudo_eq. cbn [fst].
    rewrite (responder_gate lower isspace _ _ _ _ _ Hmiss Hgate). cbn [fst].
    replace (split_sep 10 MSG_POUCOS_RECURSOS) with [MSG_POUCOS_RECURSOS]
      by (vm_compute; reflexivity).
    reflexivity.
  - intros e Hfalha. rewrite modo_estudo_eq. cbn [fst].
    rewrite (responder_falha lower isspace _ _ _ _ _ _ Hmiss Hfalha). cbn [fst].
    rewrite _resposta_erro_sem_quebra. reflexivity.
Qed.

End Extras.

(** * The further properties on concrete sessions *)

Lemma busca_sentinela_sse_nada_ocorre_witness :
  Exemplo.hist_numpy <> [] /\
  (Exemplo.buscar Exemplo.hist_numpy (lit "how do I install numpy")
   <> MSG_NENHUMA_SIMILAR ->
   exists item p,
     In item Exemplo.hist_numpy /\
     In p (split ascii_isspace (ascii_lower (lit "how do I install numpy"))) /\
     substring p (ascii_lower (it_pergunta item)) /\
     Exemplo.buscar Exemplo.hist_numpy (lit "how do I install numpy")
     = PREFIXO_HISTORICO ++ it_resposta item).
Proof.
  assert (Hne : Exemplo.hist_numpy <> []) by discriminate.
  split; [exact Hne|].
  exact (proj2 (busca_sentinela_sse_nada_ocorre ascii_lower ascii_isspace
                  Exemplo.hist_numpy (lit "how do I install numpy") Hne)).
Defined.

Lemma busca_consulta_em_branco_witness :
  Exemplo.hist_numpy <> [] /\
  Forall (fun c => ascii_isspace c = true) (ascii_lower (lit "   ")) /\
  Exemplo.buscar Exemplo.hist_numpy (lit "   ") = MSG_NENHUMA_SIMILAR.
Proof.
  assert (Hne : Exemplo.hist_numpy <> []) by discriminate.
  assert (Hbr : Forall (fun c => ascii_isspace c = true) (ascii_lower (lit "   ")))
    by (repeat constructor).
  split; [exact Hne|]. split; [exact Hbr|].
  exact (proj2 (busca_consulta_em_branco ascii_lower ascii_isspace
                  Exemplo.hist_numpy (lit "   ") Hne Hbr)).
Defined.

Lemma responder_preserva_outras_chaves_witness :
  lit "q" <> cache_key (lit "2+2?") [] /\
  cache_respostas
    (self (snd (Exemplo.responder Exemplo.amb_ok (lit "2+2?") [] false true
                  Exemplo.mundo0))) !! lit "q"
  = cache_respostas (self Exemplo.mundo0) !! lit "q".
Proof.
  assert (Hk : lit "q" <> cache_key (lit "2+2?") []) by (vm_compute; discriminate).
  split; [exact Hk|].
  exact (proj1 (responder_preserva_outras_chaves ascii_lower ascii_isspace
                  Exemplo.amb_ok (lit "2+2?") [] false true Exemplo.mundo0 (lit "q"))
           Hk).
Defined.

Lemma sincronia_preservada_witness :
  em_sincronia Exemplo.mundo0 /\
  Forall op_regular Exemplo.operacoes /\
  em_sincronia
    (snd (executar_todas ascii_lower ascii_isspace Exemplo.operacoes Exemplo.mundo0)).
Proof.
  assert (H1 : em_sincronia Exemplo.mundo0) by reflexivity.
  assert (H2 : Forall op_regular Exemplo.operacoes).
  { repeat constructor; repeat econstructor. }
  split; [exact H1|]. split; [exact H2|].
  exact (sincronia_preservada ascii_lower ascii_isspace Exemplo.operacoes
           Exemplo.mundo0 H1 H2).
Defined.

Lemma carga_ultima_vence_witness :
  Forall bem_formado Exemplo.conhecimento_repetido /\
  cache_respostas
    (self (snd (adicionar_conhecimento_personalizado Exemplo.amb_ok
                  (JsonLista Exemplo.conhecimento_repetido) Exemplo.mundo0)))
    !! lit "q"
  = Some (lit "b").
Proof.
  assert (H1 : Forall bem_formado Exemplo.conhecimento_repetido).
  { repeat constructor; eexists; reflexivity. }
  split; [exact H1|].
  exact (eq_trans
           (proj1 (carga_ultima_vence Exemplo.amb_ok Exemplo.conhecimento_repetido
                     Exemplo.mundo0 H1) (lit "q"))
           eq_refl).
Defined.

Lemma carga_interrompida_witness :
  Forall bem_formado Exemplo.conhecimento_repetido /\
  ~ bem_formado Exemplo.item_sem_resposta /\
  cache_pkl
    (snd (adicionar_conhecimento_personalizado Exemplo.amb_ok
            (JsonLista (Exemplo.conhecimento_repetido
                          ++ Exemplo.item_sem_resposta :: Exemplo.conhecimento_repetido))
            Exemplo.mundo0))
  = cache_pkl Exemplo.mundo0.
Proof.
  assert (H1 : Forall bem_formado Exemplo.conhecimento_repetido).
  { repeat constructor; eexists; reflexivity. }
  assert (H2 : ~ bem_formado Exemplo.item_sem_resposta).
  { intros [_ [r Hr]]. discriminate Hr. }
  split; [exact H1|]. split; [exact H2|].
  exact (proj1 (proj2 (proj2 (carga_interrompida Exemplo.amb_ok Exemplo.mundo0)
                         Exemplo.conhecimento_repetido Exemplo.item_sem_resposta
                         Exemplo.conhecimento_repetido H1 H2))).
Defined.

Lemma carga_invisivel_offline_witness :
  sem_cache
    (snd (adicionar_conhecimento_personalizado Exemplo.amb_ok Exemplo.conhecimento_q
            Exemplo.mundo0)) (lit "q") [] true /\
  Exemplo.responder Exemplo.amb_ok (lit "q") [] true true
    (snd (adicionar_conhecimento_personalizado Exemplo.amb_ok
            Exemplo.conhecimento_q Exemplo.mundo0))
  = (Exemplo.buscar (historico (self Exemplo.mundo0)) (lit "q"),
     snd (adicionar_conhecimento_personalizado Exemplo.amb_ok
            Exemplo.conhecimento_q Exemplo.mundo0)).
Proof.
  assert (H1 : sem_cache
    (snd (adicionar_conhecimento_personalizado Exemplo.amb_ok Exemplo.conhecimento_q
            Exemplo.mundo0)) (lit "q") [] true) by (vm_compute; reflexivity).
  split; [exact H1|].
  exact (proj2 (carga_invisivel_offline ascii_lower ascii_isspace Exemplo.amb_ok
                  Exemplo.conhecimento_q Exemplo.mundo0 Exemplo.amb_ok
                  (lit "q") [] true) H1).
Defined.

(** After a bulk load of the question [q], offline mode still finds no
    history. *)
Example carga_e_offline :
  fst (Exemplo.responder Exemplo.amb_ok (lit "q") [] true true
         (snd (adicionar_conhecimento_personalizado Exemplo.amb_ok
                 Exemplo.conhecimento_q Exemplo.mundo0)))
  = MSG_SEM_HISTORICO.
Proof. vm_compute. reflexivity. Qed.

Lemma reinicio_restaura_cache_witness :
  em_sincronia
    (snd (Exemplo.responder Exemplo.amb_ok (lit "2+2?") [] false true Exemplo.mundo0)) /\
  cache_respostas
    (self (snd (carregar_cache
                  (reiniciar
                     (snd (Exemplo.responder Exemplo.amb_ok (lit "2+2?") [] false true
                             Exemplo.mundo0))))))
  = cache_respostas
      (self (snd (Exemplo.responder Exemplo.amb_ok (lit "2+2?") [] false true
                    Exemplo.mundo0))).
Proof.
  assert (H1 : em_sincronia
    (snd (Exemplo.responder Exemplo.amb_ok (lit "2+2?") [] false true Exemplo.mundo0)))
    by (vm_compute; reflexivity).
  split; [exact H1|].
  exact (proj1 (reinicio_restaura_cache ascii_lower ascii_isspace _ H1)).
Defined.

Lemma prompt_so_tres_ultimas_witness :
  length Exemplo.hist_tempos = 3%nat /\
  otimizar_prompt
    (set_historico (Exemplo.hist_numpy ++ Exemplo.hist_tempos) novo_assistente)
    (lit "oi") []
  = otimizar_prompt
      (set_historico ([] ++ Exemplo.hist_tempos') novo_assistente) (lit "oi") [].
Proof.
  assert (H1 : length Exemplo.hist_tempos = 3%nat) by reflexivity.
  assert (H2 : Forall2 (fun a b : @Interacao N =>
                          slice_to 100 (it_pergunta a) = slice_to 100 (it_pergunta b) /\
                          slice_to 100 (it_resposta a) = slice_to 100 (it_resposta b))
                 Exemplo.hist_tempos Exemplo.hist_tempos')
    by (repeat constructor).
  split; [exact H1|].
  exact (prompt_so_tres_ultimas novo_assistente (lit "oi") [] Exemplo.hist_numpy []
           Exemplo.hist_tempos Exemplo.hist_tempos' H1 H2).
Defined.

Lemma estudo_linhas_witness :
  In (lit "1. A")
     (fst (Exemplo.modo_estudo Exemplo.amb_linhas (lit "listas") 5 Exemplo.mundo0)) /\
  ~ In 10 (lit "1. A") /\
  fst (Exemplo.modo_estudo Exemplo.amb_linhas (lit "listas") 5 Exemplo.mundo0)
  = [lit "1. A"; lit "2. B"].
Proof.
  assert (H1 : In (lit "1. A")
     (fst (Exemplo.modo_estudo Exemplo.amb_linhas (lit "listas") 5 Exemplo.mundo0)))
    by (vm_compute; left; reflexivity).
  split; [exact H1|].
  split; [|vm_compute; reflexivity].
  exact (proj1 (proj2 (proj2 (estudo_linhas ascii_lower ascii_isspace Exemplo.amb_linhas
                                (lit "listas") 5 Exemplo.mundo0) (lit "1. A") H1))).
Defined.

Lemma estudo_repetido_do_cache_witness :
  sem_cache Exemplo.mundo0 (prompt_estudo (lit "listas") 5) [] true /\
  geracao Exemplo.amb_linhas Exemplo.mundo0 (prompt_estudo (lit "listas") 5)
    (lit "1. A" ++ NL ++ lit "  " ++ NL ++ lit "2. B") /\
  fst (Exemplo.modo_estudo Exemplo.amb_baixa (lit "listas") 5
         (snd (Exemplo.modo_estudo Exemplo.amb_linhas (lit "listas") 5 Exemplo.mundo0)))
  = fst (Exemplo.modo_estudo Exemplo.amb_linhas (lit "listas") 5 Exemplo.mundo0).
Proof.
  assert (H1 : sem_cache Exemplo.mundo0 (prompt_estudo (lit "listas") 5) [] true)
    by reflexivity.
  assert (H2 : geracao Exemplo.amb_linhas Exemplo.mundo0
                 (prompt_estudo (lit "listas") 5)
                 (lit "1. A" ++ NL ++ lit "  " ++ NL ++ lit "2. B"))
    by (split; vm_compute; reflexivity).
  split; [exact H1|]. split; [exact H2|].
  exact (proj1 (estudo_repetido_do_cache ascii_lower ascii_isspace Exemplo.amb_linhas
                  Exemplo.amb_baixa (lit "listas") 5 _ Exemplo.mundo0 H1 H2)).
Defined.

Lemma estudo_devolve_avisos_witness :
  sem_cache Exemplo.mundo0 (prompt_estudo (lit "listas") 5) [] true /\
  pode_executar (status_recursos Exemplo.amb_baixa) = false /\
  fst (Exemplo.modo_estudo Exemplo.amb_baixa (lit "listas") 5 Exemplo.mundo0)
  = filter (nao_branca ascii_isspace) [MSG_POUCOS_RECURSOS].
Proof.
  assert (H1 : sem_cache Exemplo.mundo0 (prompt_estudo (lit "listas") 5) [] true)
    by reflexivity.
  assert (H2 : pode_executar (status_recursos Exemplo.amb_baixa) = false)
    by (vm_compute; reflexivity).
  split; [exact H1|]. split; [exact H2|].
  exact (proj1 (estudo_devolve_avisos ascii_lower ascii_isspace Exemplo.amb_baixa
                  (lit "listas") 5 Exemplo.mundo0 H1) H2).
Defined.

(** The low-resources message comes back from study mode as a question. *)
Example estudo_aviso_como_questao :
  fst (Exemplo.modo_estudo Exemplo.amb_baixa (lit "listas") 5 Exemplo.mundo0)
  = [MSG_POUCOS_RECURSOS].
Proof. vm_compute. reflexivity. Qed.

(** * Further properties: export and the command loop *)

Section ExtrasTerminal.

Context {datetime : Type}.
Variable isoformat : datetime -> str.
Variable lower : str -> str.
Variable isspace : N -> bool.
Variable sum : list float -> float.

Implicit Types (w : @Mundo datetime) (amb : @Ambiente datetime).
Implicit Types (t : @Terminal datetime) (sis : @Sistema datetime).
Implicit Types (a : @AmbienteCLI datetime).
Implicit Types (pergunta contexto_aula texto : str).

Lemma fold_imprimir {A} (f : A -> Impressao) (l : list A) sis :
  fold_left (fun s x => imprimir (f x) s) l sis
  = {| mundo := mundo sis; arquivos := arquivos sis;
       log_exportacao := log_exportacao sis;
       stdout := stdout sis ++ map f l |}.
Proof.
  revert sis. induction l as [|x l IH]; intros sis; cbn [fold_left map].
  - rewrite app_nil_r. destruct sis; reflexivity.
  - rewrite IH. cbn [imprimir mundo arquivos log_exportacao stdout].
    rewrite <- app_assoc. reflexivity.
Qed.

(** X18: [exportar_historico] never changes the session, the standard
    output or another file; when the write succeeds the file holds one
    record for each Interaction, in order, whatever it held before; and
    an export made after a successful generation holds what an export
    made before it would have held, followed by one record with the
    question, the answer and the elapsed time of that call. *)
Theorem exportacao_acompanha_historico amb pergunta contexto_aula usar_cache
    resposta falha arquivo sis :
  sem_cache (mundo sis) pergunta contexto_aula usar_cache ->
  geracao amb (mundo sis) pergunta resposta ->
  let sis1 :=
    com_mundo (snd (responder lower isspace amb pergunta contexto_aula false
                      usar_cache (mundo sis))) sis in
  mundo (exportar_historico isoformat falha arquivo sis1) = mundo sis1 /\
  stdout (exportar_historico isoformat falha arquivo sis1) = stdout sis1 /\
  (forall outro, outro <> arquivo ->
     arquivos (exportar_historico isoformat falha arquivo sis1) !! outro
     = arquivos sis !! outro) /\
  arquivos (exportar_historico isoformat None arquivo sis) !! arquivo
  = Some (JsonGravado (map (registro_export isoformat)
                         (historico (self (mundo sis))))) /\
  arquivos (exportar_historico isoformat None arquivo sis1) !! arquivo
  = Some (JsonGravado
            (map (registro_export isoformat) (historico (self (mundo sis)))
               ++ [ {| x_timestamp := isoformat (now amb);
                       x_pergunta := pergunta;
                       x_resposta := resposta;
                       x_tempo_segundos :=
                         PrimFloat.sub (time_fim amb) (time_inicio amb) |} ])).
Proof.
  intros Hmiss Hger sis1.
  assert (Hh : historico (self (mundo sis1))
               = historico (self (mundo sis)) ++
                   [ {| it_timestamp := now amb; it_pergunta := pergunta;
                        it_resposta := resposta;
                        it_tempo_segundos :=
                          PrimFloat.sub (time_fim amb) (time_inicio amb) |} ]).
  { subst sis1. cbn [mundo com_mundo].
    rewrite (responder_sucesso lower isspace _ _ _ _ _ _ Hmiss Hger). cbn [snd self].
    destruct usar_cache; reflexivity. }
  split; [destruct falha as [[e f]|]; reflexivity|].
  split; [destruct falha as [[e f]|]; reflexivity|].
  split.
  - intros outro Hne. unfold exportar_historico.
    destruct falha as [[e [c|]]|]; cbn [arquivos]; subst sis1; cbn [arquivos com_mundo].
    + apply lookup_insert_ne. congruence.
    + apply lookup_delete_ne. congruence.
    + apply lookup_insert_ne. congruence.
  - split.
    + unfold exportar_historico. cbn [arquivos]. apply lookup_insert_eq.
    + unfold exportar_historico. cbn [arquivos]. rewrite lookup_insert_eq.
      rewrite Hh, map_app. reflexivity.
Qed.

(** ** The command loop *)

Lemma mundo_s0 t :
  mundo (imprimir (Pedido (NL ++ lit "📝 Sua pergunta: ")) (sistema t))
  = mundo (sistema t).
Proof. reflexivity. Qed.

(** One pass of the loop on a line that is a question. *)
Lemma iteracao_pergunta a texto t :
  linha_de_pergunta lower isspace texto ->
  iteracao isoformat lower isspace sum a (Linha texto) t
  = (Continua,
     {| sistema :=
          {| mundo := snd (responder lower isspace (cli_amb a) (strip isspace texto) []
                             (offline t) true (mundo (sistema t)));
             arquivos := arquivos (sistema t);
             log_exportacao := log_exportacao (sistema t);
             stdout :=
               stdout (sistema t) ++
                 [ Pedido (NL ++ lit "📝 Sua pergunta: ");
                   Texto (NL ++ lit "🤔 Processando...");
                   Texto (NL ++ lit "🤖 Assistente:");
                   Texto (fst (responder lower isspace (cli_amb a)
                                 (strip isspace texto) [] (offline t) true
                                 (mundo (sistema t)))) ] |};
        offline := offline t |}).
Proof.
  intros (Hne & Hcmd & Hest). unfold iteracao.
  destruct (strip isspace texto) as [|c p] eqn:Hp; [contradiction|].
  cbn [In] in Hcmd.
  rewrite !decide_False
    by (intros H; apply Hcmd; rewrite H;
        repeat (first [left; reflexivity | right])).
  rewrite Hest. cbn [mundo imprimir].
  destruct (responder lower isspace (cli_amb a) (c :: p) [] (offline t) true
              (mundo (sistema t))) as [r w'].
  unfold imprimir, com_mundo.
  cbn [fst snd mundo arquivos log_exportacao stdout].
  rewrite <- ?app_assoc. reflexivity.
Qed.

(** X19: the offline flag of the loop changes on no input other than
    the command [/offline], which flips it without touching the session:
    giving the command twice restores the mode. *)
Theorem modo_offline_so_muda_por_comando a a' entrada t :
  ((forall texto, entrada = Linha texto -> ~ linha_offline lower isspace texto) ->
   offline (snd (iteracao isoformat lower isspace sum a entrada t)) = offline t) /\
  (forall texto texto',
     linha_offline lower isspace texto ->
     linha_offline lower isspace texto' ->
     let t1 := snd (iteracao isoformat lower isspace sum a (Linha texto) t) in
     let t2 := snd (iteracao isoformat lower isspace sum a' (Linha texto') t1) in
     offline t1 = negb (offline t) /\
     offline t2 = offline t /\
     mundo (sistema t2) = mundo (sistema t)).
Proof.
  assert (Hflip : forall a0 texto t0,
            linha_offline lower isspace texto ->
            offline (snd (iteracao isoformat lower isspace sum a0 (Linha texto) t0))
            = negb (offline t0) /\
            mundo (sistema (snd (iteracao isoformat lower isspace sum a0
                                   (Linha texto) t0)))
            = mundo (sistema t0)).
  { intros a0 texto t0 [Hne Hoff]. unfold iteracao.
    destruct (strip isspace texto) as [|c p]; [contradiction|].
    rewrite Hoff.
    rewrite decide_False by (vm_compute; discriminate).
    rewrite decide_True by reflexivity. split; reflexivity. }
  split.
  - intros Hnot. unfold iteracao.
    destruct entrada as [texto | |e]; [|reflexivity|reflexivity].
    specialize (Hnot texto eq_refl). unfold linha_offline in Hnot.
    destruct (strip isspace texto) as [|c p] eqn:Hp; [reflexivity|].
    case_decide; [reflexivity|].
    case_decide; [exfalso; apply Hnot; split; [discriminate | assumption]|].
    case_decide; [reflexivity|].
    case_decide; [reflexivity|].
    destruct (startswith (lower (c :: p)) (lit "/estudo")).
    + destruct (strip isspace (replace (lit "/estudo") [] (c :: p))); [reflexivity|].
      destruct (modo_estudo lower isspace (cli_amb a) _ 5 _). reflexivity.
    + destruct (responder lower isspace (cli_amb a) (c :: p) [] (offline t) true _).
      reflexivity.
  - intros texto texto' H1 H2 t1 t2. subst t1 t2.
    destruct (Hflip a texto t H1) as [Ho1 Hm1].
    destruct (Hflip a' texto'
                (snd (iteracao isoformat lower isspace sum a (Linha texto) t)) H2)
      as [Ho2 Hm2].
    split; [exact Ho1|]. split.
    + rewrite Ho2, Ho1. apply negb_involutive.
    + rewrite Hm2. exact Hm1.
Qed.


Lemma last_de_quatro {A} (l : list A) (x1 x2 x3 x4 : A) :
  last (l ++ [x1; x2; x3; x4]) = Some x4.
Proof.
  change [x1; x2; x3; x4] with ([x1; x2; x3] ++ [x4]).
  rewrite app_assoc. apply last_snoc.
Qed.

(** X21: a question typed a second time is answered from the cache.
    When the first pass obtains the answer from the model, a later pass
    on the same line prints the same answer, in any environment, without
    a call of the model: in the loop every question is asked with the
    empty context and with caching on. *)
Theorem pergunta_repetida_do_cache a a' texto resposta t :
  linha_de_pergunta lower isspace texto ->
  offline t = false ->
  sem_cache (mundo (sistema t)) (strip isspace texto) [] true ->
  geracao (cli_amb a) (mundo (sistema t)) (strip isspace texto) resposta ->
  let r1 := iteracao isoformat lower isspace sum a (Linha texto) t in
  let r2 := iteracao isoformat lower isspace sum a' (Linha texto) (snd r1) in
  fst r1 = Continua /\ fst r2 = Continua /\
  last (stdout (sistema (snd r1))) = Some (Texto resposta) /\
  last (stdout (sistema (snd r2))) = Some (Texto resposta) /\
  filter e_chat (novos_eventos (mundo (sistema (snd r1))) (mundo (sistema (snd r2))))
  = [] /\
  self (mundo (sistema (snd r2))) = self (mundo (sistema (snd r1))).
Proof.
  intros Hperg Hoff Hmiss Hger r1 r2. subst r1 r2.
  rewrite (iteracao_pergunta a texto t Hperg). cbn [fst snd].
  rewrite (iteracao_pergunta a' texto _ Hperg).
  cbn [fst snd sistema offline mundo stdout]. rewrite Hoff.
  assert (Hhit :
    cache_respostas
      (self (snd (responder lower isspace (cli_amb a) (strip isspace texto) []
                    false true (mundo (sistema t)))))
      !! cache_key (strip isspace texto) []
    = Some resposta).
  { rewrite (responder_sucesso lower isspace _ _ _ _ _ _ Hmiss Hger).
    cbn [snd self cache_respostas set_cache]. apply lookup_insert_eq. }
  rewrite (responder_cache_hit lower isspace (cli_amb a') _ _ false _ _ Hhit).
  cbn [fst snd self].
  erewrite novos_eventos_app by reflexivity.
  rewrite (responder_sucesso lower isspace _ _ _ _ _ _ Hmiss Hger). cbn [fst snd].
  split; [reflexivity|]. split; [reflexivity|].
  split; [apply last_de_quatro|].
  split; [apply last_de_quatro|].
  split; reflexivity.
Qed.

(** X22: the end of the input does not end the program: each
    [EOFError] raised by [input] is caught, reported and followed by
    another pass, so that on inputs that are all ends of input the loop
    is still running after any number of passes, with the session and
    the mode as they were and two more outputs for each pass. *)
Theorem fim_de_entrada_nao_encerra (entradas : list (@AmbienteCLI datetime * Entrada)) t :
  Forall (fun ae => exists e, snd ae = EOFError e) entradas ->
  fst (laco isoformat lower isspace sum entradas t) = Continua /\
  mundo (sistema (snd (laco isoformat lower isspace sum entradas t)))
  = mundo (sistema t) /\
  offline (snd (laco isoformat lower isspace sum entradas t)) = offline t /\
  length (stdout (sistema (snd (laco isoformat lower isspace sum entradas t))))
  = (length (stdout (sistema t)) + 2 * length entradas)%nat.
Proof.
  intros Hall. revert t.
  induction Hall as [|[a entrada] entradas [e He] _ IH]; intros t.
  - cbn. repeat split. lia.
  - cbn in He. subst entrada. cbn [laco iteracao].
    destruct (IH {| sistema :=
                      imprimir (Texto (NL ++ lit "❌ Erro: " ++ e))
                        (imprimir (Pedido (NL ++ lit "📝 Sua pergunta: ")) (sistema t));
                    offline := offline t |}) as (H1 & H2 & H3 & H4).
    rewrite H1, H2, H3, H4. cbn [sistema offline mundo stdout imprimir length].
    rewrite !length_app. cbn [length]. repeat split. lia.
Qed.

(** ** The command [/estudo] *)

Lemma replace_sem_ocorrencia (old new s : str) :
  str_in old s = false -> replace old new s = s.
Proof.
  unfold replace. induction s as [|c s IH]; [reflexivity|].
  cbn [str_in replace_aux]. intros H. apply orb_false_elim in H as [Hst Hin].
  rewrite Hst, (IH Hin). reflexivity.
Qed.

Lemma replace_aux_skip (old new x r : str) :
  replace_aux old new (length x) (x ++ r) = replace_aux old new 0 r.
Proof. induction x as [|c x IH]; [reflexivity | exact IH]. Qed.

Lemma replace_prefixo (c : N) (old' new r : str) :
  replace (c :: old') new ((c :: old') ++ r) = new ++ replace (c :: old') new r.
Proof.
  unfold replace. cbn [app replace_aux].
  assert (Hst : startswith (c :: old' ++ r) (c :: old') = true).
  { apply startswith_spec. exists r. reflexivity. }
  rewrite Hst.
  assert (Hl : (length (c :: old') - 1)%nat = length old')
    by (cbn [length]; apply Nat.sub_0_r).
  rewrite Hl, replace_aux_skip. reflexivity.
Qed.

Lemma lstrip_fixo (c : N) (x : str) :
  isspace c = false -> lstrip isspace (c :: x) = c :: x.
Proof. intros H. cbn [lstrip]. rewrite H. reflexivity. Qed.

Lemma lstrip_cabeca (s : str) c x :
  lstrip isspace s = c :: x -> isspace c = false.
Proof.
  induction s as [|d s IH]; cbn [lstrip]; [discriminate|].
  destruct (isspace d) eqn:Hd; [exact IH|]. intros [= <- _]. exact Hd.
Qed.

(** A stripped text is empty or has no white space at either end. *)
Lemma strip_extremos (s : str) :
  strip isspace s = [] \/
  exists c meio d, isspace c = false /\ isspace d = false /\
    (strip isspace s = [c] \/ strip isspace s = c :: meio ++ [d]).
Proof.
  unfold strip.
  destruct (lstrip isspace s) as [|c y] eqn:Hy; [left; reflexivity|].
  pose proof (lstrip_cabeca _ _ _ Hy) as Hc.
  destruct (lstrip isspace (rev (c :: y))) as [|d z] eqn:Hz.
  - left. reflexivity.
  - right. pose proof (lstrip_cabeca _ _ _ Hz) as Hd.
    destruct (lstrip_sufixo isspace (rev (c :: y))) as (sp & Hsp & Hall).
    rewrite Hz in Hsp. cbn [rev] in Hsp.
    destruct (exists_last (l := d :: z)) as (z' & e & Hlast); [discriminate|].
    assert (He : e = c).
    { rewrite Hlast, app_assoc in Hsp. apply app_inj_tail in Hsp as [_ H]. congruence. }
    subst e. rewrite Hlast, rev_app_distr. cbn [rev app].
    destruct z' as [|d' z''].
    + exists c, [], c. repeat split; try assumption. left. reflexivity.
    + cbn [app] in Hlast. injection Hlast as <- _. exists c, (rev z''), d.
      repeat split; try assumption. right. cbn [rev]. reflexivity.
Qed.

Lemma strip_idempotente (s : str) : strip isspace (strip isspace s) = strip isspace s.
Proof.
  destruct (strip_extremos s) as [-> | (c & meio & d & Hc & Hd & [-> | ->])].
  - reflexivity.
  - unfold strip. rewrite (lstrip_fixo c [] Hc). cbn [rev app].
    rewrite (lstrip_fixo c [] Hc). reflexivity.
  - unfold strip. rewrite (lstrip_fixo c _ Hc).
    cbn [rev]. rewrite rev_app_distr. cbn [rev app].
    rewrite (lstrip_fixo d _ Hd).
    change (d :: rev meio ++ [c]) with ((d :: rev meio) ++ [c]).
    rewrite rev_app_distr. cbn [rev app]. rewrite rev_involutive. reflexivity.
Qed.

(** One pass of the loop on a line that starts, once lowered, with
    [/estudo]. *)
Lemma iteracao_estudo a texto t :
  strip isspace texto <> [] ->
  ~ In (lower (strip isspace texto))
      [lit "/sair"; lit "/offline"; lit "/stats"; lit "/export"] ->
  startswith (lower (strip isspace texto)) (lit "/estudo") = true ->
  let topico := strip isspace (replace (lit "/estudo") [] (strip isspace texto)) in
  iteracao isoformat lower isspace sum a (Linha texto) t
  = match topico with
    | [] =>
        (Continua,
         {| sistema :=
              imprimir (Texto (lit "Use: /estudo [tópico]"))
                (imprimir (Pedido (NL ++ lit "📝 Sua pergunta: ")) (sistema t));
            offline := offline t |})
    | _ :: _ =>
        (Continua,
         {| sistema :=
              {| mundo := snd (modo_estudo lower isspace (cli_amb a) topico 5
                                 (mundo (sistema t)));
                 arquivos := arquivos (sistema t);
                 log_exportacao := log_exportacao (sistema t);
                 stdout :=
                   stdout (sistema t) ++
                     [ Pedido (NL ++ lit "📝 Sua pergunta: ");
                       Texto (NL ++ lit "📚 Gerando questões sobre "
                                 ++ topico ++ lit "...") ] ++
                     map Texto
                       (fst (modo_estudo lower isspace (cli_amb a) topico 5
                               (mundo (sistema t)))) |};
            offline := offline t |})
    end.
Proof.
  intros Hne Hcmd Hest topico. unfold iteracao.
  destruct (strip isspace texto) as [|c p] eqn:Hp; [contradiction|].
  cbn [In] in Hcmd.
  rewrite !decide_False
    by (intros H; apply Hcmd; rewrite H;
        repeat (first [left; reflexivity | right])).
  rewrite Hest. fold topico.
  destruct topico as [|c0 top]; [reflexivity|].
  cbn [mundo imprimir].
  destruct (modo_estudo lower isspace (cli_amb a) (c0 :: top) 5 (mundo (sistema t)))
    as [questoes w'].
  rewrite fold_imprimir. unfold imprimir, com_mundo.
  cbn [fst snd mundo arquivos log_exportacao stdout].
  rewrite <- ?app_assoc. reflexivity.
Qed.

(** X23: the topic of [/estudo] is what is left of the line once every
    occurrence of the text [/estudo] is removed and the ends are
    stripped.  The command is recognised on the lowered line but removed
    from the line as typed: after [/estudo] typed in lower case the
    topic is the stripped rest of the line, and a bare command prints
    the usage without any call; typed in another case the command is not
    removed, and the model is asked for questions about the whole line,
    command included. *)
Theorem topico_do_estudo a texto t :
  strip isspace texto <> [] ->
  ~ In (lower (strip isspace texto))
      [lit "/sair"; lit "/offline"; lit "/stats"; lit "/export"] ->
  startswith (lower (strip isspace texto)) (lit "/estudo") = true ->
  let r := iteracao isoformat lower isspace sum a (Linha texto) t in
  (forall resto,
     strip isspace texto = lit "/estudo" ++ resto ->
     str_in (lit "/estudo") resto = false ->
     match strip isspace resto with
     | [] =>
         mundo (sistema (snd r)) = mundo (sistema t) /\
         last (stdout (sistema (snd r))) = Some (Texto (lit "Use: /estudo [tópico]"))
     | _ :: _ =>
         mundo (sistema (snd r))
         = snd (modo_estudo lower isspace (cli_amb a) (strip isspace resto) 5
                  (mundo (sistema t)))
     end) /\
  (str_in (lit "/estudo") (strip isspace texto) = false ->
   mundo (sistema (snd r))
   = snd (modo_estudo lower isspace (cli_amb a) (strip isspace texto) 5
            (mundo (sistema t)))).
Proof.
  intros Hne Hcmd Hest r. subst r.
  rewrite (iteracao_estudo a texto t Hne Hcmd Hest). cbv zeta. split.
  - intros resto Hp Hno.
    assert (Htop : strip isspace (replace (lit "/estudo") [] (lit "/estudo" ++ resto))
                   = strip isspace resto).
    { pose proof (replace_prefixo 47 (lit "estudo") [] resto) as H.
      change (47 :: lit "estudo") with (lit "/estudo") in H.
      rewrite H. cbn [app]. rewrite (replace_sem_ocorrencia _ _ _ Hno). reflexivity. }
    rewrite Hp, Htop.
    destruct (strip isspace resto) as [|c0 top]; cbn [snd sistema mundo stdout imprimir].
    + split; [reflexivity|]. apply last_snoc.
    + reflexivity.
  - intros Hno. rewrite (replace_sem_ocorrencia _ _ _ Hno), strip_idempotente.
    destruct (strip isspace texto) as [|c0 top]; [contradiction|]. reflexivity.
Qed.

(** ** The whole run *)

(** The session after one pass of the loop is the session before it or
    the one left by a call of [responder] with the empty context and
    caching on. *)
Lemma iteracao_mundo a entrada t :
  mundo (sistema (snd (iteracao isoformat lower isspace sum a entrada t)))
  = mundo (sistema t) \/
  exists pergunta modo_offline,
    mundo (sistema (snd (iteracao isoformat lower isspace sum a entrada t)))
    = snd (responder lower isspace (cli_amb a) pergunta [] modo_offline true
             (mundo (sistema t))).
Proof.
  unfold iteracao.
  destruct entrada as [texto | |e]; [|left; reflexivity|left; reflexivity].
  destruct (strip isspace texto) as [|c p] eqn:Hp; [left; reflexivity|].
  case_decide; [left; reflexivity|].
  case_decide; [left; reflexivity|].
  case_decide; [left; rewrite fold_imprimir; reflexivity|].
  case_decide; [left; destruct (cli_falha a) as [[e f]|]; reflexivity|].
  destruct (startswith (lower (c :: p)) (lit "/estudo")).
  - destruct (strip isspace (replace (lit "/estudo") [] (c :: p))) as [|c0 top];
      [left; reflexivity|].
    right. exists (prompt_estudo (c0 :: top) 5), false.
    cbn [mundo imprimir]. rewrite modo_estudo_eq.
    rewrite fold_imprimir. reflexivity.
  - right. exists (c :: p), (offline t). cbn [mundo imprimir].
    destruct (responder lower isspace (cli_amb a) (c :: p) [] (offline t) true
                (mundo (sistema t))) as [r w'].
    reflexivity.
Qed.

Lemma laco_efeito (entradas : list (@AmbienteCLI datetime * Entrada)) t :
  exists tr novas,
    eventos (mundo (sistema (snd (laco isoformat lower isspace sum entradas t))))
    = eventos (mundo (sistema t)) ++ tr /\
    historico (self (mundo (sistema (snd (laco isoformat lower isspace sum entradas t)))))
    = historico (self (mundo (sistema t))) ++ novas /\
    length novas = length (filter e_chat_ok tr).
Proof.
  revert t. induction entradas as [|[a entrada] entradas IH]; intros t.
  - exists [], []. cbn. rewrite !app_nil_r. repeat split.
  - assert (H1 : exists tr novas,
        eventos (mundo (sistema (snd (iteracao isoformat lower isspace sum a entrada t))))
        = eventos (mundo (sistema t)) ++ tr /\
        historico (self (mundo (sistema
                     (snd (iteracao isoformat lower isspace sum a entrada t)))))
        = historico (self (mundo (sistema t))) ++ novas /\
        length novas = length (filter e_chat_ok tr)).
    { destruct (iteracao_mundo a entrada t) as [-> | (p & off & ->)].
      - exists [], []. rewrite !app_nil_r. repeat split.
      - rewrite <- (executar_responder lower isspace).
        destruct (executar_efeito lower isspace
                    (OpResponder (cli_amb a) p [] off true) (mundo (sistema t)))
          as (tr & novas & Hev & Hh & Hl & _).
        exists tr, novas. auto. }
    cbn [laco].
    destruct (iteracao isoformat lower isspace sum a entrada t) as [[|] t1].
    + cbn [snd] in *.
      destruct H1 as (tr1 & n1 & Hev1 & Hh1 & Hl1).
      destruct (IH t1) as (tr2 & n2 & Hev2 & Hh2 & Hl2).
      exists (tr1 ++ tr2), (n1 ++ n2).
      rewrite Hev2, Hev1, Hh2, Hh1, <- !app_assoc.
      split; [reflexivity|]. split; [reflexivity|].
      rewrite filter_app, !length_app. lia.
    + exact H1.
Qed.

(** X25: when the loop has ended, on [/sair] or on an interrupt, the
    program exports the history and prints its length.  Whatever was
    typed, the history is then the one of the start followed by one
    Interaction for each successful call of the model during the run;
    the last output is the total, the length of that history; and when
    the write succeeds the exported file holds one record for each
    Interaction of it. *)
Theorem total_conta_geracoes (entradas : list (@AmbienteCLI datetime * Entrada))
    falha t t' :
  programa isoformat lower isspace sum entradas falha t = Some t' ->
  (exists novas,
     historico (self (mundo (sistema t')))
     = historico (self (mundo (sistema t))) ++ novas /\
     length novas
     = length (filter e_chat_ok
                 (novos_eventos (mundo (sistema t)) (mundo (sistema t'))))) /\
  last (stdout (sistema t'))
  = Some (Texto (NL ++ lit "📊 Total de interações: "
                    ++ lit (pretty (length (historico (self (mundo (sistema t')))))))) /\
  (falha = None ->
   arquivos (sistema t') !! ARQUIVO_HISTORICO
   = Some (JsonGravado (map (registro_export isoformat)
                          (historico (self (mundo (sistema t'))))))).
Proof.
  unfold programa. pose proof (laco_efeito entradas t) as Hef.
  destruct (laco isoformat lower isspace sum entradas t) as [[|] t1];
    [discriminate|].
  intros [= <-]. cbn [snd] in Hef.
  assert (Hm : mundo (sistema (encerramento isoformat falha t1)) = mundo (sistema t1)).
  { unfold encerramento. destruct falha as [[e f]|]; reflexivity. }
  split; [|split].
  - rewrite Hm. destruct Hef as (tr & novas & Hev & Hh & Hl).
    exists novas. split; [exact Hh|].
    erewrite novos_eventos_app by exact Hev. exact Hl.
  - unfold encerramento. cbn [sistema stdout imprimir].
    rewrite last_snoc. destruct falha as [[e f]|]; reflexivity.
  - intros ->. unfold encerramento, exportar_historico.
    cbn [sistema arquivos imprimir mundo]. apply lookup_insert_eq.
Qed.

(** ** Statistics after a generation *)

(** X24: after a successful generation the statistics are never the
    empty-state result: the count is one more than before, the last
    time stamp is the one of that generation, the first is the one of
    the oldest Interaction, the mean is taken over the earlier latencies
    followed by the elapsed time of the call, and the cache is one entry
    larger exactly when caching is on. *)
Theorem estatisticas_apos_geracao amb pergunta contexto_aula usar_cache resposta w :
  sem_cache w pergunta contexto_aula usar_cache ->
  geracao amb w pergunta resposta ->
  let s1 := self (snd (responder lower isspace amb pergunta contexto_aula false
                         usar_cache w)) in
  estatisticas_uso isoformat sum s1
  = Dados
      (S (length (historico (self w))))
      (PrimFloat.div
         (sum (map it_tempo_segundos (historico (self w))
                 ++ [PrimFloat.sub (time_fim amb) (time_inicio amb)]))
         (float_of_Z (Z.of_nat (S (length (historico (self w)))))))
      (if usar_cache then S (size (cache_respostas (self w)))
       else size (cache_respostas (self w)))
      (isoformat match historico (self w) with
                 | [] => now amb
                 | primeira :: _ => it_timestamp primeira
                 end)
      (isoformat (now amb)).
Proof.
  intros Hmiss Hger s1. subst s1.
  rewrite (responder_sucesso lower isspace _ _ _ _ _ _ Hmiss Hger). cbn [snd self].
  unfold sem_cache in Hmiss. unfold estatisticas_uso.
  assert (Hsize : size (<[cache_key pergunta contexto_aula := resposta]>
                          (cache_respostas (self w)))
                  = S (size (cache_respostas (self w))) \/ usar_cache = false).
  { destruct usar_cache; [left; apply map_size_insert_None; exact Hmiss | right; reflexivity]. }
  destruct (historico (self w)) as [|p h] eqn:Hh.
  - destruct usar_cache; cbn [historico set_cache set_historico cache_respostas
                               app map length List.last it_timestamp].
    + destruct Hsize as [-> | H]; [reflexivity | discriminate H].
    + reflexivity.
  - assert (Hfim : forall x : @Interacao datetime,
              List.last (p :: h ++ [x]) p = x).
    { intros x. change (p :: h ++ [x]) with ((p :: h) ++ [x]). apply last_last. }
    assert (Hlen : forall x : @Interacao datetime,
              length (map it_tempo_segundos (h ++ [x])) = S (length h)).
    { intros x. rewrite length_map, length_app. cbn [length]. apply Nat.add_1_r. }
    assert (Hlen' : forall x : @Interacao datetime,
              length (h ++ [x]) = S (length h)).
    { intros x. rewrite length_app. cbn [length]. apply Nat.add_1_r. }
    destruct usar_cache; cbn [historico set_cache set_historico cache_respostas
                               app map length];
      rewrite Hfim, Hlen, Hlen', map_app; cbn [map it_tempo_segundos it_timestamp].
    + destruct Hsize as [-> | H]; [reflexivity | discriminate H].
    + reflexivity.
Qed.

End ExtrasTerminal.

(** * The system monitor *)

(** A float that is at least a positive float of larger exponent is at
    least any positive float of smaller exponent. *)
Lemma SFleb_expoente (m1 m2 : positive) (e1 e2 : Z) (r : spec_float) :
  (e2 < e1)%Z ->
  SFleb (S754_finite false m1 e1) r = true ->
  SFleb (S754_finite false m2 e2) r = true.
Proof.
  intros He. unfold SFleb, SFcompare.
  destruct r as [s | s | | s m e]; try (intros H; exact H).
  destruct s; [intros H; exact H|].
  destruct (Z.compare_spec e1 e) as [Heq | Hlt | Hgt].
  - intros _. replace (e2 ?= e)%Z with Lt by (symmetry; apply Z.compare_lt_iff; lia).
    reflexivity.
  - intros _. replace (e2 ?= e)%Z with Lt by (symmetry; apply Z.compare_lt_iff; lia).
    reflexivity.
  - discriminate.
Qed.

Lemma leb_8_5 (r : float) :
  PrimFloat.leb (float_of_Z 8) r = true -> PrimFloat.leb (float_of_Z 5) r = true.
Proof.
  rewrite !leb_spec.
  change (Prim2SF (float_of_Z 8)) with (S754_finite false 4503599627370496 (-49)).
  change (Prim2SF (float_of_Z 5)) with (S754_finite false 5629499534213120 (-50)).
  apply SFleb_expoente. lia.
Qed.

Lemma leb_5_3 (r : float) :
  PrimFloat.leb (float_of_Z 5) r = true -> PrimFloat.leb (float_of_Z 3) r = true.
Proof.
  rewrite !leb_spec.
  change (Prim2SF (float_of_Z 5)) with (S754_finite false 5629499534213120 (-50)).
  change (Prim2SF (float_of_Z 3)) with (S754_finite false 6755399441055744 (-51)).
  apply SFleb_expoente. lia.
Qed.

(** The tiers of [recomendacoes] and the status of [veredito], by the
    thresholds that [ram] reaches. *)
Lemma faixas (ram : float) :
  (PrimFloat.leb (float_of_Z 3) ram = true /\ PrimFloat.leb (float_of_Z 5) ram = true /\
   recomendacoes ram = REC_8 /\ veredito ram = MSG_PRONTO) \/
  (PrimFloat.leb (float_of_Z 3) ram = true /\ PrimFloat.leb (float_of_Z 5) ram = true /\
   recomendacoes ram = REC_5 /\ veredito ram = MSG_PRONTO) \/
  (PrimFloat.leb (float_of_Z 3) ram = true /\ PrimFloat.leb (float_of_Z 5) ram = false /\
   recomendacoes ram = REC_3 /\ veredito ram = MSG_LIMITADO) \/
  (PrimFloat.leb (float_of_Z 3) ram = false /\ PrimFloat.leb (float_of_Z 5) ram = false /\
   recomendacoes ram = REC_INSUFICIENTE /\ veredito ram = MSG_LIMITADO).
Proof.
  unfold recomendacoes, veredito.
  destruct (PrimFloat.leb (float_of_Z 8) ram) eqn:H8.
  - pose proof (leb_8_5 ram H8) as H5. pose proof (leb_5_3 ram H5) as H3.
    rewrite H5. left. auto.
  - destruct (PrimFloat.leb (float_of_Z 5) ram) eqn:H5.
    + pose proof (leb_5_3 ram H5) as H3. right. left. auto.
    + destruct (PrimFloat.leb (float_of_Z 3) ram) eqn:H3.
      * right. right. left. auto.
      * right. right. right. auto.
Qed.

Lemma tem_linha_In (s : str) (ls : list LinhaMonitor) :
  tem_linha s ls = true <-> In (Fixa s) ls.
Proof.
  unfold tem_linha. rewrite existsb_exists. split.
  - intros (l & Hin & Hl). destruct l as [t| | | | | |]; try discriminate Hl.
    apply bool_decide_eq_true in Hl. subst t. exact Hin.
  - intros Hin. exists (Fixa s). split; [exact Hin|].
    apply bool_decide_eq_true. reflexivity.
Qed.

Lemma nao_tem_linha (s : str) (ls : list LinhaMonitor) :
  tem_linha s ls = false -> ~ In (Fixa s) ls.
Proof. intros H Hin. apply tem_linha_In in Hin. congruence. Qed.

Lemma incl_tem (textos : list str) (ls : list LinhaMonitor) :
  incl (map Fixa textos) ls <-> forallb (fun s => tem_linha s ls) textos = true.
Proof.
  rewrite forallb_forall. unfold incl. split.
  - intros H s Hs. apply tem_linha_In, H, in_map, Hs.
  - intros H l Hl. apply in_map_iff in Hl as (s & <- & Hs).
    apply tem_linha_In, H, Hs.
Qed.

Lemma tabela_casos (m : Metricas) :
  let ram := snd (verificar_compatibilidade m) in
  let ls := fst (verificar_compatibilidade m) in
  (PrimFloat.leb (float_of_Z 3) ram = true /\
   tabela ls true false false true false false false) \/
  (PrimFloat.leb (float_of_Z 3) ram = true /\
   tabela ls true false false false true false false) \/
  (PrimFloat.leb (float_of_Z 3) ram = true /\
   tabela ls false true false false false true false) \/
  (PrimFloat.leb (float_of_Z 3) ram = false /\
   tabela ls false true true false false false true).
Proof.
  unfold verificar_compatibilidade, tabela. cbn [fst snd].
  destruct (faixas (PrimFloat.div (float_of_Z (m_available m)) (float_of_Z (1024 ^ 3))))
    as [(H3 & _ & -> & ->) | [(H3 & _ & -> & ->) | [(H3 & _ & -> & ->) | (H3 & _ & -> & ->)]]].
  - left. split; [exact H3|]. repeat split; vm_compute; reflexivity.
  - right. left. split; [exact H3|]. repeat split; vm_compute; reflexivity.
  - right. right. left. split; [exact H3|]. repeat split; vm_compute; reflexivity.
  - right. right. right. split; [exact H3|]. repeat split; vm_compute; reflexivity.
Qed.

Lemma incl_nao_tem (textos : list str) (ls : list LinhaMonitor) :
  forallb (fun s => tem_linha s ls) textos = false -> ~ incl (map Fixa textos) ls.
Proof. intros H Hin. apply incl_tem in Hin. congruence. Qed.

(** X26: the final status of the report agrees with the models it
    recommends.  The report ends in exactly one of the two statuses; it
    declares the system ready exactly when it recommends the models of
    one of the two upper tiers, and limited exactly when it recommends
    the lightest models or reports that the RAM is insufficient. *)
Theorem veredito_coerente (m : Metricas) :
  let linhas := fst (verificar_compatibilidade m) in
  (In (Fixa MSG_PRONTO) linhas <-> ~ In (Fixa MSG_LIMITADO) linhas) /\
  (In (Fixa MSG_PRONTO) linhas <->
   incl (map Fixa REC_8) linhas \/ incl (map Fixa REC_5) linhas) /\
  (In (Fixa MSG_LIMITADO) linhas <->
   incl (map Fixa REC_3) linhas \/ incl (map Fixa REC_INSUFICIENTE) linhas).
Proof.
  intros linhas. subst linhas.
  destruct (tabela_casos m) as [(_ & Ht) | [(_ & Ht) | [(_ & Ht) | (_ & Ht)]]];
    destruct Ht as (H1 & H2 & _ & H4 & H5 & H6 & H7).
  - pose proof (proj1 (tem_linha_In _ _) H1) as Q1.
    pose proof (nao_tem_linha _ _ H2) as Q2.
    pose proof (proj2 (incl_tem _ _) H4) as Q4.
    pose proof (incl_nao_tem _ _ H6) as Q6.
    pose proof (incl_nao_tem _ _ H7) as Q7.
    split; [split; [intros _; exact Q2 | intros _; exact Q1]|].
    split; [split; [intros _; left; exact Q4 | intros _; exact Q1]|].
    split; [intros X; destruct (Q2 X)|].
    intros [X | X]; [destruct (Q6 X) | destruct (Q7 X)].
  - pose proof (proj1 (tem_linha_In _ _) H1) as Q1.
    pose proof (nao_tem_linha _ _ H2) as Q2.
    pose proof (proj2 (incl_tem _ _) H5) as Q5.
    pose proof (incl_nao_tem _ _ H6) as Q6.
    pose proof (incl_nao_tem _ _ H7) as Q7.
    split; [split; [intros _; exact Q2 | intros _; exact Q1]|].
    split; [split; [intros _; right; exact Q5 | intros _; exact Q1]|].
    split; [intros X; destruct (Q2 X)|].
    intros [X | X]; [destruct (Q6 X) | destruct (Q7 X)].
  - pose proof (nao_tem_linha _ _ H1) as Q1.
    pose proof (proj1 (tem_linha_In _ _) H2) as Q2.
    pose proof (incl_nao_tem _ _ H4) as Q4.
    pose proof (incl_nao_tem _ _ H5) as Q5.
    pose proof (proj2 (incl_tem _ _) H6) as Q6.
    split; [split; [intros X; destruct (Q1 X) | intros X; destruct (X Q2)]|].
    split; [split; [intros X; destruct (Q1 X)
                   | intros [X | X]; [destruct (Q4 X) | destruct (Q5 X)]]|].
    split; [intros _; left; exact Q6 | intros _; exact Q2].
  - pose proof (nao_tem_linha _ _ H1) as Q1.
    pose proof (proj1 (tem_linha_In _ _) H2) as Q2.
    pose proof (incl_nao_tem _ _ H4) as Q4.
    pose proof (incl_nao_tem _ _ H5) as Q5.
    pose proof (proj2 (incl_tem _ _) H7) as Q7.
    split; [split; [intros X; destruct (Q1 X) | intros X; destruct (X Q2)]|].
    split; [split; [intros X; destruct (Q1 X)
                   | intros [X | X]; [destruct (Q4 X) | destruct (Q5 X)]]|].
    split; [intros _; right; exact Q7 | intros _; exact Q2].
Qed.

(** X27: the monitor and the assistant draw the same line.  On the same
    amount of memory available, the value that the monitor returns is
    the one that the assistant compares with its threshold; the monitor
    reports that the RAM is insufficient exactly when the assistant
    refuses to generate; and when the monitor declares the system ready
    the assistant accepts to generate. *)
Theorem monitor_concorda_com_assistente {datetime : Type}
    (amb : @Ambiente datetime) (m : Metricas) :
  m_available m = mem_available amb ->
  snd (verificar_compatibilidade m) = ram_disponivel_gb (status_recursos amb) /\
  (In (Fixa MSG_RAM_INSUFICIENTE) (fst (verificar_compatibilidade m)) <->
   pode_executar (status_recursos amb) = false) /\
  (In (Fixa MSG_PRONTO) (fst (verificar_compatibilidade m)) ->
   pode_executar (status_recursos amb) = true).
Proof.
  intros Hmem.
  assert (Hram : snd (verificar_compatibilidade m)
                 = ram_disponivel_gb (status_recursos amb)).
  { unfold verificar_compatibilidade, status_recursos, gb_disponivel.
    cbn [snd ram_disponivel_gb]. rewrite Hmem. reflexivity. }
  split; [exact Hram|].
  assert (Hpode : pode_executar (status_recursos amb)
                  = PrimFloat.leb (float_of_Z 3) (snd (verificar_compatibilidade m))).
  { rewrite Hram. reflexivity. }
  rewrite Hpode.
  destruct (tabela_casos m) as [(Hl & Ht) | [(Hl & Ht) | [(Hl & Ht) | (Hl & Ht)]]];
    cbv zeta in Hl; rewrite Hl;
    destruct Ht as (H1 & _ & H3 & _).
  - pose proof (nao_tem_linha _ _ H3) as Q3.
    split; [split; [intros X; destruct (Q3 X) | discriminate] | reflexivity].
  - pose proof (nao_tem_linha _ _ H3) as Q3.
    split; [split; [intros X; destruct (Q3 X) | discriminate] | reflexivity].
  - pose proof (nao_tem_linha _ _ H3) as Q3.
    pose proof (nao_tem_linha _ _ H1) as Q1.
    split; [split; [intros X; destruct (Q3 X) | discriminate]
           | intros X; destruct (Q1 X)].
  - pose proof (proj1 (tem_linha_In _ _) H3) as Q3.
    pose proof (nao_tem_linha _ _ H1) as Q1.
    split; [split; [reflexivity | intros _; exact Q3] | intros X; destruct (Q1 X)].
Qed.

(** * The properties of the export and of the loop on concrete runs *)

Lemma exportacao_acompanha_historico_witness :
  sem_cache (mundo Exemplo.sistema0) (lit "2+2?") [] true /\
  geracao Exemplo.amb_ok (mundo Exemplo.sistema0) (lit "2+2?") (lit "4") /\
  arquivos
    (exportar_historico Exemplo.isoformat None ARQUIVO_HISTORICO
       (com_mundo
          (snd (responder ascii_lower ascii_isspace Exemplo.amb_ok (lit "2+2?") []
                  false true (mundo Exemplo.sistema0)))
          Exemplo.sistema0))
    !! ARQUIVO_HISTORICO
  = Some (JsonGravado
            (map (registro_export Exemplo.isoformat)
               (historico (self (mundo Exemplo.sistema0)))
               ++ [ {| x_timestamp := Exemplo.isoformat (now Exemplo.amb_ok);
                       x_pergunta := lit "2+2?";
                       x_resposta := lit "4";
                       x_tempo_segundos :=
                         PrimFloat.sub (time_fim Exemplo.amb_ok)
                           (time_inicio Exemplo.amb_ok) |} ])).
Proof.
  assert (H1 : sem_cache (mundo Exemplo.sistema0) (lit "2+2?") [] true)
    by (vm_compute; reflexivity).
  assert (H2 : geracao Exemplo.amb_ok (mundo Exemplo.sistema0) (lit "2+2?") (lit "4"))
    by (split; vm_compute; reflexivity).
  split; [exact H1|]. split; [exact H2|].
  exact (proj2 (proj2 (proj2 (proj2
           (exportacao_acompanha_historico Exemplo.isoformat ascii_lower ascii_isspace
              Exemplo.amb_ok (lit "2+2?") [] true (lit "4") None ARQUIVO_HISTORICO
              Exemplo.sistema0 H1 H2))))).
Defined.

(** One successful generation, exported. *)
Example exportacao_de_uma_resposta :
  arquivos
    (exportar_historico Exemplo.isoformat None ARQUIVO_HISTORICO
       (com_mundo
          (snd (Exemplo.responder Exemplo.amb_ok (lit "2+2?") [] false true
                  Exemplo.mundo0))
          Exemplo.sistema0))
    !! ARQUIVO_HISTORICO
  = Some (JsonGravado
            [ {| x_timestamp := lit "7"; x_pergunta := lit "2+2?";
                 x_resposta := lit "4"; x_tempo_segundos := 2%float |} ]).
Proof. vm_compute. reflexivity. Qed.

Lemma modo_offline_so_muda_por_comando_witness :
  linha_offline ascii_lower ascii_isspace (lit "/offline") /\
  linha_offline ascii_lower ascii_isspace (lit " /OFFLINE ") /\
  offline
    (snd (iteracao Exemplo.isoformat ascii_lower ascii_isspace sum_esquerda
            (Exemplo.cli Exemplo.amb_baixa) (Linha (lit " /OFFLINE "))
            (snd (iteracao Exemplo.isoformat ascii_lower ascii_isspace sum_esquerda
                    (Exemplo.cli Exemplo.amb_ok) (Linha (lit "/offline"))
                    Exemplo.terminal0))))
  = offline Exemplo.terminal0.
Proof.
  assert (H1 : linha_offline ascii_lower ascii_isspace (lit "/offline"))
    by (split; [vm_compute; discriminate | vm_compute; reflexivity]).
  assert (H2 : linha_offline ascii_lower ascii_isspace (lit " /OFFLINE "))
    by (split; [vm_compute; discriminate | vm_compute; reflexivity]).
  split; [exact H1|]. split; [exact H2|].
  exact (proj1 (proj2
           (proj2 (modo_offline_so_muda_por_comando Exemplo.isoformat ascii_lower
                     ascii_isspace sum_esquerda (Exemplo.cli Exemplo.amb_ok)
                     (Exemplo.cli Exemplo.amb_baixa) KeyboardInterrupt
                     Exemplo.terminal0)
              (lit "/offline") (lit " /OFFLINE ") H1 H2))).
Defined.


Lemma pergunta_repetida_do_cache_witness :
  linha_de_pergunta ascii_lower ascii_isspace (lit "2+2?") /\
  offline Exemplo.terminal0 = false /\
  sem_cache (mundo (sistema Exemplo.terminal0))
    (strip ascii_isspace (lit "2+2?")) [] true /\
  geracao (cli_amb (Exemplo.cli Exemplo.amb_ok)) (mundo (sistema Exemplo.terminal0))
    (strip ascii_isspace (lit "2+2?")) (lit "4") /\
  last (stdout (sistema
          (snd (iteracao Exemplo.isoformat ascii_lower ascii_isspace sum_esquerda
                  (Exemplo.cli Exemplo.amb_baixa) (Linha (lit "2+2?"))
                  (snd (iteracao Exemplo.isoformat ascii_lower ascii_isspace
                          sum_esquerda (Exemplo.cli Exemplo.amb_ok)
                          (Linha (lit "2+2?")) Exemplo.terminal0))))))
  = Some (Texto (lit "4")).
Proof.
  assert (H1 : linha_de_pergunta ascii_lower ascii_isspace (lit "2+2?")).
  { split; [vm_compute; discriminate|].
    split; [|vm_compute; reflexivity].
    vm_compute. intros [H | [H | [H | [H | []]]]]; discriminate H. }
  assert (H2 : offline Exemplo.terminal0 = false) by reflexivity.
  assert (H3 : sem_cache (mundo (sistema Exemplo.terminal0))
                 (strip ascii_isspace (lit "2+2?")) [] true)
    by (vm_compute; reflexivity).
  assert (H4 : geracao (cli_amb (Exemplo.cli Exemplo.amb_ok))
                 (mundo (sistema Exemplo.terminal0))
                 (strip ascii_isspace (lit "2+2?")) (lit "4"))
    by (split; vm_compute; reflexivity).
  split; [exact H1|]. split; [exact H2|]. split; [exact H3|]. split; [exact H4|].
  exact (proj1 (proj2 (proj2 (proj2
           (pergunta_repetida_do_cache Exemplo.isoformat ascii_lower ascii_isspace
              sum_esquerda (Exemplo.cli Exemplo.amb_ok) (Exemplo.cli Exemplo.amb_baixa)
              (lit "2+2?") (lit "4") Exemplo.terminal0 H1 H2 H3 H4))))).
Defined.

Lemma fim_de_entrada_nao_encerra_witness :
  Forall (fun ae : @AmbienteCLI N * Entrada => exists e, snd ae = EOFError e)
    [ (Exemplo.cli Exemplo.amb_ok, EOFError (lit "EOF"));
      (Exemplo.cli Exemplo.amb_ok, EOFError (lit "EOF")) ] /\
  fst (laco Exemplo.isoformat ascii_lower ascii_isspace sum_esquerda
         [ (Exemplo.cli Exemplo.amb_ok, EOFError (lit "EOF"));
           (Exemplo.cli Exemplo.amb_ok, EOFError (lit "EOF")) ]
         Exemplo.terminal0)
  = Continua.
Proof.
  assert (H1 : Forall (fun ae : @AmbienteCLI N * Entrada =>
                         exists e, snd ae = EOFError e)
                 [ (Exemplo.cli Exemplo.amb_ok, EOFError (lit "EOF"));
                   (Exemplo.cli Exemplo.amb_ok, EOFError (lit "EOF")) ]).
  { constructor; [eexists; reflexivity|].
    constructor; [eexists; reflexivity|]. constructor. }
  split; [exact H1|].
  exact (proj1 (fim_de_entrada_nao_encerra Exemplo.isoformat ascii_lower ascii_isspace
                  sum_esquerda _ Exemplo.terminal0 H1)).
Defined.

Lemma topico_do_estudo_witness :
  strip ascii_isspace (lit "/ESTUDO listas") <> [] /\
  ~ In (ascii_lower (strip ascii_isspace (lit "/ESTUDO listas")))
      [lit "/sair"; lit "/offline"; lit "/stats"; lit "/export"] /\
  startswith (ascii_lower (strip ascii_isspace (lit "/ESTUDO listas")))
    (lit "/estudo") = true /\
  str_in (lit "/estudo") (strip ascii_isspace (lit "/ESTUDO listas")) = false /\
  mundo (sistema (snd (iteracao Exemplo.isoformat ascii_lower ascii_isspace sum_esquerda
                         (Exemplo.cli Exemplo.amb_linhas)
                         (Linha (lit "/ESTUDO listas")) Exemplo.terminal0)))
  = snd (modo_estudo ascii_lower ascii_isspace
           (cli_amb (Exemplo.cli Exemplo.amb_linhas))
           (strip ascii_isspace (lit "/ESTUDO listas")) 5
           (mundo (sistema Exemplo.terminal0))).
Proof.
  assert (H1 : strip ascii_isspace (lit "/ESTUDO listas") <> [])
    by (vm_compute; discriminate).
  assert (H2 : ~ In (ascii_lower (strip ascii_isspace (lit "/ESTUDO listas")))
                 [lit "/sair"; lit "/offline"; lit "/stats"; lit "/export"]).
  { vm_compute. intros [H | [H | [H | [H | []]]]]; discriminate H. }
  assert (H3 : startswith (ascii_lower (strip ascii_isspace (lit "/ESTUDO listas")))
                 (lit "/estudo") = true) by (vm_compute; reflexivity).
  assert (H4 : str_in (lit "/estudo") (strip ascii_isspace (lit "/ESTUDO listas"))
               = false) by (vm_compute; reflexivity).
  split; [exact H1|]. split; [exact H2|]. split; [exact H3|]. split; [exact H4|].
  exact (proj2 (topico_do_estudo Exemplo.isoformat ascii_lower ascii_isspace
                  sum_esquerda (Exemplo.cli Exemplo.amb_linhas)
                  (lit "/ESTUDO listas") Exemplo.terminal0 H1 H2 H3) H4).
Defined.

(** Typed in capitals, the command is part of the topic. *)
Example estudo_em_maiusculas :
  nth_error
    (stdout (sistema (snd (Exemplo.iteracao (Exemplo.cli Exemplo.amb_linhas)
                             (Linha (lit "/ESTUDO listas")) Exemplo.terminal0))))
    1
  = Some (Texto (NL ++ lit "📚 Gerando questões sobre /ESTUDO listas...")).
Proof. vm_compute. reflexivity. Qed.

Lemma estatisticas_apos_geracao_witness :
  sem_cache Exemplo.mundo0 (lit "2+2?") [] true /\
  geracao Exemplo.amb_ok Exemplo.mundo0 (lit "2+2?") (lit "4") /\
  estatisticas_uso Exemplo.isoformat sum_esquerda
    (self (snd (responder ascii_lower ascii_isspace Exemplo.amb_ok (lit "2+2?") []
                  false true Exemplo.mundo0)))
  = Dados
      (S (length (historico (self Exemplo.mundo0))))
      (PrimFloat.div
         (sum_esquerda
            (map it_tempo_segundos (historico (self Exemplo.mundo0))
               ++ [PrimFloat.sub (time_fim Exemplo.amb_ok)
                     (time_inicio Exemplo.amb_ok)]))
         (float_of_Z (Z.of_nat (S (length (historico (self Exemplo.mundo0)))))))
      (if true then S (size (cache_respostas (self Exemplo.mundo0)))
       else size (cache_respostas (self Exemplo.mundo0)))
      (Exemplo.isoformat match historico (self Exemplo.mundo0) with
                         | [] => now Exemplo.amb_ok
                         | primeira :: _ => it_timestamp primeira
                         end)
      (Exemplo.isoformat (now Exemplo.amb_ok)).
Proof.
  assert (H1 : sem_cache Exemplo.mundo0 (lit "2+2?") [] true)
    by (vm_compute; reflexivity).
  assert (H2 : geracao Exemplo.amb_ok Exemplo.mundo0 (lit "2+2?") (lit "4"))
    by (split; vm_compute; reflexivity).
  split; [exact H1|]. split; [exact H2|].
  exact (estatisticas_apos_geracao Exemplo.isoformat ascii_lower ascii_isspace
           sum_esquerda Exemplo.amb_ok (lit "2+2?") [] true (lit "4")
           Exemplo.mundo0 H1 H2).
Defined.

(** The statistics after the first answer of a session. *)
Example estatisticas_da_primeira_resposta :
  Exemplo.estatisticas
    (self (snd (Exemplo.responder Exemplo.amb_ok (lit "2+2?") [] false true
                  Exemplo.mundo0)))
  = Dados 1 2%float 1 (lit "7") (lit "7").
Proof. vm_compute. reflexivity. Qed.

Lemma total_conta_geracoes_witness :
  programa Exemplo.isoformat ascii_lower ascii_isspace sum_esquerda
    Exemplo.entradas_sessao None Exemplo.terminal0
  = Some (encerramento Exemplo.isoformat None
            (snd (Exemplo.laco Exemplo.entradas_sessao Exemplo.terminal0))) /\
  last (stdout (sistema
          (encerramento Exemplo.isoformat None
             (snd (Exemplo.laco Exemplo.entradas_sessao Exemplo.terminal0)))))
  = Some (Texto (NL ++ lit "📊 Total de interações: "
                    ++ lit (pretty
                              (length
                                 (historico
                                    (self
                                       (mundo
                                          (sistema
                                             (encerramento Exemplo.isoformat None
                                                (snd (Exemplo.laco
                                                        Exemplo.entradas_sessao
                                                        Exemplo.terminal0))))))))))).
Proof.
  assert (H1 : programa Exemplo.isoformat ascii_lower ascii_isspace sum_esquerda
                 Exemplo.entradas_sessao None Exemplo.terminal0
               = Some (encerramento Exemplo.isoformat None
                         (snd (Exemplo.laco Exemplo.entradas_sessao
                                 Exemplo.terminal0))))
    by (vm_compute; reflexivity).
  split; [exact H1|].
  exact (proj1 (proj2
           (total_conta_geracoes Exemplo.isoformat ascii_lower ascii_isspace
              sum_esquerda Exemplo.entradas_sessao None Exemplo.terminal0 _ H1))).
Defined.

(** A run with one question asked twice: one Interaction, one call of
    the model, one record exported. *)
Example sessao_com_pergunta_repetida :
  match Exemplo.programa Exemplo.entradas_sessao None Exemplo.terminal0 with
  | Some t' =>
      last (stdout (sistema t'))
      = Some (Texto (NL ++ lit "📊 Total de interações: 1")) /\
      length (filter e_chat (eventos (mundo (sistema t')))) = 1%nat /\
      arquivos (sistema t') !! ARQUIVO_HISTORICO
      = Some (JsonGravado
                [ {| x_timestamp := lit "7"; x_pergunta := lit "2+2?";
                     x_resposta := lit "4"; x_tempo_segundos := 2%float |} ])
  | None => False
  end.
Proof. vm_compute. repeat split; reflexivity. Qed.

Lemma monitor_concorda_com_assistente_witness :
  m_available (Exemplo.metricas (1 * Exemplo.GiB)) = mem_available Exemplo.amb_baixa /\
  pode_executar (status_recursos Exemplo.amb_baixa) = false /\
  In (Fixa MSG_RAM_INSUFICIENTE)
     (fst (verificar_compatibilidade (Exemplo.metricas (1 * Exemplo.GiB)))).
Proof.
  assert (H1 : m_available (Exemplo.metricas (1 * Exemplo.GiB))
               = mem_available Exemplo.amb_baixa) by reflexivity.
  assert (H2 : pode_executar (status_recursos Exemplo.amb_baixa) = false)
    by (vm_compute; reflexivity).
  split; [exact H1|]. split; [exact H2|].
  exact (proj2 (proj1 (proj2
           (monitor_concorda_com_assistente Exemplo.amb_baixa
              (Exemplo.metricas (1 * Exemplo.GiB)) H1))) H2).
Defined.

(** The report on 6 GiB available: the second tier, and a system that
    is ready. *)
Example relatorio_6_gib :
  snd (verificar_compatibilidade (Exemplo.metricas (6 * Exemplo.GiB))) = 6%float /\
  recomendacoes 6 = REC_5 /\ veredito 6 = MSG_PRONTO /\
  length (fst (verificar_compatibilidade (Exemplo.metricas (6 * Exemplo.GiB)))) = 20%nat.
Proof. vm_compute. repeat split; reflexivity. Qed.
